(** * Santa Monica events scraper: date/time parsing, grouping and week filter

    A shallow embedding of [script.py] and the properties of its parsing,
    grouping, filtering and description-assembly routines.

    Conventions of the embedding.
    - A Python [str] is a [string]; a character is a code point below 256
      (Latin-1), so the development covers exactly the strings made of such
      code points.
    - An event (a Python [dict] with string values) is a [gmap string string].
    - A Python [dict] whose iteration order matters is an association list in
      insertion order.
    - A [datetime] is kept as its proleptic Gregorian ordinal (the value of
      [toordinal()]) together with its time-of-day fields; comparing two
      datetimes compares these fields lexicographically.
    - Code that can raise returns a [result]; a [try]/[except] is a [match]
      on that result. *)

From Stdlib Require Import ZArith Ascii String List Lia Bool.
From Stdlib Require Import Permutation Sorted.
From stdpp Require Import base option list gmap strings sorting.

Local Open Scope Z_scope.

(** ** Exceptions *)

Inductive exn : Type :=
| ValueError
| IndexError
| KeyError
| OverflowError
| OtherError (msg : string).

Inductive result (A : Type) : Type :=
| Ok (a : A)
| Raise (e : exn).
Arguments Ok {A} a.
Arguments Raise {A} e.

(** Sequencing: the first exception raised ends the computation. *)
#[global] Instance result_bind : MBind result := fun A B f m =>
  match m with
  | Ok a => f a
  | Raise e => Raise e
  end.

(** ** Python strings *)

Module PyStr.

Definition code (c : ascii) : N := N_of_ascii c.

(** [str.isspace] on one character, which is also the class [\s] of [re]
    and the set removed by [str.strip()]. *)
Definition is_space (c : ascii) : bool :=
  let n := code c in
  ((9 <=? n) && (n <=? 13) || (28 <=? n) && (n <=? 32)
   || (n =? 133) || (n =? 160))%N.

(** The class [\d] of [re] on code points below 256. *)
Definition is_digit (c : ascii) : bool :=
  let n := code c in ((48 <=? n) && (n <=? 57))%N.

Definition digit_val (c : ascii) : Z := Z.of_N (code c) - 48.

Definition in_range (lo hi : ascii) (c : ascii) : bool :=
  ((code lo <=? code c) && (code c <=? code hi))%N.

(** [str.lower] on one character. *)
Definition lower_char (c : ascii) : ascii :=
  let n := code c in
  if ((65 <=? n) && (n <=? 90)
      || (192 <=? n) && (n <=? 222) && negb (n =? 215))%N
  then ascii_of_N (n + 32) else c.

Fixpoint lower (s : string) : string :=
  match s with
  | EmptyString => EmptyString
  | String c s' => String (lower_char c) (lower s')
  end.

Fixpoint lstrip (s : string) : string :=
  match s with
  | EmptyString => EmptyString
  | String c s' => if is_space c then lstrip s' else s
  end.

Fixpoint rstrip (s : string) : string :=
  match s with
  | EmptyString => EmptyString
  | String c s' =>
      match rstrip s' with
      | EmptyString => if is_space c then EmptyString else String c EmptyString
      | r => String c r
      end
  end.

(** [s.strip()] *)
Definition strip (s : string) : string := rstrip (lstrip s).

Definition is_empty (s : string) : bool :=
  match s with EmptyString => true | _ => false end.

(** [s.startswith(p)], arguments swapped *)
Fixpoint starts_with (p s : string) : bool :=
  match p with
  | EmptyString => true
  | String a p' =>
      match s with
      | EmptyString => false
      | String b s' => Ascii.eqb a b && starts_with p' s'
      end
  end.

(** [s.split(sep)] for a non-empty separator: the pieces between the
    non-overlapping occurrences of [sep], found from the left.  [skip]
    counts the characters of an occurrence that are still to be passed. *)
Fixpoint split_go (sep : string) (skip : nat) (s : string) : list string :=
  match s with
  | EmptyString => [EmptyString]
  | String c s' =>
      match skip with
      | S k => split_go sep k s'
      | O =>
          if starts_with sep s
          then EmptyString :: split_go sep (String.length sep - 1) s'
          else match split_go sep 0 s' with
               | seg :: rest => String c seg :: rest
               | [] => [String c EmptyString]
               end
      end
  end.

Definition split (sep : string) (s : string) : list string :=
  split_go sep 0 s.

(** [s.split()]: the maximal runs of non-whitespace characters. *)
Fixpoint split_ws (s : string) : list string :=
  match s with
  | EmptyString => []
  | String c s' =>
      if is_space c then split_ws s'
      else match s' with
           | EmptyString => [String c EmptyString]
           | String c' _ =>
               if is_space c' then String c EmptyString :: split_ws s'
               else match split_ws s' with
                    | w :: ws => String c w :: ws
                    | [] => [String c EmptyString]
                    end
           end
  end.

(** [needle in hay] *)
Fixpoint contains (needle hay : string) : bool :=
  starts_with needle hay
  || match hay with
     | EmptyString => false
     | String _ hay' => contains needle hay'
     end.

(** [sep.join(parts)] *)
Fixpoint join (sep : string) (parts : list string) : string :=
  match parts with
  | [] => EmptyString
  | [p] => p
  | p :: rest => p +:+ sep +:+ join sep rest
  end.

(** [seq[i]] *)
Definition index {A} (l : list A) (i : nat) : result A :=
  match l !! i with
  | Some a => Ok a
  | None => Raise IndexError
  end.

Fixpoint digits_acc (acc : Z) (s : string) : result Z :=
  match s with
  | EmptyString => Ok acc
  | String c s' =>
      if is_digit c then digits_acc (10 * acc + digit_val c) s'
      else Raise ValueError
  end.

(** [int(s)] on an unsigned decimal numeral with optional surrounding
    whitespace, which is all a [strptime] group can hold. *)
Definition int (s : string) : result Z :=
  match strip s with
  | EmptyString => Raise ValueError
  | t => digits_acc 0 t
  end.

End PyStr.

(** ** Backtracking regular expressions, as [re.match] runs them *)

Module Re.
Import PyStr.

Inductive re : Type :=
| Lit (c : ascii)               (* a literal, compared ignoring case *)
| Cls (p : ascii -> bool)       (* a character class *)
| Plus (p : ascii -> bool)      (* [cls+], greedy *)
| Seq (r1 r2 : re)
| Alt (r1 r2 : re)
| Group (name : string) (r : re).

(** [found.groupdict()], most recent group first. *)
Definition groups : Type := list (string * string).

Fixpoint group (g : groups) (name : string) : option string :=
  match g with
  | [] => None
  | (n, v) :: g' => if String.eqb n name then Some v else group g' name
  end.

Definition ci_eqb (p c : ascii) : bool :=
  Ascii.eqb (lower_char p) (lower_char c).

(** The tail of [cls+] after its first character: take as many as
    possible, give back one at a time when the rest fails.  [m] is the
    text matched so far. *)
Fixpoint star {A} (p : ascii -> bool) (m : string) (s : string)
    (k : string -> string -> option A) : option A :=
  match s with
  | String c s' =>
      if p c
      then match star p (m +:+ String c EmptyString) s' k with
           | Some a => Some a
           | None => k m s
           end
      else k m s
  | EmptyString => k m s
  end.

(** [rmatch r s g k]: match [r] at the start of [s].  [k] is what follows:
    it gets the text that [r] matched, the rest of [s] and the groups; an
    alternative is abandoned for the next one when [k] fails. *)
Fixpoint rmatch {A} (r : re) (s : string) (g : groups)
    (k : string -> string -> groups -> option A) : option A :=
  match r with
  | Lit p =>
      match s with
      | String c s' =>
          if ci_eqb p c then k (String c EmptyString) s' g else None
      | EmptyString => None
      end
  | Cls p =>
      match s with
      | String c s' => if p c then k (String c EmptyString) s' g else None
      | EmptyString => None
      end
  | Plus p =>
      match s with
      | String c s' =>
          if p c then star p (String c EmptyString) s' (fun m t => k m t g)
          else None
      | EmptyString => None
      end
  | Seq r1 r2 =>
      rmatch r1 s g (fun m1 t g1 =>
        rmatch r2 t g1 (fun m2 u g2 => k (m1 +:+ m2) u g2))
  | Alt r1 r2 =>
      match rmatch r1 s g k with
      | Some a => Some a
      | None => rmatch r2 s g k
      end
  | Group name r =>
      rmatch r s g (fun m t g' => k m t ((name, m) :: g'))
  end.

(** [pattern.match(s)]: the groups of the first match in priority order
    and the unmatched rest of [s]. *)
Definition re_match (r : re) (s : string) : option (string * groups) :=
  rmatch r s [] (fun _ t g => Some (t, g)).

Fixpoint lit (w : string) : re :=
  match w with
  | EmptyString => Cls (fun _ => false)
  | String c EmptyString => Lit c
  | String c w' => Seq (Lit c) (lit w')
  end.

Fixpoint alts (rs : list re) : re :=
  match rs with
  | [] => Cls (fun _ => false)
  | [r] => r
  | r :: rs' => Alt r (alts rs')
  end.

Definition d09 : re := Cls is_digit.
Definition rng (lo hi : ascii) : re := Cls (in_range lo hi).
Definition ws : re := Plus is_space.

End Re.

(** ** [datetime] *)

Module DateTime.
Import PyStr Re.

Definition MINYEAR : Z := 1.
Definition MAXYEAR : Z := 9999.
Definition MAXORDINAL : Z := 3652059.

Definition is_leap (year : Z) : bool :=
  (year mod 4 =? 0) && (negb (year mod 100 =? 0) || (year mod 400 =? 0)).

Definition days_before_year (year : Z) : Z :=
  let y := year - 1 in y * 365 + y / 4 - y / 100 + y / 400.

Definition DAYS_IN_MONTH : list Z :=
  [-1; 31; 28; 31; 30; 31; 30; 31; 31; 30; 31; 30; 31].

Definition DAYS_BEFORE_MONTH : list Z :=
  [-1; 0; 31; 59; 90; 120; 151; 181; 212; 243; 273; 304; 334].

Definition days_in_month (year month : Z) : Z :=
  if (month =? 2) && is_leap year then 29
  else nth (Z.to_nat month) DAYS_IN_MONTH 0.

Definition days_before_month (year month : Z) : Z :=
  nth (Z.to_nat month) DAYS_BEFORE_MONTH 0
  + (if (2 <? month) && is_leap year then 1 else 0).

Definition ymd2ord (year month day : Z) : Z :=
  days_before_year year + days_before_month year month + day.

(** A [datetime] value: [ordinal] is [toordinal()] of its date. *)
Record datetime : Type := mk_datetime {
  ordinal : Z;
  hour : Z;
  minute : Z;
  second : Z;
  microsecond : Z
}.

(** [datetime(year, month, day, hour, minute)], with the range checks of
    the constructor. *)
Definition new (year month day hh mm : Z) : result datetime :=
  if negb ((MINYEAR <=? year) && (year <=? MAXYEAR)) then Raise ValueError
  else if negb ((1 <=? month) && (month <=? 12)) then Raise ValueError
  else if negb ((1 <=? day) && (day <=? days_in_month year month))
  then Raise ValueError
  else if negb ((0 <=? hh) && (hh <=? 23)) then Raise ValueError
  else if negb ((0 <=? mm) && (mm <=? 59)) then Raise ValueError
  else Ok (mk_datetime (ymd2ord year month day) hh mm 0 0).

(** The calendar date [year]-[month]-[day] at midnight. *)
Definition midnight (year month day : Z) : datetime :=
  mk_datetime (ymd2ord year month day) 0 0 0 0.

(** [datetime.max], 9999-12-31 23:59:59.999999 *)
Definition max : datetime := mk_datetime MAXORDINAL 23 59 59 999999.

Definition fields (a : datetime) : list Z :=
  [ordinal a; hour a; minute a; second a; microsecond a].

Fixpoint lex_ltb (xs ys : list Z) : bool :=
  match xs, ys with
  | x :: xs', y :: ys' => (x <? y) || ((x =? y) && lex_ltb xs' ys')
  | [], _ :: _ => true
  | _, [] => false
  end.

(** [a < b], [a == b] and [a <= b] on datetimes *)
Definition ltb (a b : datetime) : bool := lex_ltb (fields a) (fields b).
Definition eqb (a b : datetime) : bool :=
  (ordinal a =? ordinal b) && (hour a =? hour b) && (minute a =? minute b)
  && (second a =? second b) && (microsecond a =? microsecond b).
Definition leb (a b : datetime) : bool := ltb a b || eqb a b.

(** [a.weekday()], Monday is 0 *)
Definition weekday (a : datetime) : Z := (ordinal a + 6) mod 7.

(** [a + timedelta(days=n)]; [a - timedelta(days=n)] is
    [add_days a (- n)]. *)
Definition add_days (a : datetime) (n : Z) : result datetime :=
  let o := ordinal a + n in
  if (0 <? o) && (o <=? MAXORDINAL)
  then Ok (mk_datetime o (hour a) (minute a) (second a) (microsecond a))
  else Raise OverflowError.

(** *** [datetime.strptime] in the C locale *)

Definition a_month : list string :=
  [""; "jan"; "feb"; "mar"; "apr"; "may"; "jun"; "jul"; "aug"; "sep";
   "oct"; "nov"; "dec"]%string.
Definition am_pm : list string := ["am"; "pm"]%string.

(** The directives of [TimeRE] that the three formats use. *)
Definition re_d : re :=          (* 3[0-1]|[1-2]\d|0[1-9]|[1-9]| [1-9] *)
  Group "d" (alts [Seq (Lit "3") (rng "0" "1"); Seq (rng "1" "2") d09;
                   Seq (Lit "0") (rng "1" "9"); rng "1" "9";
                   Seq (Lit " ") (rng "1" "9")]).
Definition re_I : re :=          (* 1[0-2]|0[1-9]|[1-9] *)
  Group "I" (alts [Seq (Lit "1") (rng "0" "2");
                   Seq (Lit "0") (rng "1" "9"); rng "1" "9"]).
Definition re_m : re :=          (* 1[0-2]|0[1-9]|[1-9] *)
  Group "m" (alts [Seq (Lit "1") (rng "0" "2");
                   Seq (Lit "0") (rng "1" "9"); rng "1" "9"]).
Definition re_M : re :=          (* [0-5]\d|\d *)
  Group "M" (alts [Seq (rng "0" "5") d09; d09]).
Definition re_Y : re :=          (* \d\d\d\d *)
  Group "Y" (Seq d09 (Seq d09 (Seq d09 d09))).
Definition re_b : re := Group "b" (alts (map lit (tail a_month))).
Definition re_p : re := Group "p" (alts (map lit am_pm)).

(** [TimeRE.pattern] of the formats: a directive becomes its regex, a run
    of whitespace becomes [\s+], anything else stands for itself. *)
Definition format_I_M_p : re :=            (* "%I:%M %p" *)
  Seq re_I (Seq (Lit ":") (Seq re_M (Seq ws re_p))).
Definition format_b_d_Y : re :=            (* "%b %d, %Y" *)
  Seq re_b (Seq ws (Seq re_d (Seq (Lit ",") (Seq ws re_Y)))).
Definition format_Y_m_d : re :=            (* "%Y-%m-%d" *)
  Seq re_Y (Seq (Lit "-") (Seq re_m (Seq (Lit "-") re_d))).

(** [l.index(x)] *)
Fixpoint list_index (l : list string) (x : string) : result Z :=
  match l with
  | [] => Raise ValueError
  | y :: l' => if String.eqb y x then Ok 0
               else (i ← list_index l' x; Ok (i + 1))
  end.

Definition int_group (found : groups) (name : string) (dflt : Z)
    : result Z :=
  match group found name with
  | Some v => int v
  | None => Ok dflt
  end.

(** [datetime.strptime(data_string, format)] for a format built from the
    directives above; a missing year is 1900, a missing month or day 1. *)
Definition strptime (format_regex : re) (data_string : string)
    : result datetime :=
  match re_match format_regex data_string with
  | None => Raise ValueError            (* does not match format *)
  | Some (rest, found) =>
      if negb (is_empty rest) then Raise ValueError  (* unconverted data *)
      else
        year ← int_group found "Y" 1900;
        month ← match group found "b" with
                | Some v => list_index a_month (lower v)
                | None => int_group found "m" 1
                end;
        day ← int_group found "d" 1;
        hh ← match group found "I" with
             | Some v =>
                 h ← int v;
                 let ampm := lower (default EmptyString (group found "p")) in
                 if String.eqb ampm "" || String.eqb ampm "am"
                 then Ok (if h =? 12 then 0 else h)
                 else if String.eqb ampm "pm"
                 then Ok (if negb (h =? 12) then h + 12 else h)
                 else Ok h
             | None => Ok 0
             end;
        mm ← int_group found "M" 0;
        new year month day hh mm
  end.

End DateTime.

(** ** Python containers *)

(** An event: a [dict] from field names to strings. *)
Abbreviation Event := (gmap string string).

(** [d.get(key, dflt)] *)
Definition dict_get (d : gmap string string) (key dflt : string) : string :=
  default dflt (d !! key).

(** A [dict] in insertion order, keys distinct. *)
Module ODict.

Fixpoint get {V} (d : list (string * V)) (k : string) : option V :=
  match d with
  | [] => None
  | (k', v) :: d' => if String.eqb k' k then Some v else get d' k
  end.

(** [d[k] = v]: a present key keeps its place, a new one goes last. *)
Fixpoint set {V} (d : list (string * V)) (k : string) (v : V)
    : list (string * V) :=
  match d with
  | [] => [(k, v)]
  | (k', v') :: d' =>
      if String.eqb k' k then (k', v) :: d' else (k', v') :: set d' k v
  end.

Definition keys {V} (d : list (string * V)) : list string := map fst d.

(** [d[k]] *)
Definition getitem {V} (d : list (string * V)) (k : string) : result V :=
  match get d k with
  | Some v => Ok v
  | None => Raise KeyError
  end.

End ODict.

(** [list.sort(key=...)] and [sorted(..., key=...)]: the sort is stable, so
    its result is fixed by the keys; it is computed here by inserting the
    elements from left to right, each one behind the elements whose key is
    not greater. *)
Section Sort.
Context {A K : Type} (key : A -> K) (lt : K -> K -> bool).

Fixpoint insert_by (x : A) (l : list A) : list A :=
  match l with
  | [] => [x]
  | y :: l' => if lt (key x) (key y) then x :: l else y :: insert_by x l'
  end.

Definition sort_by (l : list A) : list A :=
  fold_left (fun acc x => insert_by x acc) l [].
End Sort.

(** [a < b] on tuples [(datetime, int)] *)
Definition pair_ltb (a b : DateTime.datetime * Z) : bool :=
  if negb (DateTime.eqb (fst a) (fst b)) then DateTime.ltb (fst a) (fst b)
  else snd a <? snd b.

(** ** The script *)

Import PyStr DateTime.

(** [parse_time_to_minutes(time_str)] *)
Definition parse_time_to_minutes (time_str : string) : Z :=
  if is_empty time_str || String.eqb time_str "No time found" then 0
  else
    let time_parts := split " - " time_str in
    match time_parts with
    | [] => 0
    | part0 :: _ =>
        let start_time := strip part0 in
        match strptime format_I_M_p start_time with
        | Ok time_obj => hour time_obj * 60 + minute time_obj
        | Raise _ => 0
        end
    end.

(** [parse_date_for_sorting(date_str)], local to
    [organize_events_by_date] *)
Definition parse_date_for_sorting (date_str : string) : datetime :=
  match
    (seg1 ← index (split ", " date_str) 1;
     seg2 ← index (split ", " date_str) 2;
     let date_part := seg1 +:+ ", " +:+ seg2 in
     strptime format_b_d_Y date_part)
  with
  | Ok d => d
  | Raise _ => DateTime.max
  end.

(** One turn of the grouping loop: [events_by_date[date].append(event)] on
    a [defaultdict(list)]. *)
Definition group_step (events_by_date : list (string * list Event))
    (event : Event) : list (string * list Event) :=
  let date := dict_get event "date" "No date found" in
  ODict.set events_by_date date
    (default [] (ODict.get events_by_date date) ++ [event]).

(** [organize_events_by_date(events_data)] *)
Definition organize_events_by_date (events_data : list Event)
    : result (list (string * list Event)) :=
  let events_by_date := fold_left group_step events_data [] in
  let organized_events :=
    map (fun '(date, evs) =>
           (date,
            sort_by (fun x => parse_time_to_minutes (dict_get x "time" ""))
                    Z.ltb evs))
        events_by_date in
  let sorted_dates :=
    sort_by parse_date_for_sorting DateTime.ltb (ODict.keys organized_events) in
  fold_left (fun acc date =>
               final_organized ← acc;
               evs ← ODict.getitem organized_events date;
               Ok (ODict.set final_organized date evs))
            sorted_dates (Ok []).

(** *** [extract_description] *)

Definition skip_phrases : list string :=
  ["open"; "close"; "menu"; "navigation"; "contact us"; "get involved";
   "submit a request"; "careers"; "about us"; "site feedback"; "events";
   "disclaimer"; "privacy policy"; "accessibility policy"; "your city hall";
   "strategic priorities"; "city management"; "departments";
   "council and commissions"; "transparency"; "get involved";
   "participating in government"; "working at the city"]%string.

Definition link_list_words : list string :=
  ["services"; "programs"; "departments"]%string.

(** [x in l] on a list of strings *)
Definition str_in (x : string) (l : list string) : bool :=
  existsb (String.eqb x) l.

Section Soup.
(** The document tree and its queries belong to the HTML library. *)
Variable Tag : Type.
(** [tag.select(css)] *)
Variable select : Tag -> string -> list Tag.
(** [tag.select_one(css)] *)
Variable select_one : Tag -> string -> option Tag.
(** [tag.get_text(strip=True)] *)
Variable get_text : Tag -> string.
(** [child.string] of every child in [tag.children], [None] included *)
Variable children_strings : Tag -> list (option string).

(** One collecting loop: the text of every tag, kept when it is not
    empty, not yet collected and longer than [min_len]. *)
Definition collect (min_len : nat) (tags : list Tag)
    (description_parts : list string) : list string :=
  fold_left (fun parts tag =>
               let text := get_text tag in
               if negb (is_empty text) && negb (str_in text parts)
                  && (min_len <? String.length text)%nat
               then parts ++ [text] else parts)
            tags description_parts.

Definition collect_container (description_parts : list string)
    (container : Tag) : list string :=
  if is_empty (get_text container) then description_parts
  else
    let parts := collect 10 (select container "p") description_parts in
    let parts := collect 5 (select container "p > i") parts in
    let parts := collect 5 (select container "ul > li") parts in
    collect 5 (select container "p > a") parts.

Definition collect_direct_text (description_parts : list string)
    (child_string : option string) : list string :=
  match child_string with
  | Some str =>
      if negb (is_empty str) && negb (is_empty (strip str))
      then
        let text := strip str in
        if negb (is_empty text) && (10 <? String.length text)%nat
           && negb (str_in text description_parts)
        then description_parts ++ [text] else description_parts
      else description_parts
  | None => description_parts
  end.

(** [description_parts] when the filtering pass starts *)
Definition collected_parts (soup : Tag) : list string :=
  let containers := select soup "div.container" in
  let parts := fold_left collect_container containers [] in
  match select_one soup "main > div" with
  | Some main_div =>
      fold_left collect_direct_text (children_strings main_div) parts
  | None => parts
  end.

(** The test of the filtering loop: [true] when [part] is kept. *)
Definition keep_part (part : string) : bool :=
  if existsb (fun skip => contains skip (lower part)) skip_phrases
  then false
  else if (20 <? length (split_ws part))%nat
          && existsb (fun word => contains word (lower part)) link_list_words
  then false
  else true.

(** [extract_description(soup)] *)
Definition extract_description (soup : Tag) : string :=
  let description_parts := collected_parts soup in
  let filtered_parts := List.filter keep_part description_parts in
  match filtered_parts with
  | [] => "No description found"
  | _ => join " " filtered_parts
  end.

End Soup.

(** *** [filter_events_by_week] *)

Definition day_mapping : gmap string Z :=
  list_to_map [("Monday", 0); ("Tuesday", 1); ("Wednesday", 2);
               ("Thursday", 3); ("Friday", 4); ("Saturday", 5);
               ("Sunday", 6)]%string.

(** [week_start] and [week_end] of the week of [target_date] *)
Definition week_window (target_date : datetime) (week_start_num : Z)
    : result (datetime * datetime) :=
  let days_since_week_start := (weekday target_date - week_start_num) mod 7 in
  week_start ← add_days target_date (- days_since_week_start);
  week_end ← add_days week_start 6;
  Ok (week_start, week_end).

(** One turn of the filtering loop. *)
Definition filter_step (week_start week_end : datetime)
    (filtered_events : list Event) (event : Event) : list Event :=
  let date_str := dict_get event "date" "No date found" in
  if String.eqb date_str "No date found" then filtered_events
  else
    match
      (seg1 ← index (split ", " date_str) 1;
       seg2 ← index (split ", " date_str) 2;
       let date_part := seg1 +:+ ", " +:+ seg2 in
       event_date ← strptime format_b_d_Y date_part;
       Ok (if DateTime.leb week_start event_date
              && DateTime.leb event_date week_end
           then filtered_events ++ [event] else filtered_events))
    with
    | Ok filtered => filtered
    | Raise _ => filtered_events
    end.

(** [sort_key(event)], local to [filter_events_by_week] *)
Definition sort_key (event : Event) : datetime * Z :=
  let date_str := dict_get event "date" "No date found" in
  if String.eqb date_str "No date found" then (DateTime.max, 0)
  else
    match
      (seg1 ← index (split ", " date_str) 1;
       seg2 ← index (split ", " date_str) 2;
       let date_part := seg1 +:+ ", " +:+ seg2 in
       event_date ← strptime format_b_d_Y date_part;
       let time_minutes := parse_time_to_minutes (dict_get event "time" "") in
       Ok (event_date, time_minutes))
    with
    | Ok k => k
    | Raise _ => (DateTime.max, 0)
    end.

(** [filter_events_by_week(events_data, target_week_start, week_start_day)] *)
Definition filter_events_by_week (events_data : list Event)
    (target_week_start week_start_day : string) : result (list Event) :=
  let week_start_num := default 0 (day_mapping !! week_start_day) in
  match strptime format_Y_m_d target_week_start with
  | Raise _ => Ok []
  | Ok target_date =>
      '(week_start, week_end) ← week_window target_date week_start_num;
      let filtered_events :=
        fold_left (filter_step week_start week_end) events_data [] in
      Ok (sort_by sort_key pair_ltb filtered_events)
  end.

(** *** The scraping loop of [scrape_and_save_events] *)

(** The record appended by the [except] branch. *)
Definition failed_event (event_url : string) : Event :=
  list_to_map [("url", event_url);
               ("title", "Failed to scrape title");
               ("date", "Failed to scrape date");
               ("time", "Failed to scrape time");
               ("location", "Failed to scrape location");
               ("location_link", "Failed to scrape location link");
               ("description", "Failed to scrape description")]%string.

Section Scrape.
(** The body of the [try]: fetching one event page and extracting its
    fields, which gives the event's record or raises. *)
Variable scrape_event : string -> result Event.

Definition scrape_step (events_data : list Event) (event_url : string)
    : list Event :=
  match scrape_event event_url with
  | Ok event => events_data ++ [event]
  | Raise _ => events_data ++ [failed_event event_url]
  end.

(** [events_data] after the loop over [event_links] *)
Definition scrape_events (event_links : list string) : list Event :=
  fold_left scrape_step event_links [].
End Scrape.

(** ** Vocabulary of the statements *)

(** Texts of well-formed inputs. *)
Definition month_names : list string :=
  ["Jan"; "Feb"; "Mar"; "Apr"; "May"; "Jun"; "Jul"; "Aug"; "Sep"; "Oct";
   "Nov"; "Dec"]%string.

Definition month_text (m : Z) : string :=
  nth (Z.to_nat (m - 1)) month_names EmptyString.

Definition digit_char (n : Z) : ascii := ascii_of_N (Z.to_N (48 + n)).

Definition two_digits (n : Z) : string :=
  String (digit_char (n / 10)) (String (digit_char (n mod 10)) EmptyString).

(** A number below 100 in one or two digits; [pad] asks for two. *)
Definition short_number (pad : bool) (n : Z) : string :=
  if pad || (10 <=? n) then two_digits n
  else String (digit_char n) EmptyString.

Definition year_text (y : Z) : string :=
  String (digit_char (y / 1000))
    (String (digit_char (y / 100 mod 10)) (two_digits (y mod 100))).

(** "Aug 1, 2025" *)
Definition date_part_text (pad : bool) (y m d : Z) : string :=
  month_text m +:+ " " +:+ short_number pad d +:+ ", " +:+ year_text y.

(** "Monday, Aug 1, 2025" *)
Definition date_text (weekday_name : string) (pad : bool) (y m d : Z)
    : string :=
  weekday_name +:+ ", " +:+ date_part_text pad y m d.

(** "2:00 PM" *)
Definition time_text (pad : bool) (h mi : Z) (pm : bool) : string :=
  short_number pad h +:+ ":" +:+ two_digits mi +:+ " "
  +:+ (if pm then "PM" else "AM").

(** The hour of the day of [h] o'clock AM or PM. *)
Definition hour24 (h : Z) (pm : bool) : Z :=
  if pm then (if h =? 12 then 12 else h + 12)
  else (if h =? 12 then 0 else h).

(** [s] has no character [c]. *)
Fixpoint lacks (c : ascii) (s : string) : bool :=
  match s with
  | EmptyString => true
  | String x s' => negb (Ascii.eqb x c) && lacks c s'
  end.

Definition event_date (e : Event) : string := dict_get e "date" "No date found".
Definition event_time (e : Event) : string := dict_get e "time" "".

(** The second and third ", "-separated segments of [s] read, in the format
    "%b %d, %Y", as the date [d]. *)
Definition date_reads (s : string) (d : datetime) : Prop :=
  exists seg1 seg2 : string,
    split ", " s !! 1%nat = Some seg1 /\
    split ", " s !! 2%nat = Some seg2 /\
    strptime format_b_d_Y (seg1 +:+ ", " +:+ seg2) = Ok d.

(** The order of [datetime] values and of the sort keys built on them. *)
Definition dt_le (a b : datetime) : Prop := DateTime.ltb b a = false.
Definition key_le (a b : datetime * Z) : Prop := pair_ltb b a = false.
Definition minutes_of (e : Event) : Z := parse_time_to_minutes (event_time e).

(** The start of the range in a time string, as the time parser reads it. *)
Definition start_of_range (time_str : string) : string :=
  strip (hd EmptyString (split " - " time_str)).

(** What the proof about clock times checks on each of the finitely many
    texts "H:MM AM/PM" and "HH:MM AM/PM". *)
Definition clock_text_ok (pad : bool) (h mi : Z) (pm : bool) : bool :=
  let t := time_text pad h mi pm in
  lacks "-" t
  && match t with
     | String c _ => negb (Ascii.eqb c "N")
     | EmptyString => false
     end
  && match strptime format_I_M_p (strip t) with
     | Ok d => (hour d =? hour24 h pm) && (minute d =? mi)
     | Raise _ => false
     end.

Definition all_clock_texts_ok : bool :=
  forallb (fun pad =>
    forallb (fun h =>
      forallb (fun mi =>
        forallb (fun pm => clock_text_ok pad h mi pm) [true; false])
        (seqZ 0 60))
      (seqZ 1 12))
    [true; false].

(** [l] is in ascending order of [key]: no element has a smaller key than
    one before it. *)
Definition sorted_by {A K : Type} (key : A -> K) (lt : K -> K -> bool)
    (l : list A) : Prop :=
  StronglySorted (fun x y => lt (key y) (key x) = false) l.

(** The date that [date_reads] gives to [s], if there is one. *)
Definition read_date (s : string) : option datetime :=
  match split ", " s !! 1%nat, split ", " s !! 2%nat with
  | Some seg1, Some seg2 =>
      match strptime format_b_d_Y (seg1 +:+ ", " +:+ seg2) with
      | Ok d => Some d
      | Raise _ => None
      end
  | _, _ => None
  end.

(** The date of [e] reads as a day from [week_start] to [week_end]. *)
Definition in_week (week_start week_end : datetime) (e : Event) : bool :=
  match read_date (event_date e) with
  | Some d => DateTime.leb week_start d && DateTime.leb d week_end
  | None => false
  end.

(** The events of [events] whose raw date string is [k]. *)
Definition events_on (k : string) (events : list Event) : list Event :=
  List.filter (fun e => String.eqb (event_date e) k) events.

(** [name] is the name of a group of [r]. *)
Fixpoint mentions (name : string) (r : Re.re) : bool :=
  match r with
  | Re.Lit _ | Re.Cls _ | Re.Plus _ => false
  | Re.Seq r1 r2 | Re.Alt r1 r2 => mentions name r1 || mentions name r2
  | Re.Group n r' => String.eqb n name || mentions name r'
  end.

(** The seven names that [day_mapping] knows, Monday first. *)
Definition weekday_names : list string :=
  ["Monday"; "Tuesday"; "Wednesday"; "Thursday"; "Friday"; "Saturday";
   "Sunday"]%string.

(** An event with the given date and time strings and no other field. *)
Definition dated_event (date time : string) : Event :=
  <["date" := date]> (<["time" := time]> ∅).

(** A small batch of events for the examples. *)
Definition sample_events : list Event :=
  [dated_event "Monday, Aug 4, 2025" "2:00 PM - 3:30 PM";
   dated_event "Sunday, Aug 3, 2025" "1:00 PM";
   dated_event "Mon, Aug 4, 2025" "10:30 AM - 12:00 PM";
   dated_event "garbage" "";
   dated_event "Sunday, Aug 10, 2025" "No time found";
   dated_event "No date found" "9:00 AM"].

(** The groups after the grouping loop has seen [pre]: every date string
    that occurs, once, with the events that carry it in their order of
    arrival. *)
Definition grouped (d : list (string * list Event)) (pre : list Event)
    : Prop :=
  NoDup (ODict.keys d) /\
  forall k, ODict.get d k
            = match events_on k pre with [] => None | l => Some l end.

(** A toy document for the examples: a page is a list of containers, a
    container a list of paragraphs, a paragraph a text. *)
Inductive toy_tag : Type :=
| ToyPage (containers : list (list string))
| ToyContainer (paragraphs : list string)
| ToyParagraph (text : string).

Definition toy_select (tag : toy_tag) (css : string) : list toy_tag :=
  match tag with
  | ToyPage containers =>
      if String.eqb css "div.container" then map ToyContainer containers
      else []
  | ToyContainer paragraphs =>
      if String.eqb css "p" then map ToyParagraph paragraphs else []
  | ToyParagraph _ => []
  end.

Definition toy_text (tag : toy_tag) : string :=
  match tag with
  | ToyPage containers => String.concat "" (concat containers)
  | ToyContainer paragraphs => String.concat "" paragraphs
  | ToyParagraph text => text
  end.

Definition toy_extract_description (page : toy_tag) : string :=
  extract_description toy_tag toy_select (fun _ _ => None) toy_text
    (fun _ => []) page.

(** The text of a field name in the record of a failed event. *)
Fixpoint spaced (field : string) : string :=
  match field with
  | EmptyString => EmptyString
  | String c field' =>
      String (if Ascii.eqb c "_" then " "%char else c) (spaced field')
  end.

(** The records that the scraping loop leaves, one for each link. *)
Definition scraped_record (scrape_event : string -> result Event)
    (event_url : string) : Event :=
  match scrape_event event_url with
  | Ok event => event
  | Raise _ => failed_event event_url
  end.

(** ** Further vocabulary *)

(** [a == b] on tuples [(datetime, int)] *)
Definition key_eqb (a b : datetime * Z) : bool :=
  DateTime.eqb (fst a) (fst b) && (snd a =? snd b).

(** "2025-08-04", each of month and day in one or two digits *)
Definition iso_text (pad_month pad_day : bool) (y m d : Z) : string :=
  year_text y +:+ "-" +:+ short_number pad_month m +:+ "-"
  +:+ short_number pad_day d.

(** The elements of [l], each once, in the order of their first
    occurrence. *)
Fixpoint first_occurrences (l : list string) : list string :=
  match l with
  | [] => []
  | x :: l' =>
      x :: List.filter (fun y => negb (String.eqb y x)) (first_occurrences l')
  end.

(** ** More of [scrape_and_save_events] *)

(** *** The event links of the listing page *)

Section Links.
Variable Tag : Type.
Variable select : Tag -> string -> list Tag.
(** [link['href']] *)
Variable href : Tag -> string.
(** [urljoin(base, url)] of [urllib.parse] *)
Variable urljoin : string -> string -> string.

(** One turn of the loop over the links of the listing. *)
Definition link_step (event_links : list string) (link : Tag) : list string :=
  let absolute_url := urljoin "https://www.santamonica.gov" (href link) in
  if negb (str_in absolute_url event_links)
  then event_links ++ [absolute_url] else event_links.

(** [event_links] after the loop *)
Definition extract_event_links (soup : Tag) : list string :=
  fold_left link_step (select soup "div.calendar-day-events > a[href]") [].

(** The address behind each link of the listing, in document order. *)
Definition listed_urls (soup : Tag) : list string :=
  map (fun link => urljoin "https://www.santamonica.gov" (href link))
      (select soup "div.calendar-day-events > a[href]").
End Links.

(** *** The location of an event page *)

Section Location.
Variable Tag : Type.
Variable select_one : Tag -> string -> option Tag.
Variable get_text : Tag -> string.

(** [location], as the record of an event gets it *)
Definition location (soup : Tag) : string :=
  let location_link_element :=
    select_one soup
      "div.row > div:nth-child(2) > div > div > div:nth-child(1) > a" in
  let location_name :=
    match location_link_element with
    | Some element => get_text element
    | None => EmptyString
    end in
  let location_name :=
    if is_empty location_name
    then
      match select_one soup
              "div.row > div:nth-child(2) > div > div > div:nth-child(1)" with
      | Some location_container => get_text location_container
      | None => location_name
      end
    else location_name in
  let location_detail1_text :=
    match select_one soup
            "div.row > div:nth-child(2) > div > div > div:nth-child(2)" with
    | Some location_detail1 => get_text location_detail1
    | None => EmptyString
    end in
  let location_detail2_text :=
    match select_one soup
            "div.row > div:nth-child(2) > div > div > div:nth-child(3)" with
    | Some location_detail2 => get_text location_detail2
    | None => EmptyString
    end in
  let location_parts :=
    [location_name; location_detail1_text; location_detail2_text] in
  let location_parts :=
    List.filter (fun part => negb (is_empty part)) location_parts in
  match location_parts with
  | [] => "No location found"
  | _ => join ", " location_parts
  end.
End Location.

(** *** The two prompts *)

(** What one call of [input()] gives: a line, [KeyboardInterrupt], or
    another exception (as [EOFError] on a closed input). *)
Inductive console : Type :=
| Line (s : string)
| Interrupt
| InputError.

(** The outcome of a prompt on the calls of [input()] that are known: a
    value and the calls that are left, the [return] after an interrupt, or
    a loop that is still asking when the known calls are used up. *)
Inductive prompted (A : Type) : Type :=
| Chosen (a : A) (rest : list console)
| Cancelled
| Asking.
Arguments Chosen {A} a rest.
Arguments Cancelled {A}.
Arguments Asking {A}.

Definition day_choices : gmap string string :=
  list_to_map [("1", "Monday"); ("2", "Tuesday"); ("3", "Wednesday");
               ("4", "Thursday"); ("5", "Friday"); ("6", "Saturday");
               ("7", "Sunday")]%string.

(** The loop that asks for the first day of the week. *)
Fixpoint prompt_week_start_day (inputs : list console) : prompted string :=
  match inputs with
  | [] => Asking
  | Line s :: rest =>
      let choice := strip s in
      if str_in choice ["1"; "2"; "3"; "4"; "5"; "6"; "7"]%string
      then match day_choices !! choice with
           | Some week_start_day => Chosen week_start_day rest
           | None => prompt_week_start_day rest      (* [except:] *)
           end
      else prompt_week_start_day rest
  | Interrupt :: _ => Cancelled
  | InputError :: rest => prompt_week_start_day rest
  end.

(** The loop that asks for the target week. *)
Fixpoint prompt_target_week (inputs : list console) : prompted string :=
  match inputs with
  | [] => Asking
  | Line s :: rest =>
      let target_week := strip s in
      match strptime format_Y_m_d target_week with
      | Ok _ => Chosen target_week rest
      | Raise _ => prompt_target_week rest
      end
  | Interrupt :: _ => Cancelled
  | InputError :: rest => prompt_target_week rest
  end.

(** The head of [scrape_and_save_events]: the two parameters, asked for
    when they are [None]. *)
Definition ask_parameters (week_start_day target_week : option string)
    (inputs : list console) : prompted (string * string) :=
  match
    match week_start_day with
    | None => prompt_week_start_day inputs
    | Some day => Chosen day inputs
    end
  with
  | Chosen week_start_day rest =>
      match
        match target_week with
        | None => prompt_target_week rest
        | Some target => Chosen target rest
        end
      with
      | Chosen target_week rest' => Chosen (week_start_day, target_week) rest'
      | Cancelled => Cancelled
      | Asking => Asking
      end
  | Cancelled => Cancelled
  | Asking => Asking
  end.

(** An entry that the first prompt takes. *)
Definition is_day_choice (c : console) : bool :=
  match c with
  | Line s => str_in (strip s) ["1"; "2"; "3"; "4"; "5"; "6"; "7"]%string
  | _ => false
  end.

(** An entry that the second prompt takes. *)
Definition is_target_week (c : console) : bool :=
  match c with
  | Line s =>
      match strptime format_Y_m_d (strip s) with
      | Ok _ => true
      | Raise _ => false
      end
  | _ => false
  end.

Definition is_interrupt (c : console) : bool :=
  match c with Interrupt => true | _ => false end.

(** A page on which a phrase of the denylist comes about by joining. *)
Definition toy_page_joined_phrase : toy_tag :=
  ToyPage [["Please kindly contact"; "us for more details"]%string].

(** An entry that a prompt passes over: no interrupt, and nothing that
    [take] accepts. *)
Definition passed_over (take : console -> bool) (c : console) : bool :=
  negb (is_interrupt c) && negb (take c).

(** The text of the choice number [n], as "3". *)
Definition choice_text (n : nat) : string :=
  String (digit_char (Z.of_nat n)) EmptyString.

(** *** The run as a whole *)

Section Run.
Variable Tag : Type.
Variable select : Tag -> string -> list Tag.
Variable href : Tag -> string.
Variable urljoin : string -> string -> string.
(** [requests.get(url, headers=headers)], [raise_for_status()] and the
    parse of the listing page *)
Variable fetch_listing : result Tag.
(** The body of the [try] of the scraping loop. *)
Variable scrape_event : string -> result Event.
(** [open(name, 'w', encoding='utf-8')] *)
Variable open_to_write : string -> result unit.

(** [f'events_week_{target_week}_{week_start_day.lower()}.json'] *)
Definition week_file_name (target_week week_start_day : string) : string :=
  "events_week_" +:+ target_week +:+ "_" +:+ lower week_start_day
  +:+ ".json".

(** The body of [scrape_and_save_events] once both parameters are there.
    A run is described by the files it writes, in the order of writing,
    each with the records dumped into it; whatever is raised on the way is
    caught by the outer [except], which ends the run. *)
Definition save_events (week_start_day target_week : string)
    : list (string * list Event) :=
  match fetch_listing with
  | Raise _ => []
  | Ok soup =>
      let event_links := extract_event_links Tag select href urljoin soup in
      let events_data := scrape_events scrape_event event_links in
      match open_to_write "events.json" with
      | Raise _ => []
      | Ok _ =>
          match
            filter_events_by_week events_data target_week week_start_day
          with
          | Raise _ => [("events.json"%string, events_data)]
          | Ok filtered_events =>
              let filename := week_file_name target_week week_start_day in
              match open_to_write filename with
              | Raise _ => [("events.json"%string, events_data)]
              | Ok _ => [("events.json"%string, events_data);
                         (filename, filtered_events)]
              end
          end
      end
  end.

(** [scrape_and_save_events(week_start_day, target_week)] on the known
    calls of [input()]: the files written, or [None] while a prompt is
    still asking. *)
Definition scrape_and_save_events (week_start_day target_week : option string)
    (inputs : list console) : option (list (string * list Event)) :=
  match ask_parameters week_start_day target_week inputs with
  | Chosen (day, target) _ => Some (save_events day target)
  | Cancelled => Some []
  | Asking => None
  end.

(** [run_with_week_start(week_start_day, target_week)] *)
Definition run_with_week_start (week_start_day target_week : option string)
    (inputs : list console) : option (list (string * list Event)) :=
  scrape_and_save_events week_start_day target_week inputs.
End Run.

(** A listing of three links, two of them to one page, for the examples. *)
Definition toy_scrape_event (event_url : string) : result Event :=
  if String.eqb event_url "/a"
  then Ok (dated_event "Monday, Aug 4, 2025" "2:00 PM")
  else Raise ValueError.

Definition toy_run (inputs : list console)
    : option (list (string * list Event)) :=
  scrape_and_save_events string
    (fun _ _ => ["/b"; "/a"; "/b"]%string) (fun link => link)
    (fun _ url => url) (Ok EmptyString) toy_scrape_event (fun _ => Ok tt)
    None None inputs.

(** Every character of [s] is in the class [p]. *)
Fixpoint all_chars (p : ascii -> bool) (s : string) : bool :=
  match s with
  | EmptyString => true
  | String c s' => p c && all_chars p s'
  end.

(** The texts that a regular expression stands for. *)
Inductive lang : Re.re -> string -> Prop :=
| lang_Lit p c : Re.ci_eqb p c = true -> lang (Re.Lit p) (String c EmptyString)
| lang_Cls p c : p c = true -> lang (Re.Cls p) (String c EmptyString)
| lang_Plus p c s :
    p c = true -> all_chars p s = true -> lang (Re.Plus p) (String c s)
| lang_Seq r1 r2 a b : lang r1 a -> lang r2 b -> lang (Re.Seq r1 r2) (a +:+ b)
| lang_Alt_l r1 r2 a : lang r1 a -> lang (Re.Alt r1 r2) a
| lang_Alt_r r1 r2 a : lang r2 a -> lang (Re.Alt r1 r2) a
| lang_Group name r a : lang r a -> lang (Re.Group name r) a.

(** One or two digits: an hour, a minute, a month. *)
Definition short_digits (s : string) : Prop :=
  all_chars is_digit s = true /\ (1 <= String.length s <= 2)%nat.

(** A clock time as the time parser takes it: an hour and a minute of one
    or two digits each around a colon, white space, and AM or PM in any
    letter case. *)
Definition clock_shape (s : string) : Prop :=
  exists hh mm sp ap : string,
    s = hh +:+ ":" +:+ mm +:+ sp +:+ ap /\
    short_digits hh /\ short_digits mm /\
    all_chars is_space sp = true /\ (1 <= String.length sp)%nat /\
    (lower ap = "am"%string \/ lower ap = "pm"%string).

(** A date as the week filter takes it for its target: a year of four
    digits, a month and a day of one or two digits each, with "-" between;
    a day of one digit may have a space before it. *)
Definition iso_shape (s : string) : Prop :=
  exists yyyy mm dd : string,
    s = yyyy +:+ "-" +:+ mm +:+ "-" +:+ dd /\
    all_chars is_digit yyyy = true /\ String.length yyyy = 4%nat /\
    short_digits mm /\
    (short_digits dd \/
     exists c, dd = String " " (String c EmptyString) /\ is_digit c = true).

(** ** Dates and times as they are written *)

(** [s] is the text "<weekday>, <Mon> <day>, <year>" of the day [y]-[m]-[d]
    of the calendar, alone or followed by ", " and any further text. *)
Definition names_day (s : string) (y m d : Z) : Prop :=
  exists (wd : string) (pad : bool),
    lacks "," wd = true /\
    1 <= y <= 9999 /\ 1 <= m <= 12 /\ 1 <= d <= days_in_month y m /\
    (s = date_text wd pad y m d \/
     exists more : string, s = date_text wd pad y m d +:+ ", " +:+ more).

(** [s] is the clock time [h]:[mi] AM or PM, alone or followed by " - " and
    any end of a range. *)
Definition names_time (s : string) (h mi : Z) (pm : bool) : Prop :=
  exists pad : bool,
    1 <= h <= 12 /\ 0 <= mi <= 59 /\
    (s = time_text pad h mi pm \/
     exists end_time : string,
       s = time_text pad h mi pm +:+ " - " +:+ end_time).

(** The day [y]-[m]-[d] comes before the day [y']-[m']-[d']. *)
Definition day_lt (y m d y' m' d' : Z) : Prop :=
  y < y' \/ (y = y' /\ (m < m' \/ (m = m' /\ d < d'))).

(** A batch of events around the week of 2025-08-04 for the examples: dates
    of three and of more segments, a day before the week, and dates that
    are not read. *)
Definition week_events : list Event :=
  [dated_event "Monday, Aug 4, 2025, 7 PM" "2:00 PM - 3:30 PM";
   dated_event "Sunday, Aug 3, 2025" "1:00 PM";
   dated_event "Sunday, Aug 10, 2025" "9:00 AM";
   dated_event "Mon, Aug 4, 2025" "10:30 AM - 12:00 PM";
   dated_event "Aug 5, 2025" "8:00 AM";
   dated_event "No date found" "9:00 AM"].

(** ** Strings *)

Import Re.

Lemma app_cons (c : ascii) (a b : string) :
  String c a +:+ b = String c (a +:+ b).
Proof. reflexivity. Qed.

Lemma app_empty_l (b : string) : EmptyString +:+ b = b.
Proof. reflexivity. Qed.

Lemma split_go_skip (sep u b : string) :
  split_go sep (String.length u) (u +:+ b) = split_go sep 0 b.
Proof.
  induction u as [|c u IH]; [reflexivity|].
  rewrite app_cons. simpl. destruct b; exact IH.
Qed.
Lemma prefix_self_app (u b : string) : starts_with u (u +:+ b) = true.
Proof.
  induction u as [|c u IH]; [destruct b; reflexivity|].
  rewrite app_cons. cbn [starts_with]. now rewrite Ascii.eqb_refl.
Qed.

Lemma split_first (sep a b : string) :
  sep <> EmptyString ->
  (forall pre c t, a = pre +:+ String c t ->
     starts_with sep (String c t +:+ sep +:+ b) = false) ->
  split sep (a +:+ sep +:+ b) = a :: split sep b.
Proof.
  intros Hsep. unfold split. induction a as [|c a IH]; intros Hocc.
  - rewrite app_empty_l. destruct sep as [|c0 sep']; [congruence|].
    rewrite app_cons.
    change (split_go (String c0 sep') 0 (String c0 (sep' +:+ b)))
      with (if starts_with (String c0 sep') (String c0 (sep' +:+ b))
            then EmptyString
                 :: split_go (String c0 sep')
                      (String.length (String c0 sep') - 1) (sep' +:+ b)
            else match split_go (String c0 sep') 0 (sep' +:+ b) with
                 | seg :: rest => String c0 seg :: rest
                 | [] => [String c0 EmptyString]
                 end).
    rewrite <- app_cons, prefix_self_app.
    replace (String.length (String c0 sep') - 1)%nat with (String.length sep')
      by (simpl; lia).
    now rewrite split_go_skip.
  - rewrite app_cons.
    change (split_go sep 0 (String c (a +:+ sep +:+ b)))
      with (if starts_with sep (String c (a +:+ sep +:+ b))
            then EmptyString
                 :: split_go sep (String.length sep - 1) (a +:+ sep +:+ b)
            else match split_go sep 0 (a +:+ sep +:+ b) with
                 | seg :: rest => String c seg :: rest
                 | [] => [String c EmptyString]
                 end).
    rewrite <- app_cons, (Hocc EmptyString c a eq_refl).
    rewrite IH; [reflexivity|].
    intros pre c' t ->. apply (Hocc (String c pre) c' t). reflexivity.
Qed.

Lemma split_none (sep a : string) :
  (forall pre c t, a = pre +:+ String c t ->
     starts_with sep (String c t) = false) ->
  split sep a = [a].
Proof.
  unfold split. induction a as [|c a IH]; intros Hocc; [reflexivity|].
  change (split_go sep 0 (String c a))
    with (if starts_with sep (String c a)
          then EmptyString :: split_go sep (String.length sep - 1) a
          else match split_go sep 0 a with
               | seg :: rest => String c seg :: rest
               | [] => [String c EmptyString]
               end).
  rewrite (Hocc EmptyString c a eq_refl), IH; [reflexivity|].
  intros pre c' t ->. apply (Hocc (String c pre) c' t). reflexivity.
Qed.

Lemma lacks_app (c : ascii) (a b : string) :
  lacks c (a +:+ b) = lacks c a && lacks c b.
Proof.
  induction a as [|x a IH]; [reflexivity|].
  rewrite app_cons. simpl. rewrite IH. now rewrite andb_assoc.
Qed.

Lemma lacks_suffix (c : ascii) (pre t : string) :
  lacks c (pre +:+ t) = true -> lacks c t = true.
Proof. rewrite lacks_app. now intros [_ ?]%andb_true_iff. Qed.

Lemma ascii_eqb_false_sym (x c : ascii) :
  negb (Ascii.eqb x c) = true -> x <> c.
Proof. intros H ->. now rewrite Ascii.eqb_refl in H. Qed.

Lemma prefix_comma_lacks (t r : string) (x : ascii) :
  lacks "," (String x t) = true -> starts_with ", " (String x r) = false.
Proof.
  cbn [lacks starts_with]. intros [Hx _]%andb_true_iff.
  rewrite Ascii.eqb_sym. now apply negb_true_iff in Hx as ->.
Qed.

Lemma split_comma_first (a b : string) :
  lacks "," a = true -> split ", " (a +:+ ", " +:+ b) = a :: split ", " b.
Proof.
  intros Ha. apply split_first; [discriminate|].
  intros pre c t ->. rewrite app_cons.
  apply (prefix_comma_lacks t). now apply lacks_suffix in Ha.
Qed.

Lemma split_comma_none (a : string) :
  lacks "," a = true -> split ", " a = [a].
Proof.
  intros Ha. apply split_none. intros pre c t ->.
  apply (prefix_comma_lacks t). now apply lacks_suffix in Ha.
Qed.

Lemma prefix_dash_lacks (t r : string) (x : ascii) :
  lacks "-" (String x t) = true ->
  starts_with " - " (String x (t +:+ " - " +:+ r)) = false.
Proof.
  cbn [lacks starts_with]. intros [Hx Ht]%andb_true_iff.
  destruct (Ascii.eqb " " x); [|reflexivity].
  destruct t as [|y t]; [reflexivity|].
  rewrite app_cons. cbn [lacks] in Ht. apply andb_true_iff in Ht as [Hy _].
  cbn [andb starts_with]. rewrite Ascii.eqb_sym.
  now apply negb_true_iff in Hy as ->.
Qed.

Lemma split_dash_first (a b : string) :
  lacks "-" a = true -> split " - " (a +:+ " - " +:+ b) = a :: split " - " b.
Proof.
  intros Ha. apply split_first; [discriminate|].
  intros pre c t ->. rewrite app_cons.
  apply prefix_dash_lacks. now apply lacks_suffix in Ha.
Qed.

Lemma prefix_dash_lacks_end (t : string) (x : ascii) :
  lacks "-" (String x t) = true -> starts_with " - " (String x t) = false.
Proof.
  cbn [lacks starts_with]. intros [Hx Ht]%andb_true_iff.
  destruct (Ascii.eqb " " x); [|reflexivity].
  destruct t as [|y t]; [reflexivity|].
  cbn [lacks] in Ht. apply andb_true_iff in Ht as [Hy _].
  cbn [andb starts_with]. rewrite Ascii.eqb_sym.
  now apply negb_true_iff in Hy as ->.
Qed.

Lemma split_dash_none (a : string) :
  lacks "-" a = true -> split " - " a = [a].
Proof.
  intros Ha. apply split_none. intros pre c t ->.
  apply prefix_dash_lacks_end. now apply lacks_suffix in Ha.
Qed.
(** ** The time parser *)

Lemma split_nonempty (sep s : string) : split sep s <> [].
Proof.
  unfold split. generalize 0%nat as skip.
  induction s as [|c s IH]; intros skip; [discriminate|].
  destruct skip as [|k]; cbn [split_go]; [|apply IH].
  destruct (starts_with sep (String c s)); [discriminate|].
  now destruct (split_go sep 0 s).
Qed.

Lemma all_clock_texts_checked : all_clock_texts_ok = true.
Proof. vm_compute. reflexivity. Qed.

Lemma clock_text_checked (pad : bool) (h mi : Z) (pm : bool) :
  1 <= h <= 12 -> 0 <= mi <= 59 -> clock_text_ok pad h mi pm = true.
Proof.
  intros Hh Hmi. pose proof all_clock_texts_checked as H.
  unfold all_clock_texts_ok in H.
  rewrite forallb_forall in H.
  specialize (H pad ltac:(destruct pad; simpl; tauto)).
  rewrite forallb_forall in H.
  specialize (H h ltac:(apply list_elem_of_In, elem_of_seqZ; lia)).
  rewrite forallb_forall in H.
  specialize (H mi ltac:(apply list_elem_of_In, elem_of_seqZ; lia)).
  rewrite forallb_forall in H.
  apply H. destruct pm; simpl; tauto.
Qed.

Lemma parse_time_of_start (s start : string) (rest : list string)
    (c : ascii) (s' : string) :
  s = String c s' -> Ascii.eqb c "N" = false ->
  split " - " s = start :: rest ->
  parse_time_to_minutes s =
    match strptime format_I_M_p (strip start) with
    | Ok time_obj => hour time_obj * 60 + minute time_obj
    | Raise _ => 0
    end.
Proof.
  intros -> Hc Hsplit. unfold parse_time_to_minutes. rewrite Hsplit.
  cbn [is_empty orb]. 
  replace (String.eqb (String c s') "No time found") with false; [reflexivity|].
  cbn [String.eqb]. now rewrite Hc.
Qed.

Lemma new_fields (y m d hh mm : Z) (t : datetime) :
  new y m d hh mm = Ok t ->
  ordinal t = ymd2ord y m d /\ hour t = hh /\ minute t = mm /\
  second t = 0 /\ microsecond t = 0 /\
  (1 <= y <= 9999 /\ 1 <= m <= 12 /\ 1 <= d <= days_in_month y m) /\
  0 <= hh <= 23 /\ 0 <= mm <= 59.
Proof.
  unfold new, MINYEAR, MAXYEAR.
  repeat match goal with
         | |- context [negb (?a && ?b)] =>
             destruct a eqn:?; destruct b eqn:?; cbn [negb andb];
             try discriminate
         end.
  intros [= <-]. cbn. repeat split; lia.
Qed.

Lemma strptime_time_range (r : re) (s : string) (t : datetime) :
  strptime r s = Ok t -> 0 <= hour t <= 23 /\ 0 <= minute t <= 59.
Proof.
  unfold strptime. destruct (re_match r s) as [[rest found]|]; [|discriminate].
  destruct (negb (is_empty rest)); [discriminate|].
  destruct (int_group found "Y" 1900) as [y|]; [|discriminate].
  cbn [mbind result_bind].
  destruct (match group found "b" with
            | Some v => list_index a_month (lower v)
            | None => int_group found "m" 1
            end) as [m|]; [|discriminate].
  destruct (int_group found "d" 1) as [d|]; [|discriminate].
  destruct (match group found "I" with
            | Some v => _
            | None => Ok 0
            end) as [hh|]; [|discriminate].
  destruct (int_group found "M" 0) as [mm|]; [|discriminate].
  intros H%new_fields. lia.
Qed.

Lemma parse_time_range (time_str : string) :
  0 <= parse_time_to_minutes time_str < 1440.
Proof.
  unfold parse_time_to_minutes.
  destruct (is_empty time_str || String.eqb time_str "No time found"); [lia|].
  destruct (split " - " time_str) as [|part0 rest]; [lia|].
  destruct (strptime format_I_M_p (strip part0)) as [t|] eqn:Ht; [|lia].
  apply strptime_time_range in Ht. lia.
Qed.

(** C5. The time parser falls back to 0: on the empty string, on the
    sentinel "No time found", and on every string whose start of range (the
    text before the first " - ", stripped) [strptime] rejects.  It is a
    total function, so no input makes it raise, and what it returns is
    always a minute of the day. *)
Theorem parse_time_fallback :
  parse_time_to_minutes "" = 0 /\
  parse_time_to_minutes "No time found" = 0 /\
  (forall (time_str : string) (e : exn),
     strptime format_I_M_p (start_of_range time_str) = Raise e ->
     parse_time_to_minutes time_str = 0) /\
  (forall time_str : string, 0 <= parse_time_to_minutes time_str < 1440).
Proof.
  split; [reflexivity|]. split; [reflexivity|].
  split; [|apply parse_time_range].
  intros time_str e He. unfold parse_time_to_minutes, start_of_range in *.
  destruct (is_empty time_str || String.eqb time_str "No time found");
    [reflexivity|].
  destruct (split " - " time_str) as [|part0 rest]; [reflexivity|].
  cbn [hd] in He. now rewrite He.
Qed.

Lemma parse_time_fallback_witness :
  parse_time_to_minutes "half past nine - 10:00 AM" = 0 /\
  parse_time_to_minutes "13:00 PM" = 0 /\
  parse_time_to_minutes "10:30" = 0.
Proof.
  destruct parse_time_fallback as (_ & _ & H & _).
  split; [|split].
  - apply (H "half past nine - 10:00 AM" ValueError). vm_compute. reflexivity.
  - apply (H "13:00 PM" ValueError). vm_compute. reflexivity.
  - apply (H "10:30" ValueError). vm_compute. reflexivity.
Defined.

(** C4. On a 12-hour clock time "H:MM AM/PM" or "HH:MM AM/PM", alone or
    followed by " - " and any end time, the time parser returns the hour of
    the day times 60 plus the minute; the end time has no effect. *)
Theorem parse_time_start_of_range
    (pad : bool) (h mi : Z) (pm : bool) (end_time : string) :
  1 <= h <= 12 -> 0 <= mi <= 59 ->
  parse_time_to_minutes (time_text pad h mi pm) = hour24 h pm * 60 + mi /\
  parse_time_to_minutes (time_text pad h mi pm +:+ " - " +:+ end_time)
    = hour24 h pm * 60 + mi.
Proof.
  intros Hh Hmi. pose proof (clock_text_checked pad h mi pm Hh Hmi) as Hok.
  unfold clock_text_ok in Hok. cbv zeta in Hok.
  apply andb_true_iff in Hok as [Hok Hparse].
  apply andb_true_iff in Hok as [Hdash Hfirst].
  destruct (time_text pad h mi pm) as [|c t'] eqn:Ht; [discriminate|].
  apply negb_true_iff in Hfirst.
  destruct (strptime format_I_M_p (strip (String c t'))) as [d|] eqn:Hd;
    [|discriminate].
  apply andb_true_iff in Hparse as [Hhour Hmin].
  apply Z.eqb_eq in Hhour, Hmin.
  split.
  - rewrite (parse_time_of_start _ (String c t') [] c t' eq_refl Hfirst).
    + rewrite Hd. now rewrite Hhour, Hmin.
    + now apply split_dash_none.
  - rewrite app_cons.
    rewrite (parse_time_of_start _ (String c t') (split " - " end_time) c
               (t' +:+ " - " +:+ end_time) eq_refl Hfirst).
    + rewrite Hd. now rewrite Hhour, Hmin.
    + rewrite <- app_cons. now apply split_dash_first.
Qed.

Lemma parse_time_start_of_range_witness :
  parse_time_to_minutes "2:00 PM - 3:30 PM" = 840 /\
  parse_time_to_minutes "2:00 PM" = 840.
Proof.
  destruct (parse_time_start_of_range false 2 0 true "3:30 PM"
              ltac:(lia) ltac:(lia)) as [H1 H2].
  split; [exact H2|exact H1].
Defined.
(** ** [strptime] on well-formed dates *)

(** Case analysis on an integer known to lie in a short interval. *)
Ltac enum_Z x lo n :=
  let H := fresh "Hin" in
  assert (H : x ∈ seqZ lo n) by (apply elem_of_seqZ; lia);
  vm_compute in H;
  repeat (apply elem_of_cons in H as [-> | H]);
  [.. | now apply elem_of_nil in H].

(** Linear arithmetic with quotients and remainders by constants. *)
Ltac div_lia := Z.div_mod_to_equations; lia.

Lemma rmatch_month {A} (m : Z) (rest : string) (g : groups)
    (k : string -> string -> groups -> option A) (a : A) :
  1 <= m <= 12 ->
  k (month_text m) rest (("b"%string, month_text m) :: g) = Some a ->
  rmatch re_b (month_text m +:+ rest) g k = Some a.
Proof.
  intros Hm Hk. enum_Z m 1 12;
    vm_compute in Hk |- *; rewrite Hk; reflexivity.
Qed.

Lemma rmatch_day {A} (pad : bool) (d : Z) (rest : string) (g : groups)
    (k : string -> string -> groups -> option A) (a : A) :
  1 <= d <= 31 ->
  k (short_number pad d) (String "," rest)
    (("d"%string, short_number pad d) :: g) = Some a ->
  rmatch re_d (short_number pad d +:+ String "," rest) g k = Some a.
Proof.
  intros Hd Hk. destruct pad; enum_Z d 1 31;
    vm_compute in Hk |- *; rewrite Hk; reflexivity.
Qed.

Lemma digit_not_space (c : ascii) : is_digit c = true -> is_space c = false.
Proof.
  destruct c as [[] [] [] [] [] [] [] []]; vm_compute; congruence.
Qed.

Lemma rmatch_ws_one {A} (c : ascii) (rest : string) (g : groups)
    (k : string -> string -> groups -> option A) :
  is_space c = false ->
  rmatch ws (String " " (String c rest)) g k = k " "%string (String c rest) g.
Proof.
  intros Hc. unfold ws. cbn [rmatch star].
  change (is_space " ") with true. cbn iota. now rewrite Hc.
Qed.

Lemma rmatch_year {A} (c1 c2 c3 c4 : ascii) (rest : string) (g : groups)
    (k : string -> string -> groups -> option A) :
  is_digit c1 = true -> is_digit c2 = true ->
  is_digit c3 = true -> is_digit c4 = true ->
  let y := String c1 (String c2 (String c3 (String c4 EmptyString))) in
  rmatch re_Y (String c1 (String c2 (String c3 (String c4 rest)))) g k
  = k y rest (("Y"%string, y) :: g).
Proof.
  intros H1 H2 H3 H4 y. unfold re_Y, d09. cbn [rmatch].
  now rewrite H1, H2, H3, H4.
Qed.

Lemma digit_char_is_digit (n : Z) :
  0 <= n <= 9 -> is_digit (digit_char n) = true.
Proof. intros Hn. enum_Z n 0 10; reflexivity. Qed.

Lemma digit_char_val (n : Z) : 0 <= n <= 9 -> digit_val (digit_char n) = n.
Proof. intros Hn. enum_Z n 0 10; reflexivity. Qed.

Lemma short_number_head (pad : bool) (d : Z) :
  1 <= d <= 31 ->
  exists c t, short_number pad d = String c t /\ is_space c = false.
Proof.
  intros Hd. destruct pad; enum_Z d 1 31; eexists _, _; split; reflexivity.
Qed.

(** The match of "%b %d, %Y" on a well-formed date part. *)
Lemma re_match_date_part (pad : bool) (m d : Z) (c1 c2 c3 c4 : ascii) :
  1 <= m <= 12 -> 1 <= d <= 31 ->
  is_digit c1 = true -> is_digit c2 = true ->
  is_digit c3 = true -> is_digit c4 = true ->
  let y := String c1 (String c2 (String c3 (String c4 EmptyString))) in
  re_match format_b_d_Y
    (month_text m +:+ " " +:+ short_number pad d +:+ ", " +:+ y)
  = Some (EmptyString,
          [("Y"%string, y); ("d"%string, short_number pad d);
           ("b"%string, month_text m)]).
Proof.
  intros Hm Hd H1 H2 H3 H4 y. unfold re_match, format_b_d_Y.
  cbn [rmatch]. apply rmatch_month; [exact Hm|].
  destruct (short_number_head pad d Hd) as (c & t & Hsn & Hc).
  rewrite app_cons, app_empty_l.
  rewrite Hsn at 1. rewrite app_cons. rewrite rmatch_ws_one by exact Hc.
  rewrite <- app_cons, <- Hsn.
  change (", " +:+ y)%string with (String "," (String " " y)).
  apply rmatch_day; [exact Hd|].
  change (rmatch (Lit ",") (String "," (String " " y)))
    with (@rmatch (string * groups) (Lit ",") (String "," (String " " y))).
  cbn [rmatch]. change (ci_eqb "," ",") with true. cbn iota.
  unfold y at 1. rewrite rmatch_ws_one by (now apply digit_not_space).
  rewrite rmatch_year by assumption. reflexivity.
Qed.

Lemma int_four_digits (c1 c2 c3 c4 : ascii) :
  is_digit c1 = true -> is_digit c2 = true ->
  is_digit c3 = true -> is_digit c4 = true ->
  int (String c1 (String c2 (String c3 (String c4 EmptyString))))
  = Ok (1000 * digit_val c1 + 100 * digit_val c2 + 10 * digit_val c3
        + digit_val c4).
Proof.
  intros H1 H2 H3 H4. unfold int, strip.
  pose proof (digit_not_space _ H1) as S1.
  pose proof (digit_not_space _ H2) as S2.
  pose proof (digit_not_space _ H3) as S3.
  pose proof (digit_not_space _ H4) as S4.
  cbn [lstrip]. rewrite S1. cbn [rstrip]. rewrite S4.
  cbn [digits_acc]. rewrite H1, H2, H3, H4. f_equal. lia.
Qed.

Lemma year_text_digits (y : Z) :
  0 <= y <= 9999 ->
  exists c1 c2 c3 c4,
    year_text y = String c1 (String c2 (String c3 (String c4 EmptyString))) /\
    is_digit c1 = true /\ is_digit c2 = true /\
    is_digit c3 = true /\ is_digit c4 = true /\
    1000 * digit_val c1 + 100 * digit_val c2 + 10 * digit_val c3
    + digit_val c4 = y.
Proof.
  intros Hy. unfold year_text, two_digits. eexists _, _, _, _.
  split; [reflexivity|].
  assert (0 <= y / 1000 <= 9) by div_lia.
  assert (0 <= y / 100 mod 10 <= 9) by div_lia.
  assert (0 <= y mod 100 / 10 <= 9) by div_lia.
  assert (0 <= y mod 100 mod 10 <= 9) by div_lia.
  repeat split; try (now apply digit_char_is_digit).
  rewrite !digit_char_val by assumption. div_lia.
Qed.

Lemma int_short_number (pad : bool) (d : Z) :
  1 <= d <= 31 -> int (short_number pad d) = Ok d.
Proof. intros Hd. destruct pad; enum_Z d 1 31; reflexivity. Qed.

Lemma month_index (m : Z) :
  1 <= m <= 12 -> list_index a_month (lower (month_text m)) = Ok m.
Proof. intros Hm. enum_Z m 1 12; reflexivity. Qed.

Lemma days_in_month_le (y m : Z) : 1 <= m <= 12 -> days_in_month y m <= 31.
Proof.
  intros Hm. unfold days_in_month.
  enum_Z m 1 12; destruct (is_leap y); vm_compute; congruence.
Qed.

Lemma new_midnight (y m d : Z) :
  1 <= y <= 9999 -> 1 <= m <= 12 -> 1 <= d <= days_in_month y m ->
  new y m d 0 0 = Ok (midnight y m d).
Proof.
  intros Hy Hm Hd. unfold new, MINYEAR, MAXYEAR, midnight.
  replace ((1 <=? y) && (y <=? 9999)) with true by lia.
  replace ((1 <=? m) && (m <=? 12)) with true by lia.
  replace ((1 <=? d) && (d <=? days_in_month y m)) with true by lia.
  reflexivity.
Qed.

(** [strptime] reads a well-formed date part as the date it denotes. *)
Lemma strptime_date_part (pad : bool) (y m d : Z) :
  1 <= y <= 9999 -> 1 <= m <= 12 -> 1 <= d <= days_in_month y m ->
  strptime format_b_d_Y (date_part_text pad y m d) = Ok (midnight y m d).
Proof.
  intros Hy Hm Hd.
  assert (Hd31 : 1 <= d <= 31) by (pose proof (days_in_month_le y m Hm); lia).
  destruct (year_text_digits y ltac:(lia))
    as (c1 & c2 & c3 & c4 & Hyt & H1 & H2 & H3 & H4 & Hval).
  unfold strptime, date_part_text. rewrite Hyt.
  rewrite (re_match_date_part pad m d c1 c2 c3 c4) by assumption.
  cbn [is_empty negb].
  unfold int_group. cbn [group String.eqb Ascii.eqb Bool.eqb].
  rewrite int_four_digits by assumption. rewrite Hval.
  cbn [mbind result_bind]. rewrite month_index by assumption.
  rewrite int_short_number by assumption.
  now apply new_midnight.
Qed.

(** ** The order of datetimes and of sort keys *)

Lemma lex_ltb_irrefl (xs : list Z) : lex_ltb xs xs = false.
Proof.
  induction xs as [|x xs IH]; [reflexivity|].
  cbn [lex_ltb]. rewrite Z.ltb_irrefl, Z.eqb_refl. exact IH.
Qed.

Lemma lex_ltb_asym (xs ys : list Z) :
  lex_ltb xs ys = true -> lex_ltb ys xs = false.
Proof.
  revert ys. induction xs as [|x xs IH]; intros [|y ys]; cbn [lex_ltb];
    try congruence.
  destruct (Z.ltb_spec x y), (Z.ltb_spec y x), (Z.eqb_spec x y),
    (Z.eqb_spec y x); cbn [orb andb]; try congruence; try lia.
  apply IH.
Qed.

Lemma lex_le_trans (xs ys zs : list Z) :
  length xs = length ys -> length ys = length zs ->
  lex_ltb ys xs = false -> lex_ltb zs ys = false -> lex_ltb zs xs = false.
Proof.
  revert ys zs. induction xs as [|x xs IH]; intros [|y ys] [|z zs];
    cbn [lex_ltb length]; try congruence; try lia.
  intros [= Hxy] [= Hyz].
  destruct (Z.ltb_spec y x), (Z.ltb_spec z y), (Z.ltb_spec z x),
    (Z.eqb_spec y x), (Z.eqb_spec z y), (Z.eqb_spec z x);
    cbn [orb andb]; try congruence; try lia.
  now apply IH.
Qed.

Lemma lex_le_antisym (xs ys : list Z) :
  length xs = length ys ->
  lex_ltb ys xs = false -> lex_ltb xs ys = false -> xs = ys.
Proof.
  revert ys. induction xs as [|x xs IH]; intros [|y ys];
    cbn [lex_ltb length]; try congruence; try lia.
  intros [= Hxy].
  destruct (Z.ltb_spec y x), (Z.ltb_spec x y), (Z.eqb_spec y x),
    (Z.eqb_spec x y); cbn [orb andb]; try congruence; try lia.
  intros H1 H2. f_equal; [assumption|]. now apply IH.
Qed.

Lemma fields_inj (a b : datetime) : fields a = fields b -> a = b.
Proof. destruct a, b. unfold fields. cbn. now intros [= -> -> -> -> ->]. Qed.

Lemma dt_eqb_eq (a b : datetime) : DateTime.eqb a b = true <-> a = b.
Proof.
  split.
  - unfold DateTime.eqb. rewrite !andb_true_iff, !Z.eqb_eq.
    intros ((((H1 & H2) & H3) & H4) & H5). apply fields_inj. unfold fields.
    congruence.
  - intros ->. unfold DateTime.eqb. now rewrite !Z.eqb_refl.
Qed.

Lemma dt_ltb_irrefl (a : datetime) : DateTime.ltb a a = false.
Proof. apply lex_ltb_irrefl. Qed.

Lemma dt_ltb_asym (a b : datetime) :
  DateTime.ltb a b = true -> DateTime.ltb b a = false.
Proof. apply lex_ltb_asym. Qed.

Lemma dt_le_refl (a : datetime) : dt_le a a.
Proof. apply dt_ltb_irrefl. Qed.

Lemma dt_le_trans (a b c : datetime) : dt_le a b -> dt_le b c -> dt_le a c.
Proof. unfold dt_le, DateTime.ltb. now apply lex_le_trans. Qed.

Lemma dt_le_antisym (a b : datetime) : dt_le a b -> dt_le b a -> a = b.
Proof.
  unfold dt_le, DateTime.ltb. intros H1 H2. apply fields_inj.
  now apply lex_le_antisym.
Qed.

Lemma dt_le_total (a b : datetime) : dt_le a b \/ dt_le b a.
Proof.
  unfold dt_le. destruct (DateTime.ltb b a) eqn:H; [right|now left].
  now apply dt_ltb_asym.
Qed.

Lemma dt_leb_le (a b : datetime) : DateTime.leb a b = true <-> dt_le a b.
Proof.
  unfold DateTime.leb, dt_le. split.
  - intros [H|H]%orb_true_iff; [now apply dt_ltb_asym|].
    apply dt_eqb_eq in H as ->. apply dt_ltb_irrefl.
  - intros H. destruct (DateTime.ltb a b) eqn:Hab; [reflexivity|].
    cbn [orb]. apply dt_eqb_eq. now apply dt_le_antisym.
Qed.

(** Dates at midnight are ordered as their ordinals. *)
Lemma dt_le_midnight (a b : datetime) :
  hour a = 0 -> minute a = 0 -> second a = 0 -> microsecond a = 0 ->
  hour b = 0 -> minute b = 0 -> second b = 0 -> microsecond b = 0 ->
  dt_le a b <-> ordinal a <= ordinal b.
Proof.
  destruct a, b. unfold dt_le, DateTime.ltb, fields. cbn.
  intros -> -> -> -> -> -> -> ->.
  rewrite !Z.ltb_irrefl, !Z.eqb_refl. cbn [orb andb].
  rewrite andb_false_r, orb_false_r. rewrite Z.ltb_ge. reflexivity.
Qed.

Lemma pair_ltb_asym (a b : datetime * Z) :
  pair_ltb a b = true -> pair_ltb b a = false.
Proof.
  unfold pair_ltb. destruct (DateTime.eqb (fst a) (fst b)) eqn:Heq.
  - apply dt_eqb_eq in Heq. rewrite Heq.
    replace (DateTime.eqb (fst b) (fst b)) with true
      by (symmetry; now apply dt_eqb_eq).
    cbn [negb]. lia.
  - replace (DateTime.eqb (fst b) (fst a)) with false.
    + cbn [negb]. apply dt_ltb_asym.
    + symmetry. apply not_true_is_false. intros H%dt_eqb_eq.
      rewrite H in Heq. pose proof (proj2 (dt_eqb_eq (fst a) (fst a)) eq_refl).
      congruence.
Qed.

(** The order of the keys [(date, minutes)], spelled out. *)
Lemma key_le_spec (a b : datetime * Z) :
  key_le a b <->
  (dt_le (fst a) (fst b) /\ (fst a = fst b -> snd a <= snd b)).
Proof.
  unfold key_le, pair_ltb.
  destruct (DateTime.eqb (fst b) (fst a)) eqn:Heq; cbn [negb].
  - apply dt_eqb_eq in Heq. rewrite Heq. rewrite Z.ltb_ge.
    split; [intros H; split; [apply dt_le_refl|auto]|intros [_ H]; auto].
  - split.
    + intros H. split; [exact H|]. intros E. rewrite E in Heq.
      pose proof (proj2 (dt_eqb_eq (fst b) (fst b)) eq_refl). congruence.
    + now intros [H _].
Qed.

Lemma key_le_trans (a b c : datetime * Z) :
  key_le a b -> key_le b c -> key_le a c.
Proof.
  rewrite !key_le_spec. intros [H1 H1'] [H2 H2']. split.
  - now apply (dt_le_trans _ (fst b)).
  - intros E. rewrite E in H1.
    assert (fst b = fst c) as Ebc by (now apply dt_le_antisym).
    assert (fst a = fst b) as Eab by congruence.
    specialize (H1' Eab). specialize (H2' Ebc). lia.
Qed.

(** ** Stable sorting by key *)

Section SortFacts.
Context {A K : Type} (key : A -> K) (lt : K -> K -> bool).

Lemma insert_by_perm (x : A) (l : list A) : insert_by key lt x l ≡ₚ x :: l.
Proof.
  induction l as [|y l IH]; [reflexivity|]. cbn [insert_by].
  destruct (lt (key x) (key y)); [reflexivity|].
  rewrite IH. apply Permutation_swap.
Qed.

Lemma sort_fold_perm (l acc : list A) :
  fold_left (fun acc x => insert_by key lt x acc) l acc ≡ₚ acc ++ l.
Proof.
  revert acc. induction l as [|x l IH]; intros acc; cbn [fold_left].
  - now rewrite app_nil_r.
  - rewrite IH, insert_by_perm. cbn [app]. apply Permutation_middle.
Qed.

Lemma sort_by_perm (l : list A) : sort_by key lt l ≡ₚ l.
Proof. unfold sort_by. now rewrite sort_fold_perm. Qed.

Lemma sort_by_elem_of (x : A) (l : list A) : x ∈ sort_by key lt l <-> x ∈ l.
Proof. now rewrite sort_by_perm. Qed.

Hypothesis lt_asym : forall a b, lt a b = true -> lt b a = false.
Hypothesis le_trans :
  forall a b c, lt b a = false -> lt c b = false -> lt c a = false.

Lemma insert_by_sorted (x : A) (l : list A) :
  sorted_by key lt l -> sorted_by key lt (insert_by key lt x l).
Proof.
  unfold sorted_by. induction l as [|y l IH]; intros Hl; cbn [insert_by].
  - repeat constructor.
  - destruct (lt (key x) (key y)) eqn:Hxy.
    + constructor; [exact Hl|]. constructor; [now apply lt_asym|].
      apply StronglySorted_inv in Hl as [_ Hy].
      eapply Forall_impl; [exact Hy|]. cbn. intros z Hz.
      eapply le_trans; [|exact Hz]. now apply lt_asym.
    + apply StronglySorted_inv in Hl as [Hl Hy].
      constructor; [now apply IH|].
      rewrite insert_by_perm. now constructor.
Qed.

Lemma sort_by_sorted (l : list A) : sorted_by key lt (sort_by key lt l).
Proof.
  unfold sort_by. assert (Hnil : sorted_by key lt []) by constructor.
  revert Hnil. generalize (@nil A) as acc.
  induction l as [|x l IH]; intros acc Hacc; cbn [fold_left]; [exact Hacc|].
  apply IH. now apply insert_by_sorted.
Qed.

(** In a list sorted by key, positions follow the keys. *)
Lemma sorted_by_lookup (l : list A) (i j : nat) (x y : A) :
  sorted_by key lt l -> (i < j)%nat ->
  l !! i = Some x -> l !! j = Some y -> lt (key y) (key x) = false.
Proof.
  unfold sorted_by. intros Hl. revert i j.
  induction Hl as [|z l Hl IH Hz]; intros i j Hij Hi Hj; [easy|].
  destruct j as [|j]; [lia|]. cbn in Hj.
  destruct i as [|i].
  - cbn in Hi. injection Hi as ->.
    rewrite Forall_forall in Hz. apply Hz.
    eapply list_elem_of_lookup_2. exact Hj.
  - cbn in Hi. apply (IH i j); [lia|assumption..].
Qed.
End SortFacts.

Lemma Z_ltb_asym (a b : Z) : (a <? b) = true -> (b <? a) = false.
Proof. lia. Qed.

Lemma Z_le_trans_b (a b c : Z) :
  (b <? a) = false -> (c <? b) = false -> (c <? a) = false.
Proof. lia. Qed.

Lemma sort_by_minutes_sorted (evs : list Event) :
  sorted_by minutes_of Z.ltb (sort_by minutes_of Z.ltb evs).
Proof. apply sort_by_sorted; [exact Z_ltb_asym|exact Z_le_trans_b]. Qed.

Lemma sort_by_date_sorted (keys : list string) :
  sorted_by parse_date_for_sorting DateTime.ltb
    (sort_by parse_date_for_sorting DateTime.ltb keys).
Proof. apply sort_by_sorted; [exact dt_ltb_asym|exact dt_le_trans]. Qed.

Lemma sort_by_key_sorted (evs : list Event) :
  sorted_by sort_key pair_ltb (sort_by sort_key pair_ltb evs).
Proof. apply sort_by_sorted; [exact pair_ltb_asym|exact key_le_trans]. Qed.

(** ** What a successful [strptime] returns *)

Lemma star_inv {A} (p : ascii -> bool) (m s : string)
    (k : string -> string -> option A) (a : A) :
  star p m s k = Some a -> exists m' t, k m' t = Some a.
Proof.
  revert m. induction s as [|c s IH]; intros m; cbn [star]; [eauto|].
  destruct (p c); [|eauto].
  destruct (star p (m +:+ String c EmptyString) s k) eqn:Hs; [|eauto].
  intros [= <-]. eapply IH. exact Hs.
Qed.

(** A match calls its continuation, and leaves alone the groups that the
    expression does not name. *)
Lemma rmatch_inv {A} (r : re) (s : string) (g : groups)
    (k : string -> string -> groups -> option A) (a : A) :
  rmatch r s g k = Some a ->
  exists m t g', k m t g' = Some a /\
    forall n, mentions n r = false -> group g' n = group g n.
Proof.
  revert s g k. induction r as [p|p|p|r1 IH1 r2 IH2|r1 IH1 r2 IH2|name r IH];
    intros s g k; cbn [rmatch mentions].
  - destruct s as [|c s]; [discriminate|].
    destruct (ci_eqb p c); [eauto|discriminate].
  - destruct s as [|c s]; [discriminate|].
    destruct (p c); [eauto|discriminate].
  - destruct s as [|c s]; [discriminate|].
    destruct (p c); [|discriminate].
    intros (m' & t & H)%star_inv. eauto.
  - intros (m1 & t & g1 & H1 & G1)%IH1.
    apply IH2 in H1 as (m2 & u & g2 & H2 & G2).
    exists (m1 +:+ m2), u, g2. split; [exact H2|].
    intros n [Hn1 Hn2]%orb_false_iff. now rewrite G2, G1.
  - destruct (rmatch r1 s g k) eqn:H1.
    + intros [= <-]. apply IH1 in H1 as (m & t & g' & H & G).
      exists m, t, g'. split; [exact H|].
      intros n [Hn1 Hn2]%orb_false_iff. now apply G.
    + intros (m & t & g' & H & G)%IH2.
      exists m, t, g'. split; [exact H|].
      intros n [Hn1 Hn2]%orb_false_iff. now apply G.
  - intros (m & t & g' & H & G)%IH.
    exists m, t, ((name, m) :: g'). split; [exact H|].
    intros n [Hn1 Hn2]%orb_false_iff. cbn [group]. rewrite Hn1. now apply G.
Qed.

Lemma re_match_no_group (r : re) (s rest : string) (found : groups)
    (n : string) :
  re_match r s = Some (rest, found) -> mentions n r = false ->
  group found n = None.
Proof.
  unfold re_match. intros (m & t & g' & [= <- <-] & G)%rmatch_inv Hn.
  now rewrite G.
Qed.

Lemma days_before_month_bounds (y m d : Z) :
  1 <= m <= 12 -> 1 <= d <= days_in_month y m ->
  1 <= days_before_month y m + d <= 365 + (if is_leap y then 1 else 0).
Proof.
  intros Hm. unfold days_before_month, days_in_month.
  enum_Z m 1 12; destruct (is_leap y); simpl; lia.
Qed.

Lemma ymd2ord_bounds (y m d : Z) :
  1 <= y <= 9999 -> 1 <= m <= 12 -> 1 <= d <= days_in_month y m ->
  1 <= ymd2ord y m d <= MAXORDINAL.
Proof.
  intros Hy Hm Hd. pose proof (days_before_month_bounds y m d Hm Hd) as Hb.
  unfold ymd2ord, MAXORDINAL, days_before_year.
  assert (Hleap : y = 9999 \/ y <= 9998) by lia.
  destruct Hleap as [-> | Hy'].
  - change (is_leap 9999) with false in Hb. cbv iota in Hb.
    change ((9999 - 1) * 365 + (9999 - 1) / 4 - (9999 - 1) / 100
            + (9999 - 1) / 400) with 3651694.
    lia.
  - assert (0 <= (y - 1) * 365 + (y - 1) / 4 - (y - 1) / 100 + (y - 1) / 400
              <= 3651693) by div_lia.
    destruct (is_leap y); lia.
Qed.

(** A format without clock directives yields a calendar date at midnight. *)
Lemma strptime_date_inv (r : re) (s : string) (t : datetime) :
  mentions "I" r = false -> mentions "M" r = false ->
  strptime r s = Ok t ->
  exists y m d,
    1 <= y <= 9999 /\ 1 <= m <= 12 /\ 1 <= d <= days_in_month y m /\
    t = midnight y m d.
Proof.
  intros HI HM. unfold strptime.
  destruct (re_match r s) as [[rest found]|] eqn:Hmatch; [|discriminate].
  destruct (negb (is_empty rest)); [discriminate|].
  destruct (int_group found "Y" 1900) as [y|]; [|discriminate].
  cbn [mbind result_bind].
  destruct (match group found "b" with
            | Some v => list_index a_month (lower v)
            | None => int_group found "m" 1
            end) as [m|]; [|discriminate].
  destruct (int_group found "d" 1) as [d|]; [|discriminate].
  unfold int_group.
  rewrite (re_match_no_group r s rest found "I" Hmatch HI).
  rewrite (re_match_no_group r s rest found "M" Hmatch HM).
  intros H. pose proof (new_fields _ _ _ _ _ _ H) as
    (Ho & Hh & Hmi & Hs & Hus & (Y & M & D) & _).
  exists y, m, d. repeat split; try lia.
  destruct t. unfold midnight. cbn in *. congruence.
Qed.

Lemma midnight_before_max (y m d : Z) :
  1 <= y <= 9999 -> 1 <= m <= 12 -> 1 <= d <= days_in_month y m ->
  DateTime.ltb (midnight y m d) DateTime.max = true.
Proof.
  intros Hy Hm Hd. pose proof (ymd2ord_bounds y m d Hy Hm Hd) as Ho.
  unfold DateTime.ltb, midnight, DateTime.max, fields. cbn.
  destruct (Z.ltb_spec (ymd2ord y m d) MAXORDINAL); [reflexivity|].
  replace (ymd2ord y m d =? MAXORDINAL) with true by lia. reflexivity.
Qed.

(** ** Ordinals follow the calendar *)

Lemma is_leap_spec (y : Z) :
  is_leap y = true <-> y mod 4 = 0 /\ (y mod 100 <> 0 \/ y mod 400 = 0).
Proof.
  unfold is_leap.
  rewrite andb_true_iff, orb_true_iff, negb_true_iff, !Z.eqb_eq, Z.eqb_neq.
  reflexivity.
Qed.

Lemma days_before_year_succ (y : Z) :
  days_before_year (y + 1)
  = days_before_year y + 365 + (if is_leap y then 1 else 0).
Proof.
  unfold days_before_year. cbv zeta.
  replace (y + 1 - 1) with y by lia.
  destruct (is_leap y) eqn:Hl.
  - apply is_leap_spec in Hl. div_lia.
  - assert (~ (y mod 4 = 0 /\ (y mod 100 <> 0 \/ y mod 400 = 0)))
      by (rewrite <- is_leap_spec; congruence).
    div_lia.
Qed.

Lemma days_before_year_mono (y y' : Z) :
  y <= y' -> days_before_year y <= days_before_year y'.
Proof. unfold days_before_year. intros H. div_lia. Qed.

Lemma days_before_month_lt (y m d m' d' : Z) :
  1 <= m <= 12 -> 1 <= m' <= 12 ->
  1 <= d <= days_in_month y m -> 1 <= d' <= days_in_month y m' ->
  m < m' -> days_before_month y m + d < days_before_month y m' + d'.
Proof.
  intros Hm Hm'. unfold days_before_month, days_in_month.
  enum_Z m 1 12; enum_Z m' 1 12; try lia; destruct (is_leap y); simpl; lia.
Qed.

(** Of two dates of the calendar, the earlier one has the smaller
    ordinal. *)
Lemma ymd2ord_lt (y m d y' m' d' : Z) :
  1 <= m <= 12 -> 1 <= m' <= 12 ->
  1 <= d <= days_in_month y m -> 1 <= d' <= days_in_month y' m' ->
  (y < y' \/ (y = y' /\ (m < m' \/ (m = m' /\ d < d')))) ->
  ymd2ord y m d < ymd2ord y' m' d'.
Proof.
  intros Hm Hm' Hd Hd' [Hy | [<- [Hlt | [<- Hlt]]]]; unfold ymd2ord.
  - pose proof (days_before_month_bounds y m d Hm Hd).
    pose proof (days_before_month_bounds y' m' d' Hm' Hd').
    pose proof (days_before_year_succ y).
    pose proof (days_before_year_mono (y + 1) y' ltac:(lia)).
    lia.
  - pose proof (days_before_month_lt y m d m' d' Hm Hm' Hd Hd' Hlt). lia.
  - lia.
Qed.

(** Midnights compare as their dates do in the calendar. *)
Lemma midnight_le (y m d y' m' d' : Z) :
  1 <= m <= 12 -> 1 <= m' <= 12 ->
  1 <= d <= days_in_month y m -> 1 <= d' <= days_in_month y' m' ->
  dt_le (midnight y m d) (midnight y' m' d') <->
  (y < y' \/ (y = y' /\ (m < m' \/ (m = m' /\ d <= d')))).
Proof.
  intros Hm Hm' Hd Hd'. unfold midnight.
  rewrite dt_le_midnight by reflexivity. cbn [ordinal]. split.
  - intros Hle.
    destruct (Z.lt_trichotomy y y') as [?|[<-|Hy]]; [now left|right|].
    + split; [reflexivity|].
      destruct (Z.lt_trichotomy m m') as [?|[<-|Hm2]]; [now left|right|].
      * split; [reflexivity|].
        destruct (Z_le_gt_dec d d') as [?|Hgt]; [assumption|].
        assert (Hlex : y < y \/ (y = y /\ (m < m \/ (m = m /\ d' < d))))
          by (right; split; [reflexivity|right; split; [reflexivity|lia]]).
        pose proof (ymd2ord_lt y m d' y m d Hm Hm Hd' Hd Hlex). lia.
      * pose proof (ymd2ord_lt y m' d' y m d Hm' Hm Hd' Hd
                      ltac:(right; split; [reflexivity|now left])).
        lia.
    + pose proof (ymd2ord_lt y' m' d' y m d Hm' Hm Hd' Hd ltac:(now left)).
      lia.
  - intros [Hy | [<- [Hlt | [<- Hle]]]].
    + pose proof (ymd2ord_lt y m d y' m' d' Hm Hm' Hd Hd' ltac:(now left)).
      lia.
    + pose proof (ymd2ord_lt y m d y m' d' Hm Hm' Hd Hd'
                    ltac:(right; split; [reflexivity|now left])).
      lia.
    + unfold ymd2ord. lia.
Qed.

(** ** Reading the date of an event *)

Lemma read_date_spec (s : string) (d : datetime) :
  read_date s = Some d <-> date_reads s d.
Proof.
  unfold read_date, date_reads. split.
  - destruct (split ", " s !! 1%nat) as [seg1|]; [|discriminate].
    destruct (split ", " s !! 2%nat) as [seg2|]; [|discriminate].
    destruct (strptime format_b_d_Y (seg1 +:+ ", " +:+ seg2)) as [t|] eqn:Ht;
      [|discriminate].
    intros [= <-]. now exists seg1, seg2.
  - intros (seg1 & seg2 & -> & -> & ->). reflexivity.
Qed.

Lemma parse_date_read (s : string) :
  parse_date_for_sorting s = default DateTime.max (read_date s).
Proof.
  unfold parse_date_for_sorting, read_date, index.
  destruct (split ", " s !! 1%nat) as [seg1|]; [|reflexivity].
  destruct (split ", " s !! 2%nat) as [seg2|]; [|reflexivity].
  cbn [mbind result_bind].
  now destruct (strptime format_b_d_Y (seg1 +:+ ", " +:+ seg2)).
Qed.

Lemma read_date_sentinel : read_date "No date found" = None.
Proof. reflexivity. Qed.

Lemma sort_key_read (e : Event) :
  sort_key e =
    match read_date (event_date e) with
    | Some d => (d, minutes_of e)
    | None => (DateTime.max, 0)
    end.
Proof.
  unfold sort_key. fold (event_date e).
  destruct (String.eqb_spec (event_date e) "No date found") as [->|_];
    [reflexivity|].
  unfold read_date, index.
  destruct (split ", " (event_date e) !! 1%nat) as [seg1|]; [|reflexivity].
  destruct (split ", " (event_date e) !! 2%nat) as [seg2|]; [|reflexivity].
  cbn [mbind result_bind].
  now destruct (strptime format_b_d_Y (seg1 +:+ ", " +:+ seg2)).
Qed.

Lemma filter_step_read (ws we : datetime) (acc : list Event) (e : Event) :
  filter_step ws we acc e = if in_week ws we e then acc ++ [e] else acc.
Proof.
  unfold filter_step, in_week. fold (event_date e).
  destruct (String.eqb_spec (event_date e) "No date found") as [->|_];
    [reflexivity|].
  unfold read_date, index.
  destruct (split ", " (event_date e) !! 1%nat) as [seg1|]; [|reflexivity].
  destruct (split ", " (event_date e) !! 2%nat) as [seg2|]; [|reflexivity].
  cbn [mbind result_bind].
  now destruct (strptime format_b_d_Y (seg1 +:+ ", " +:+ seg2)).
Qed.

Lemma read_date_midnight (s : string) (t : datetime) :
  read_date s = Some t ->
  exists y m d,
    1 <= y <= 9999 /\ 1 <= m <= 12 /\ 1 <= d <= days_in_month y m /\
    t = midnight y m d.
Proof.
  unfold read_date.
  destruct (split ", " s !! 1%nat) as [seg1|]; [|discriminate].
  destruct (split ", " s !! 2%nat) as [seg2|]; [|discriminate].
  destruct (strptime format_b_d_Y (seg1 +:+ ", " +:+ seg2)) as [t'|] eqn:Ht;
    [|discriminate].
  intros [= <-].
  now apply (strptime_date_inv format_b_d_Y _ _ eq_refl eq_refl) in Ht.
Qed.

Lemma read_date_before_max (s : string) (t : datetime) :
  read_date s = Some t -> DateTime.ltb t DateTime.max = true.
Proof.
  intros (y & m & d & Hy & Hm & Hd & ->)%read_date_midnight.
  now apply midnight_before_max.
Qed.

Lemma parse_date_le_max (s : string) :
  dt_le (parse_date_for_sorting s) DateTime.max.
Proof.
  rewrite parse_date_read. destruct (read_date s) as [t|] eqn:Ht; cbn.
  - unfold dt_le. apply dt_ltb_asym. now apply read_date_before_max in Ht.
  - apply dt_le_refl.
Qed.

(** The date string "weekday, Mon D, YYYY" has exactly three segments. *)
Lemma split_date_text (wd : string) (pad : bool) (y m d : Z) :
  lacks "," wd = true -> 1 <= m <= 12 -> 1 <= d <= 31 -> 0 <= y <= 9999 ->
  split ", " (date_text wd pad y m d)
  = [wd; month_text m +:+ " " +:+ short_number pad d; year_text y].
Proof.
  intros Hwd Hm Hd Hy. unfold date_text, date_part_text.
  rewrite split_comma_first by exact Hwd. f_equal.
  assert (Hmd : lacks "," (month_text m +:+ " " +:+ short_number pad d) = true).
  { destruct pad; enum_Z m 1 12; enum_Z d 1 31; reflexivity. }
  assert (Hyt : lacks "," (year_text y) = true).
  { destruct (year_text_digits y Hy)
      as (c1 & c2 & c3 & c4 & -> & H1 & H2 & H3 & H4 & _).
    assert (Hc : forall c, is_digit c = true -> negb (Ascii.eqb c ",") = true).
    { intros [[] [] [] [] [] [] [] []]; vm_compute; congruence. }
    cbn [lacks]. now rewrite !Hc. }
  replace (month_text m +:+ " " +:+ short_number pad d +:+ ", " +:+ year_text y)
    with ((month_text m +:+ " " +:+ short_number pad d) +:+ ", "
          +:+ year_text y).
  - rewrite split_comma_first by exact Hmd.
    now rewrite split_comma_none by exact Hyt.
  - destruct pad; enum_Z m 1 12; reflexivity.
Qed.

(** ** The date parser *)

(** C6. The date in the sort key of the week filter is the result of the
    date parser used for sorting the date groups: the two agree on the date
    string of every event, hence on every string, the sentinel included. *)
Theorem sort_key_date_is_parse_date_for_sorting :
  (forall e : Event,
     fst (sort_key e) = parse_date_for_sorting (event_date e)) /\
  (forall date time : string,
     fst (sort_key (dated_event date time)) = parse_date_for_sorting date) /\
  (forall date time : string,
     fst (sort_key (dated_event date time)) = DateTime.max <->
     parse_date_for_sorting date = DateTime.max).
Proof.
  assert (H : forall e : Event,
             fst (sort_key e) = parse_date_for_sorting (event_date e)).
  { intros e. rewrite sort_key_read, parse_date_read.
    now destruct (read_date (event_date e)). }
  assert (Hd : forall date time, event_date (dated_event date time) = date).
  { intros date time. unfold event_date, dated_event, dict_get.
    now rewrite lookup_insert_eq. }
  split; [exact H|]. split.
  - intros date time. now rewrite H, Hd.
  - intros date time. now rewrite H, Hd.
Qed.

(** ** The week filter *)

Lemma filter_fold (ws we : datetime) (events acc : list Event) :
  fold_left (filter_step ws we) events acc
  = acc ++ List.filter (in_week ws we) events.
Proof.
  revert acc. induction events as [|e events IH]; intros acc;
    cbn [fold_left List.filter]; [now rewrite app_nil_r|].
  rewrite IH, filter_step_read. destruct (in_week ws we e); [|reflexivity].
  now rewrite <- app_assoc.
Qed.

Lemma filter_events_by_week_unfold (events : list Event)
    (target wsd : string) (td ws we : datetime) :
  strptime format_Y_m_d target = Ok td ->
  week_window td (default 0 (day_mapping !! wsd)) = Ok (ws, we) ->
  filter_events_by_week events target wsd
  = Ok (sort_by sort_key pair_ltb (List.filter (in_week ws we) events)).
Proof.
  intros Htd Hw. unfold filter_events_by_week. rewrite Htd, Hw.
  cbn [mbind result_bind]. now rewrite filter_fold.
Qed.

Lemma in_week_spec (ws we : datetime) (e : Event) :
  in_week ws we e = true <->
  exists d, date_reads (event_date e) d /\ dt_le ws d /\ dt_le d we.
Proof.
  unfold in_week. split.
  - destruct (read_date (event_date e)) as [d|] eqn:Hd; [|discriminate].
    intros [H1 H2]%andb_true_iff. exists d.
    rewrite <- !dt_leb_le. now rewrite <- read_date_spec.
  - intros (d & Hd%read_date_spec & H1%dt_leb_le & H2%dt_leb_le).
    now rewrite Hd, H1, H2.
Qed.

Lemma day_mapping_names (wsd : string) (i : nat) :
  weekday_names !! i = Some wsd -> day_mapping !! wsd = Some (Z.of_nat i).
Proof.
  do 7 (destruct i as [|i]; [intros [= <-]; reflexivity|]). discriminate.
Qed.

Lemma day_mapping_unknown (wsd : string) :
  wsd ∉ weekday_names -> day_mapping !! wsd = None.
Proof.
  intros Hn. unfold day_mapping, weekday_names in *.
  cbn [list_to_map foldr fst snd].
  repeat (rewrite lookup_insert_ne; [|intros <-; apply Hn; set_solver]).
  apply lookup_empty.
Qed.

Lemma weekday_range (a : datetime) : 0 <= weekday a <= 6.
Proof. unfold weekday. div_lia. Qed.

(** The week of [td] when it lies in the range of [datetime]. *)
Lemma week_window_ok (td : datetime) (i : Z) :
  let k := (weekday td - i) mod 7 in
  1 <= ordinal td - k -> ordinal td - k + 6 <= MAXORDINAL ->
  week_window td i
  = Ok (mk_datetime (ordinal td - k) (hour td) (minute td) (second td)
          (microsecond td),
        mk_datetime (ordinal td - k + 6) (hour td) (minute td) (second td)
          (microsecond td)).
Proof.
  intros k Hlo Hhi. unfold week_window, add_days. fold k.
  assert (0 <= k <= 6) by (subst k; div_lia).
  replace (ordinal td + - k) with (ordinal td - k) by lia.
  replace ((0 <? ordinal td - k) && (ordinal td - k <=? MAXORDINAL)) with true
    by (unfold MAXORDINAL in *; lia).
  cbn [mbind result_bind ordinal hour minute second microsecond].
  replace ((0 <? ordinal td - k + 6) && (ordinal td - k + 6 <=? MAXORDINAL))
    with true by (unfold MAXORDINAL in *; lia).
  reflexivity.
Qed.

Lemma week_window_inv (td ws we : datetime) (i : Z) :
  week_window td i = Ok (ws, we) ->
  1 <= ordinal td - (weekday td - i) mod 7 /\
  ordinal td - (weekday td - i) mod 7 + 6 <= MAXORDINAL.
Proof.
  unfold week_window, add_days. set (k := (weekday td - i) mod 7). intros H.
  replace (ordinal td + - k) with (ordinal td - k) in H by lia.
  destruct ((0 <? ordinal td - k) && (ordinal td - k <=? MAXORDINAL)) eqn:H1;
    [|discriminate].
  cbn [mbind result_bind ordinal] in H.
  destruct ((0 <? ordinal td - k + 6) && (ordinal td - k + 6 <=? MAXORDINAL))
    eqn:H2; [|discriminate].
  lia.
Qed.

Lemma in_week_of_date (ws we : datetime) (e : Event) (s : string) :
  event_date e = s ->
  in_week ws we e
  = match read_date s with
    | Some d => DateTime.leb ws d && DateTime.leb d we
    | None => false
    end.
Proof. intros <-. reflexivity. Qed.

(** C2, as amended.  For a target date and one of the seven weekday names
    (number [i], Monday being 0) such that the target date minus
    [k = (weekday - i) mod 7] days and that day plus 6 are dates of
    [datetime] (from 0001-01-01 to 9999-12-31), the week filter works with
    [week_start = target - k days] and [week_end = week_start + 6 days]:
    [week_start] falls on the chosen weekday, [week_start <= target <=
    week_end], and the week has exactly 7 days.  With "Monday" and
    "2025-08-04" the week runs from 2025-08-04 to 2025-08-10: an event dated
    "Monday, Aug 4, 2025" is kept, one dated "Sunday, Aug 3, 2025" is not. *)
Theorem week_window_spec :
  (forall (events : list Event) (target wsd : string) (i : nat)
          (td : datetime),
     weekday_names !! i = Some wsd ->
     strptime format_Y_m_d target = Ok td ->
     1 <= ordinal td - (weekday td - Z.of_nat i) mod 7 ->
     ordinal td - (weekday td - Z.of_nat i) mod 7 + 6 <= MAXORDINAL ->
     exists ws we : datetime,
       default 0 (day_mapping !! wsd) = Z.of_nat i /\
       add_days td (- ((weekday td - Z.of_nat i) mod 7)) = Ok ws /\
       add_days ws 6 = Ok we /\
       week_window td (Z.of_nat i) = Ok (ws, we) /\
       filter_events_by_week events target wsd
         = Ok (sort_by sort_key pair_ltb
                 (List.filter (in_week ws we) events)) /\
       ordinal ws = ordinal td - (weekday td - Z.of_nat i) mod 7 /\
       ordinal we = ordinal ws + 6 /\
       weekday ws = Z.of_nat i /\
       dt_le ws we /\ dt_le ws td /\ dt_le td we /\
       ordinal we - ordinal ws + 1 = 7) /\
  (forall events : list Event,
     week_window (midnight 2025 8 4) 0
       = Ok (midnight 2025 8 4, midnight 2025 8 10) /\
     exists out : list Event,
       filter_events_by_week events "2025-08-04" "Monday" = Ok out /\
       forall e, e ∈ events ->
         (event_date e = "Monday, Aug 4, 2025"%string -> e ∈ out) /\
         (event_date e = "Sunday, Aug 3, 2025"%string -> e ∉ out)).
Proof.
  split.
  - intros events target wsd i td Hname Htd Hlo Hhi.
    pose proof (week_window_ok td (Z.of_nat i) Hlo Hhi) as Hw. cbv zeta in Hw.
    pose proof (day_mapping_names wsd i Hname) as Hi.
    pose proof (lookup_lt_Some _ _ _ Hname) as Hi7. cbn in Hi7.
    apply (strptime_date_inv format_Y_m_d _ _ eq_refl eq_refl) in Htd as Hmid.
    destruct Hmid as (y & m & d & _ & _ & _ & ->).
    set (k := (weekday (midnight y m d) - Z.of_nat i) mod 7) in *.
    assert (Hk : 0 <= k <= 6) by (subst k; div_lia).
    cbn [ordinal hour minute second microsecond midnight] in Hw, Hlo, Hhi.
    cbn [ordinal midnight].
    eexists _, _. split; [now rewrite Hi|].
    split.
    { unfold add_days. cbn [ordinal hour minute second microsecond midnight].
      replace (ymd2ord y m d + - k) with (ymd2ord y m d - k) by lia.
      replace ((0 <? ymd2ord y m d - k) && (ymd2ord y m d - k <=? MAXORDINAL))
        with true by (unfold MAXORDINAL in *; lia).
      reflexivity. }
    split.
    { unfold add_days. cbn [ordinal hour minute second microsecond].
      replace ((0 <? ymd2ord y m d - k + 6)
               && (ymd2ord y m d - k + 6 <=? MAXORDINAL))
        with true by (unfold MAXORDINAL in *; lia).
      reflexivity. }
    split; [exact Hw|].
    split.
    { apply (filter_events_by_week_unfold _ _ _ (midnight y m d));
        [exact Htd|]. rewrite Hi. exact Hw. }
    cbn [ordinal].
    split; [reflexivity|]. split; [reflexivity|].
    split.
    { unfold weekday. cbn [ordinal]. subst k. unfold weekday.
      cbn [ordinal midnight]. div_lia. }
    unfold midnight.
    rewrite !dt_le_midnight by reflexivity. cbn [ordinal]. lia.
  - intros events. split; [reflexivity|].
    exists (sort_by sort_key pair_ltb
              (List.filter (in_week (midnight 2025 8 4) (midnight 2025 8 10))
                 events)).
    split.
    { now apply (filter_events_by_week_unfold _ _ _ (midnight 2025 8 4)). }
    intros e He. rewrite sort_by_elem_of, list_elem_of_In, filter_In.
    rewrite <- list_elem_of_In. split.
    + intros Hd. split; [exact He|].
      now rewrite (in_week_of_date _ _ _ _ Hd).
    + intros Hd [_ Hin]. rewrite (in_week_of_date _ _ _ _ Hd) in Hin.
      vm_compute in Hin. discriminate.
Qed.

Lemma week_window_spec_witness :
  exists ws we : datetime,
    week_window (midnight 2025 8 6) 6 = Ok (ws, we) /\
    ws = midnight 2025 8 3 /\ we = midnight 2025 8 9 /\
    filter_events_by_week sample_events "2025-08-06" "Sunday"
      = Ok (sort_by sort_key pair_ltb
              (List.filter (in_week ws we) sample_events)).
Proof.
  destruct week_window_spec as [H _].
  destruct (H sample_events "2025-08-06"%string "Sunday"%string 6%nat
              (midnight 2025 8 6) eq_refl eq_refl
              ltac:(vm_compute; congruence) ltac:(vm_compute; congruence))
    as (ws & we & _ & _ & _ & Hw & Hf & _).
  exists ws, we. split; [exact Hw|].
  assert (E : Ok (midnight 2025 8 3, midnight 2025 8 9) = Ok (ws, we))
    by exact Hw.
  injection E as <- <-. split; [reflexivity|]. split; [reflexivity|]. exact Hf.
Defined.

(** C2 as stated fails at both ends of the calendar.  For the target
    0001-01-01, a Monday, and a week starting on Tuesday, [week_start]
    would be six days before the first date of [datetime]; for the target
    9999-12-31, a Friday, and a week starting on Monday, [week_end] would
    be two days after the last one.  Both calls raise [OverflowError]
    instead of computing a week. *)
Lemma week_window_out_of_range :
  weekday_names !! 1%nat = Some "Tuesday"%string /\
  strptime format_Y_m_d "0001-01-01" = Ok (midnight 1 1 1) /\
  (weekday (midnight 1 1 1) - 1) mod 7 = 6 /\
  week_window (midnight 1 1 1) 1 = Raise OverflowError /\
  filter_events_by_week sample_events "0001-01-01" "Tuesday"
    = Raise OverflowError /\
  weekday_names !! 0%nat = Some "Monday"%string /\
  strptime format_Y_m_d "9999-12-31" = Ok (midnight 9999 12 31) /\
  (weekday (midnight 9999 12 31) - 0) mod 7 = 4 /\
  week_window (midnight 9999 12 31) 0 = Raise OverflowError /\
  filter_events_by_week sample_events "9999-12-31" "Monday"
    = Raise OverflowError /\
  ~ (forall (target wsd : string) (i : nat) (td : datetime),
       weekday_names !! i = Some wsd ->
       strptime format_Y_m_d target = Ok td ->
       exists ws we : datetime,
         week_window td (Z.of_nat i) = Ok (ws, we) /\
         ordinal ws = ordinal td - (weekday td - Z.of_nat i) mod 7 /\
         ordinal we = ordinal ws + 6).
Proof.
  do 10 (split; [vm_compute; reflexivity|]).
  intros H.
  destruct (H "0001-01-01"%string "Tuesday"%string 1%nat (midnight 1 1 1)
              eq_refl ltac:(vm_compute; reflexivity)) as (ws & we & Hw & _).
  vm_compute in Hw. discriminate Hw.
Qed.

(** ** An unknown week start day *)

Lemma monday_window_start (y m d : Z) :
  1 <= y <= 9999 -> 1 <= m <= 12 -> 1 <= d <= days_in_month y m ->
  1 <= ordinal (midnight y m d) - (weekday (midnight y m d) - 0) mod 7.
Proof.
  intros Hy Hm Hd. pose proof (ymd2ord_bounds y m d Hy Hm Hd) as Ho.
  unfold weekday, midnight. cbn [ordinal]. div_lia.
Qed.

(** C10, as amended.  A week start day that is not one of the seven names
    gets the number 0, and the call has the outcome of the call with
    "Monday": the same list, or the same [OverflowError].  It returns a
    list whenever the Monday-to-Sunday week of the target date ends by
    9999-12-31, and the empty list when the target date does not read. *)
Theorem unknown_week_start_day (events : list Event) (target wsd : string) :
  wsd ∉ weekday_names ->
  default 0 (day_mapping !! wsd) = 0 /\
  filter_events_by_week events target wsd
    = filter_events_by_week events target "Monday" /\
  (forall td : datetime,
     strptime format_Y_m_d target = Ok td ->
     ordinal td - weekday td + 6 <= MAXORDINAL ->
     exists out : list Event,
       filter_events_by_week events target wsd = Ok out) /\
  (forall e : exn,
     strptime format_Y_m_d target = Raise e ->
     filter_events_by_week events target wsd = Ok []).
Proof.
  intros Hn. pose proof (day_mapping_unknown wsd Hn) as Hnone.
  assert (Hidx : default 0 (day_mapping !! wsd) = 0) by now rewrite Hnone.
  split; [exact Hidx|]. split; [|split].
  - unfold filter_events_by_week. now rewrite Hidx.
  - intros td Htd Hhi.
    apply (strptime_date_inv format_Y_m_d _ _ eq_refl eq_refl) in Htd as Hmid.
    destruct Hmid as (y & m & d & Hy & Hm & Hd & ->).
    pose proof (monday_window_start y m d Hy Hm Hd) as Hlo.
    assert (Hk : (weekday (midnight y m d) - 0) mod 7
                 = weekday (midnight y m d)).
    { pose proof (weekday_range (midnight y m d)). div_lia. }
    eexists.
    apply (filter_events_by_week_unfold _ _ _ (midnight y m d)); [exact Htd|].
    rewrite Hidx. apply week_window_ok; [exact Hlo|]. rewrite Hk. exact Hhi.
  - intros e He. unfold filter_events_by_week. now rewrite He.
Qed.

Lemma unknown_week_start_day_witness :
  filter_events_by_week sample_events "2025-08-04" "Funday"
    = filter_events_by_week sample_events "2025-08-04" "Monday" /\
  (exists out : list Event,
     filter_events_by_week sample_events "2025-08-04" "Funday" = Ok out) /\
  filter_events_by_week sample_events "2025-08-04" "" =
    filter_events_by_week sample_events "2025-08-04" "Monday".
Proof.
  assert (H1 : "Funday"%string ∉ weekday_names).
  { unfold weekday_names. intros H.
    repeat (apply elem_of_cons in H as [H|H]; [discriminate H|]).
    now apply elem_of_nil in H. }
  assert (H2 : ""%string ∉ weekday_names).
  { unfold weekday_names. intros H.
    repeat (apply elem_of_cons in H as [H|H]; [discriminate H|]).
    now apply elem_of_nil in H. }
  destruct (unknown_week_start_day sample_events "2025-08-04" "Funday" H1)
    as (_ & Heq & Hok & _).
  destruct (unknown_week_start_day sample_events "2025-08-04" "" H2)
    as (_ & Heq' & _).
  split; [exact Heq|]. split; [|exact Heq'].
  apply (Hok (midnight 2025 8 4)); [reflexivity|]. vm_compute. congruence.
Defined.

(** C10 as stated fails at the end of the calendar: for the target
    9999-12-31, a Friday, the week that starts on Monday would end after the
    last date of [datetime], and the call raises [OverflowError], with an
    unknown name as with "Monday". *)
Lemma unknown_week_start_day_overflow :
  ("Funday"%string ∉ weekday_names) /\
  strptime format_Y_m_d "9999-12-31" = Ok (midnight 9999 12 31) /\
  filter_events_by_week sample_events "9999-12-31" "Funday"
    = Raise OverflowError /\
  filter_events_by_week sample_events "9999-12-31" "Monday"
    = Raise OverflowError /\
  ~ (exists out : list Event,
       filter_events_by_week sample_events "9999-12-31" "Funday" = Ok out).
Proof.
  split; [|do 3 (split; [reflexivity|])].
  - unfold weekday_names. intros H.
    repeat (apply elem_of_cons in H as [H|H]; [discriminate H|]).
    now apply elem_of_nil in H.
  - intros [out H]. discriminate H.
Qed.

(** ** Grouping by date *)

Section ODictFacts.
Context {V : Type}.
Implicit Types (d : list (string * V)) (k : string) (v : V).

Lemma odict_get_set_eq d k v : ODict.get (ODict.set d k v) k = Some v.
Proof.
  induction d as [|[k' v'] d IH]; cbn [ODict.set ODict.get].
  - now rewrite String.eqb_refl.
  - destruct (String.eqb_spec k' k) as [->|Hne]; cbn [ODict.get].
    + now rewrite String.eqb_refl.
    + destruct (String.eqb_spec k' k); [congruence|exact IH].
Qed.

Lemma odict_get_set_ne d k k' v :
  k <> k' -> ODict.get (ODict.set d k v) k' = ODict.get d k'.
Proof.
  intros Hne. induction d as [|[k0 v0] d IH]; cbn [ODict.set ODict.get].
  - destruct (String.eqb_spec k k'); [congruence|reflexivity].
  - destruct (String.eqb_spec k0 k) as [->|H0]; cbn [ODict.get].
    + destruct (String.eqb_spec k k'); [congruence|reflexivity].
    + now rewrite IH.
Qed.

Lemma odict_get_None d k : ODict.get d k = None <-> k ∉ ODict.keys d.
Proof.
  unfold ODict.keys. induction d as [|[k' v'] d IH]; cbn [ODict.get map fst].
  - split; [intros _; apply not_elem_of_nil|reflexivity].
  - rewrite not_elem_of_cons.
    destruct (String.eqb_spec k' k) as [->|Hne].
    + split; [discriminate|intros [H _]; congruence].
    + rewrite IH.
      split; [intros H; split; [congruence|exact H]|now intros [_ H]].
Qed.

Lemma odict_set_new d k v :
  ODict.get d k = None -> ODict.set d k v = d ++ [(k, v)].
Proof.
  induction d as [|[k' v'] d IH]; cbn [ODict.set ODict.get app];
    [reflexivity|].
  destruct (String.eqb_spec k' k); [discriminate|].
  intros H. now rewrite IH.
Qed.

Lemma odict_keys_set_old d k v :
  is_Some (ODict.get d k) -> ODict.keys (ODict.set d k v) = ODict.keys d.
Proof.
  unfold ODict.keys.
  induction d as [|[k' v'] d IH]; cbn [ODict.set ODict.get map fst].
  - intros [? [=]].
  - destruct (String.eqb_spec k' k); cbn [map fst]; [reflexivity|].
    intros H. now rewrite IH.
Qed.

Lemma odict_elem_get d k v :
  NoDup (ODict.keys d) -> (k, v) ∈ d <-> ODict.get d k = Some v.
Proof.
  unfold ODict.keys. induction d as [|[k' v'] d IH];
    cbn [ODict.get map fst]; intros Hnd.
  - split; [intros H; now apply elem_of_nil in H|discriminate].
  - apply NoDup_cons in Hnd as [Hk' Hnd]. rewrite elem_of_cons.
    destruct (String.eqb_spec k' k) as [->|Hne].
    + split.
      * intros [[= ->]|Hin]; [reflexivity|].
        exfalso. apply Hk'. apply list_elem_of_fmap. now exists (k, v).
      * intros [= ->]. now left.
    + rewrite <- IH by exact Hnd. split; [|now right].
      intros [[= -> ->]|H]; [congruence|exact H].
Qed.
End ODictFacts.

Lemma events_on_snoc (k : string) (pre : list Event) (e : Event) :
  events_on k (pre ++ [e])
  = events_on k pre ++ (if String.eqb (event_date e) k then [e] else []).
Proof. unfold events_on. now rewrite List.filter_app. Qed.

Lemma events_on_elem_of (k : string) (events : list Event) (e : Event) :
  e ∈ events_on k events <-> e ∈ events /\ event_date e = k.
Proof.
  unfold events_on. rewrite !list_elem_of_In, filter_In.
  now destruct (String.eqb_spec (event_date e) k).
Qed.

Lemma events_on_nonempty (k : string) (events : list Event) :
  events_on k events <> [] <-> exists e, e ∈ events /\ event_date e = k.
Proof.
  split.
  - destruct (events_on k events) as [|e l] eqn:E; [congruence|]. intros _.
    exists e. apply events_on_elem_of. rewrite E. now left.
  - intros (e & He%events_on_elem_of) E. rewrite E in He.
    now apply elem_of_nil in He.
Qed.

Lemma group_step_grouped (d : list (string * list Event))
    (pre : list Event) (e : Event) :
  grouped d pre -> grouped (group_step d e) (pre ++ [e]).
Proof.
  intros [Hnd Hget]. unfold group_step. fold (event_date e). split.
  - destruct (ODict.get d (event_date e)) as [l|] eqn:Hl.
    + now rewrite odict_keys_set_old by (now rewrite Hl).
    + rewrite odict_set_new by exact Hl. unfold ODict.keys in *.
      rewrite map_app. cbn [map fst]. apply NoDup_app. split; [exact Hnd|].
      split; [|apply NoDup_singleton].
      intros k Hk ->%list_elem_of_singleton.
      now apply (proj1 (odict_get_None d (event_date e)) Hl).
  - intros k. rewrite events_on_snoc.
    destruct (String.eqb_spec (event_date e) k) as [<-|Hne].
    + rewrite odict_get_set_eq, Hget.
      destruct (events_on (event_date e) pre); reflexivity.
    + rewrite odict_get_set_ne by exact Hne. rewrite Hget, app_nil_r.
      reflexivity.
Qed.

Lemma group_fold_grouped (events pre : list Event)
    (d : list (string * list Event)) :
  grouped d pre -> grouped (fold_left group_step events d) (pre ++ events).
Proof.
  revert d pre. induction events as [|e events IH]; intros d pre Hd;
    cbn [fold_left]; [now rewrite app_nil_r|].
  replace (pre ++ e :: events) with ((pre ++ [e]) ++ events)
    by (now rewrite <- app_assoc).
  apply IH. now apply group_step_grouped.
Qed.

Lemma odict_keys_map_sort (d : list (string * list Event))
    (f : list Event -> list Event) :
  ODict.keys (map (fun '(date, evs) => (date, f evs)) d) = ODict.keys d.
Proof.
  unfold ODict.keys. induction d as [|[k l] d IH]; [reflexivity|].
  cbn [map fst]. now rewrite IH.
Qed.

Lemma odict_get_map_sort (d : list (string * list Event))
    (f : list Event -> list Event) (k : string) :
  ODict.get (map (fun '(date, evs) => (date, f evs)) d) k
  = f <$> ODict.get d k.
Proof.
  induction d as [|[k' l] d IH]; [reflexivity|]. cbn [map ODict.get].
  destruct (String.eqb k' k); [reflexivity|exact IH].
Qed.

(** The last loop: the dates come in the given order, none is missing. *)
Lemma final_fold (org : list (string * list Event)) (ks : list string)
    (acc : list (string * list Event)) :
  NoDup ks ->
  (forall k, k ∈ ks -> k ∉ ODict.keys acc) ->
  (forall k, k ∈ ks -> is_Some (ODict.get org k)) ->
  fold_left (fun acc date =>
               final_organized ← acc;
               evs ← ODict.getitem org date;
               Ok (ODict.set final_organized date evs))
            ks (Ok acc)
  = Ok (acc ++ map (fun k => (k, default [] (ODict.get org k))) ks).
Proof.
  revert acc. induction ks as [|k ks IH]; intros acc Hnd Hfresh Hsome;
    cbn [fold_left map]; [now rewrite app_nil_r|].
  apply NoDup_cons in Hnd as [Hk Hnd].
  destruct (Hsome k ltac:(now left)) as [v Hv].
  cbn [mbind result_bind]. unfold ODict.getitem. rewrite Hv.
  cbn [mbind result_bind default].
  rewrite odict_set_new
    by (apply odict_get_None, Hfresh; now left).
  rewrite IH.
  - now rewrite <- app_assoc.
  - exact Hnd.
  - intros k' Hk'. unfold ODict.keys. rewrite map_app. cbn [map fst].
    rewrite not_elem_of_app. split; [apply Hfresh; now right|].
    intros ->%list_elem_of_singleton. contradiction.
  - intros k' Hk'. apply Hsome. now right.
Qed.

Lemma organize_events_by_date_unfold (events : list Event) :
  exists keys : list string,
    NoDup keys /\
    (forall k, k ∈ keys <-> events_on k events <> []) /\
    organize_events_by_date events
    = Ok (map (fun k => (k, sort_by minutes_of Z.ltb (events_on k events)))
            (sort_by parse_date_for_sorting DateTime.ltb keys)).
Proof.
  pose proof (group_fold_grouped events [] []
                (conj NoDup_nil_2 (fun _ => eq_refl))) as [Hnd Hget].
  cbn [app] in Hget.
  set (d := fold_left group_step events []) in *.
  exists (ODict.keys d). split; [exact Hnd|]. split.
  - intros k. split.
    + intros Hk E. specialize (Hget k). rewrite E in Hget.
      now apply odict_get_None in Hget.
    + intros Hne. destruct (decide (k ∈ ODict.keys d)) as [H|H]; [exact H|].
      apply odict_get_None in H. rewrite Hget in H.
      destruct (events_on k events); congruence.
  - unfold organize_events_by_date. fold d.
    set (f := sort_by (fun x => parse_time_to_minutes (dict_get x "time" ""))
                Z.ltb).
    rewrite (odict_keys_map_sort d f).
    set (ks := sort_by parse_date_for_sorting DateTime.ltb (ODict.keys d)).
    assert (Hperm : ks ≡ₚ ODict.keys d) by apply sort_by_perm.
    rewrite (final_fold _ ks []).
    + cbn [app]. f_equal. apply map_ext_in. intros k Hk%list_elem_of_In.
      f_equal. rewrite odict_get_map_sort, Hget.
      rewrite Hperm in Hk.
      destruct (events_on k events) as [|e l] eqn:E; [|reflexivity].
      exfalso. specialize (Hget k). rewrite E in Hget.
      now apply odict_get_None in Hget.
    + now rewrite Hperm.
    + intros k _. apply not_elem_of_nil.
    + intros k Hk. rewrite Hperm in Hk. rewrite odict_get_map_sort.
      apply fmap_is_Some. destruct (ODict.get d k) eqn:E; [eauto|].
      now apply odict_get_None in E.
Qed.

(** ** The description extractor *)

Lemma str_in_spec (x : string) (l : list string) :
  str_in x l = true <-> x ∈ l.
Proof.
  unfold str_in. rewrite existsb_exists. split.
  - intros (y & Hy & ->%String.eqb_eq). now apply list_elem_of_In.
  - intros H. exists x.
    split; [now apply list_elem_of_In|apply String.eqb_refl].
Qed.

Lemma NoDup_snoc_fresh (x : string) (l : list string) :
  NoDup l -> str_in x l = false -> NoDup (l ++ [x]).
Proof.
  intros Hl Hx. apply NoDup_app. split; [exact Hl|].
  split; [|apply NoDup_singleton].
  intros y Hy ->%list_elem_of_singleton.
  apply str_in_spec in Hy. congruence.
Qed.

Lemma filter_sublist (f : string -> bool) (l : list string) :
  List.filter f l `sublist_of` l.
Proof.
  induction l as [|x l IH]; cbn [List.filter]; [constructor|].
  destruct (f x); now constructor.
Qed.

Lemma filter_NoDup (f : string -> bool) (l : list string) :
  NoDup l -> NoDup (List.filter f l).
Proof. intros Hl. eapply sublist_NoDup; [exact Hl|apply filter_sublist]. Qed.

Section SoupFacts.
Context {Tag : Type}.
Variable select : Tag -> string -> list Tag.
Variable select_one : Tag -> string -> option Tag.
Variable get_text : Tag -> string.
Variable children_strings : Tag -> list (option string).

Lemma collect_NoDup (min_len : nat) (tags : list Tag) (parts : list string) :
  NoDup parts -> NoDup (collect Tag get_text min_len tags parts).
Proof.
  unfold collect. revert parts.
  induction tags as [|tag tags IH]; intros parts Hnd; cbn [fold_left];
    [exact Hnd|].
  apply IH.
  destruct (negb (is_empty (get_text tag))); cbn [andb]; [|exact Hnd].
  destruct (str_in (get_text tag) parts) eqn:Hin; cbn [negb andb];
    [exact Hnd|].
  destruct (min_len <? String.length (get_text tag))%nat; [|exact Hnd].
  now apply NoDup_snoc_fresh.
Qed.

Lemma collect_container_NoDup (parts : list string) (container : Tag) :
  NoDup parts ->
  NoDup (collect_container Tag select get_text parts container).
Proof.
  intros Hnd. unfold collect_container.
  destruct (is_empty (get_text container)); [exact Hnd|].
  now do 4 apply collect_NoDup.
Qed.

Lemma collect_direct_text_NoDup (parts : list string)
    (child_string : option string) :
  NoDup parts -> NoDup (collect_direct_text parts child_string).
Proof.
  intros Hnd. unfold collect_direct_text.
  destruct child_string as [str|]; [|exact Hnd].
  destruct (negb (is_empty str) && negb (is_empty (strip str)));
    [|exact Hnd].
  destruct (negb (is_empty (strip str))); cbn [andb]; [|exact Hnd].
  destruct (10 <? String.length (strip str))%nat; cbn [andb]; [|exact Hnd].
  destruct (str_in (strip str) parts) eqn:Hin; cbn [negb]; [exact Hnd|].
  now apply NoDup_snoc_fresh.
Qed.

Lemma collected_parts_NoDup (soup : Tag) :
  NoDup (collected_parts Tag select select_one get_text children_strings
           soup).
Proof.
  unfold collected_parts.
  assert (H1 : forall cs parts, NoDup parts ->
            NoDup (fold_left (collect_container Tag select get_text) cs
                     parts)).
  { induction cs as [|c cs IH]; intros parts Hnd; cbn [fold_left];
      [exact Hnd|]. apply IH. now apply collect_container_NoDup. }
  assert (H2 : forall ch parts, NoDup parts ->
            NoDup (fold_left collect_direct_text ch parts)).
  { induction ch as [|c ch IH]; intros parts Hnd; cbn [fold_left];
      [exact Hnd|]. apply IH. now apply collect_direct_text_NoDup. }
  destruct (select_one soup "main > div"); [apply H2|]; apply H1;
    apply NoDup_nil_2.
Qed.
End SoupFacts.

Lemma keep_part_no_phrase (part phrase : string) :
  keep_part part = true -> phrase ∈ skip_phrases ->
  contains phrase (lower part) = false.
Proof.
  unfold keep_part.
  destruct (existsb (fun skip => contains skip (lower part)) skip_phrases)
    eqn:Hex; [discriminate|].
  intros _ Hin%list_elem_of_In.
  destruct (contains phrase (lower part)) eqn:Hc; [|reflexivity].
  assert (existsb (fun skip => contains skip (lower part)) skip_phrases = true)
    by (apply existsb_exists; eauto).
  congruence.
Qed.

Lemma keep_part_spec (part : string) :
  keep_part part = true <->
  (forall phrase, phrase ∈ skip_phrases ->
     contains phrase (lower part) = false) /\
  ~ ((20 < length (split_ws part))%nat /\
     exists word, word ∈ link_list_words /\
       contains word (lower part) = true).
Proof.
  split.
  - intros Hkeep. split; [intros phrase; now apply keep_part_no_phrase|].
    intros [Hlen (word & Hw%list_elem_of_In & Hc)].
    unfold keep_part in Hkeep.
    destruct (existsb (fun skip => contains skip (lower part)) skip_phrases);
      [discriminate|].
    replace (20 <? length (split_ws part))%nat with true in Hkeep
      by (symmetry; now apply Nat.ltb_lt).
    replace (existsb (fun word => contains word (lower part)) link_list_words)
      with true in Hkeep; [discriminate|].
    symmetry. apply existsb_exists. eauto.
  - intros [Hno Hlist]. unfold keep_part.
    destruct (existsb (fun skip => contains skip (lower part)) skip_phrases)
      eqn:Hex.
    { apply existsb_exists in Hex as (phrase & Hin%list_elem_of_In & Hc).
      rewrite (Hno phrase Hin) in Hc. discriminate. }
    destruct ((20 <? length (split_ws part))%nat
              && existsb (fun word => contains word (lower part))
                   link_list_words) eqn:Hll; [|reflexivity].
    apply andb_true_iff in Hll as [Hlen%Nat.ltb_lt Hex2].
    apply existsb_exists in Hex2 as (word & Hin%list_elem_of_In & Hc).
    exfalso. apply Hlist. eauto.
Qed.

(** C8. The description extractor keeps no string twice, whichever
    collecting step finds it again; after collecting, it drops every string
    whose lower-case form contains a phrase of the denylist; what the
    filtering pass keeps is joined with single spaces in the order of
    collection, and when nothing is kept the result is "No description
    found".  On a page whose two containers share a paragraph, and one of
    which has a paragraph with "Contact Us", the shared paragraph comes once
    and the "Contact Us" paragraph not at all. *)
Theorem extract_description_spec :
  (forall (Tag : Type) (select : Tag -> string -> list Tag)
          (select_one : Tag -> string -> option Tag)
          (get_text : Tag -> string)
          (children_strings : Tag -> list (option string)) (soup : Tag),
     let parts :=
       collected_parts Tag select select_one get_text children_strings soup in
     let kept := List.filter keep_part parts in
     NoDup parts /\
     NoDup kept /\
     kept `sublist_of` parts /\
     (forall part phrase,
        part ∈ parts -> phrase ∈ skip_phrases ->
        contains phrase (lower part) = true -> part ∉ kept) /\
     (forall part,
        part ∈ kept <->
        part ∈ parts /\
        (forall phrase, phrase ∈ skip_phrases ->
           contains phrase (lower part) = false) /\
        ~ ((20 < length (split_ws part))%nat /\
           exists word, word ∈ link_list_words /\
             contains word (lower part) = true)) /\
     (forall (min_len : nat) (tag : Tag) (seen : list string),
        get_text tag ∈ seen ->
        collect Tag get_text min_len [tag] seen = seen) /\
     (forall (str : string) (seen : list string),
        strip str ∈ seen -> collect_direct_text seen (Some str) = seen) /\
     extract_description Tag select select_one get_text children_strings soup
       = match kept with
         | [] => "No description found"%string
         | _ => join " " kept
         end) /\
  toy_extract_description
    (ToyPage [["Join us for a fun evening."; "Please Contact Us for details."];
              ["Join us for a fun evening."; "Bring your own chair."]]%string)
    = "Join us for a fun evening. Bring your own chair."%string /\
  toy_extract_description (ToyPage [["Please Contact Us for details."]%string])
    = "No description found"%string.
Proof.
  split; [|split; reflexivity].
  intros Tag select select_one get_text children_strings soup parts kept.
  pose proof (collected_parts_NoDup select select_one get_text
                children_strings soup) as Hnd.
  fold parts in Hnd.
  split; [exact Hnd|]. split; [now apply filter_NoDup|].
  split; [apply filter_sublist|]. split; [|split; [|split; [|split]]].
  - intros part phrase _ Hphrase Hc Hin.
    apply list_elem_of_In, filter_In in Hin as [_ Hkeep].
    rewrite (keep_part_no_phrase part phrase Hkeep Hphrase) in Hc.
    discriminate.
  - intros part. unfold kept.
    rewrite list_elem_of_In, filter_In, <- list_elem_of_In, keep_part_spec.
    reflexivity.
  - intros min_len tag seen Hseen%str_in_spec. unfold collect.
    cbn [fold_left]. rewrite Hseen. cbn [negb andb].
    now rewrite andb_false_r.
  - intros str seen Hseen%str_in_spec. unfold collect_direct_text.
    rewrite Hseen. cbn [negb]. rewrite andb_false_r.
    now destruct (negb (is_empty str) && negb (is_empty (strip str))).
  - reflexivity.
Qed.

(** ** The scraping loop *)

Section ScrapeFacts.
Variable scrape_event : string -> result Event.

Lemma scrape_fold (links : list string) (acc : list Event) :
  fold_left (scrape_step scrape_event) links acc
  = acc ++ map (scraped_record scrape_event) links.
Proof.
  revert acc. induction links as [|url links IH]; intros acc;
    cbn [fold_left map]; [now rewrite app_nil_r|].
  rewrite IH. unfold scrape_step, scraped_record.
  destruct (scrape_event url); now rewrite <- app_assoc.
Qed.

Lemma scrape_events_map (links : list string) :
  scrape_events scrape_event links = map (scraped_record scrape_event) links.
Proof. unfold scrape_events. now rewrite scrape_fold. Qed.
End ScrapeFacts.

Lemma failed_event_fields (event_url field value : string) :
  failed_event event_url !! field = Some value ->
  (field = "url"%string /\ value = event_url) \/
  (field ∈ ["title"; "date"; "time"; "location"; "location_link";
            "description"]%string /\
   value = "Failed to scrape " +:+ spaced field).
Proof.
  unfold failed_event. cbn [list_to_map foldr fst snd].
  repeat (rewrite lookup_insert; case_decide;
          [subst field; intros [= <-];
           first [left; split; reflexivity
                 |right; split; [set_solver|reflexivity]]|]).
  now rewrite lookup_empty.
Qed.

(** C9, as amended.  The scraping loop leaves one record for every link, in
    the order of the links: the record extracted from the page when
    fetching and extracting raise nothing, and otherwise a record whose
    [url] is the link and whose six other fields are "Failed to scrape "
    followed by the field name, written with a space for "location link";
    a failure on one link changes no other record. *)
Theorem scrape_failure_recovery :
  forall (scrape_event : string -> result Event) (event_links : list string),
    length (scrape_events scrape_event event_links) = length event_links /\
    (forall (i : nat) (event_url : string),
       event_links !! i = Some event_url ->
       scrape_events scrape_event event_links !! i
       = Some (match scrape_event event_url with
               | Ok event => event
               | Raise _ => failed_event event_url
               end)) /\
    (forall event_url : string,
       failed_event event_url !! "url"%string = Some event_url /\
       dom (failed_event event_url)
       = list_to_set ["url"; "title"; "date"; "time"; "location";
                      "location_link"; "description"]%string /\
       (forall field value : string,
          failed_event event_url !! field = Some value ->
          field <> "url"%string ->
          value = "Failed to scrape " +:+ spaced field) /\
       (forall field1 field2 value1 value2 : string,
          failed_event event_url !! field1 = Some value1 ->
          failed_event event_url !! field2 = Some value2 ->
          field1 <> "url"%string -> field2 <> "url"%string ->
          field1 <> field2 -> value1 <> value2)).
Proof.
  intros scrape_event event_links. rewrite scrape_events_map.
  split; [apply length_map|]. split.
  - intros i event_url Hi. rewrite list_lookup_fmap, Hi. reflexivity.
  - intros event_url. split; [reflexivity|]. split.
    + unfold failed_event. rewrite dom_list_to_map_L. reflexivity.
    + split.
      * intros field value [[-> _]|[_ ->]]%failed_event_fields Hne;
          [congruence|reflexivity].
      * intros field1 field2 value1 value2
          [[-> _]|[H1 ->]]%failed_event_fields
          [[-> _]|[H2 ->]]%failed_event_fields Hu1 Hu2 Hne;
          try congruence.
        repeat (apply elem_of_cons in H1 as [->|H1]);
          [..|now apply elem_of_nil in H1];
          (repeat (apply elem_of_cons in H2 as [->|H2]);
           [..|now apply elem_of_nil in H2]);
          first [congruence|discriminate].
Qed.

(** C9 as stated fails on two fields of the record of a failed event: [url]
    holds the link, not "Failed to scrape url", and [location_link] holds
    "Failed to scrape location link", which is not its field name. *)
Lemma failed_event_url_kept :
  failed_event "https://www.santamonica.gov/events/1" !! "url"%string
    = Some "https://www.santamonica.gov/events/1"%string /\
  failed_event "https://www.santamonica.gov/events/1" !! "url"%string
    <> Some "Failed to scrape url"%string /\
  failed_event "https://www.santamonica.gov/events/1" !! "location_link"%string
    <> Some "Failed to scrape location_link"%string /\
  ~ (forall field value : string,
       failed_event "https://www.santamonica.gov/events/1" !! field
         = Some value ->
       value = "Failed to scrape " +:+ field).
Proof.
  split; [reflexivity|]. split; [discriminate|]. split; [discriminate|].
  intros H. specialize (H "url"%string _ eq_refl). discriminate H.
Qed.

(** ** More on stable sorting *)

Lemma filter_all_false {A} (f : A -> bool) (l : list A) :
  (forall x, x ∈ l -> f x = false) -> List.filter f l = [].
Proof.
  induction l as [|x l IH]; intros H; cbn [List.filter]; [reflexivity|].
  rewrite (H x) by now left. apply IH. intros y Hy. apply H. now right.
Qed.

Section SortMore.
Context {A K : Type} (key : A -> K) (lt : K -> K -> bool).

Lemma insert_by_last (x : A) (l : list A) :
  (forall y, y ∈ l -> lt (key x) (key y) = false) ->
  insert_by key lt x l = l ++ [x].
Proof.
  induction l as [|y l IH]; intros Hl; cbn [insert_by app]; [reflexivity|].
  rewrite (Hl y) by now left.
  rewrite IH; [reflexivity|]. intros z Hz. apply Hl. now right.
Qed.

(** Sorting a list that is in order leaves it as it is. *)
Lemma sort_fold_sorted (l acc : list A) :
  sorted_by key lt (acc ++ l) ->
  fold_left (fun acc x => insert_by key lt x acc) l acc = acc ++ l.
Proof.
  revert acc. induction l as [|x l IH]; intros acc Hs; cbn [fold_left];
    [now rewrite app_nil_r|].
  replace (acc ++ x :: l) with ((acc ++ [x]) ++ l) in *
    by (now rewrite <- app_assoc).
  rewrite insert_by_last.
  - now apply IH.
  - intros y Hy. unfold sorted_by in Hs.
    apply StronglySorted_app_1_l in Hs.
    apply (StronglySorted_app_1_elem_of _ acc [x] y x Hs Hy).
    now left.
Qed.

Lemma sort_by_sorted_id (l : list A) :
  sorted_by key lt l -> sort_by key lt l = l.
Proof. intros Hs. unfold sort_by. now rewrite sort_fold_sorted. Qed.

Hypothesis lt_asym : forall a b, lt a b = true -> lt b a = false.
Hypothesis le_trans :
  forall a b c, lt b a = false -> lt c b = false -> lt c a = false.

Lemma lt_irrefl (a : K) : lt a a = false.
Proof.
  destruct (lt a a) eqn:H; [|reflexivity].
  pose proof (lt_asym _ _ H). congruence.
Qed.

(** Insertion puts an element behind the elements of the same key. *)
Lemma insert_by_same_key (p : A -> bool) (k : K) (x : A) (l : list A) :
  (forall y, p y = true <-> key y = k) ->
  sorted_by key lt l ->
  List.filter p (insert_by key lt x l)
  = List.filter p l ++ (if p x then [x] else []).
Proof.
  intros Hp. unfold sorted_by.
  induction l as [|y l IH]; intros Hs; cbn [insert_by List.filter app].
  - now destruct (p x).
  - apply StronglySorted_inv in Hs as [Hs Hy].
    destruct (lt (key x) (key y)) eqn:Hxy.
    + cbn [List.filter]. destruct (p x) eqn:Hpx; [|now rewrite app_nil_r].
      apply Hp in Hpx.
      assert (Hnone : List.filter p (y :: l) = []).
      { apply filter_all_false.
        intros z Hz. apply not_true_is_false. intros Hpz%Hp.
        assert (Hkz : lt (key x) (key z) = false).
        { rewrite Hpx, <- Hpz. apply lt_irrefl. }
        apply elem_of_cons in Hz as [->|Hz]; [congruence|].
        rewrite Forall_forall in Hy. specialize (Hy z Hz). cbn in Hy.
        assert (lt (key x) (key y) = false); [|congruence].
        rewrite Hpx, <- Hpz. exact Hy. }
      cbn [List.filter] in Hnone. now rewrite Hnone.
    + cbn [List.filter]. rewrite IH by exact Hs.
      now destruct (p y).
Qed.

(** The sort is stable: the elements of one key keep their order. *)
Lemma sort_by_stable (p : A -> bool) (k : K) (l : list A) :
  (forall y, p y = true <-> key y = k) ->
  List.filter p (sort_by key lt l) = List.filter p l.
Proof.
  intros Hp. unfold sort_by.
  assert (H : forall l acc, sorted_by key lt acc ->
            List.filter p (fold_left (fun acc x => insert_by key lt x acc) l acc)
            = List.filter p acc ++ List.filter p l).
  { clear l. induction l as [|x l IH]; intros acc Hacc;
      cbn [fold_left List.filter]; [now rewrite app_nil_r|].
    rewrite IH by (now apply insert_by_sorted).
    rewrite (insert_by_same_key p k) by assumption.
    rewrite <- app_assoc. now destruct (p x). }
  rewrite H by constructor. reflexivity.
Qed.
End SortMore.

Lemma key_eqb_eq (a b : datetime * Z) : key_eqb a b = true <-> a = b.
Proof.
  unfold key_eqb. rewrite andb_true_iff, dt_eqb_eq, Z.eqb_eq.
  destruct a, b. cbn. split; [now intros [-> ->]|now intros [= -> ->]].
Qed.

Lemma filter_all_true {A} (f : A -> bool) (l : list A) :
  (forall x, x ∈ l -> f x = true) -> List.filter f l = l.
Proof.
  induction l as [|x l IH]; intros H; cbn [List.filter]; [reflexivity|].
  rewrite (H x) by now left. rewrite IH; [reflexivity|].
  intros y Hy. apply H. now right.
Qed.

Lemma list_filter_sublist {A} (f : A -> bool) (l : list A) :
  List.filter f l `sublist_of` l.
Proof.
  induction l as [|x l IH]; cbn [List.filter]; [constructor|].
  destruct (f x); now constructor.
Qed.

(** ** More on the week filter *)

Lemma filter_events_by_week_cases (events : list Event)
    (target wsd : string) (out : list Event) :
  filter_events_by_week events target wsd = Ok out ->
  (out = [] /\ exists e, strptime format_Y_m_d target = Raise e) \/
  (exists td ws we,
     strptime format_Y_m_d target = Ok td /\
     week_window td (default 0 (day_mapping !! wsd)) = Ok (ws, we) /\
     out = sort_by sort_key pair_ltb (List.filter (in_week ws we) events)).
Proof.
  unfold filter_events_by_week.
  destruct (strptime format_Y_m_d target) as [td|e] eqn:Htd.
  - destruct (week_window td (default 0 (day_mapping !! wsd)))
      as [[ws we]|e] eqn:Hw; cbn [mbind result_bind]; [|discriminate].
    intros [= <-]. right. exists td, ws, we. now rewrite filter_fold.
  - intros [= <-]. left. eauto.
Qed.

(** X1. Filtering the result of the week filter again, for the same week,
    changes nothing. *)
Theorem filter_events_by_week_idempotent (events : list Event)
    (target wsd : string) (out : list Event) :
  filter_events_by_week events target wsd = Ok out ->
  filter_events_by_week out target wsd = Ok out.
Proof.
  intros [[-> [e He]]|(td & ws & we & Htd & Hw & ->)]%filter_events_by_week_cases.
  - unfold filter_events_by_week. now rewrite He.
  - rewrite (filter_events_by_week_unfold _ _ _ td ws we Htd Hw). f_equal.
    rewrite filter_all_true.
    + apply sort_by_sorted_id, sort_by_key_sorted.
    + intros e. rewrite sort_by_elem_of, list_elem_of_In, filter_In.
      now intros [_ H].
Qed.

Lemma filter_events_by_week_idempotent_witness :
  exists out : list Event,
    filter_events_by_week sample_events "2025-08-04" "Monday" = Ok out /\
    filter_events_by_week out "2025-08-04" "Monday" = Ok out.
Proof.
  eexists. split; [vm_compute; reflexivity|].
  apply (filter_events_by_week_idempotent sample_events).
  vm_compute. reflexivity.
Defined.

(** X2. The week filter is stable: the events of the result that have one
    and the same sort key stand in the order they had in the input. *)
Theorem filter_events_by_week_stable (events : list Event)
    (target wsd : string) (out : list Event) (k : datetime * Z) :
  filter_events_by_week events target wsd = Ok out ->
  List.filter (fun e => key_eqb (sort_key e) k) out `sublist_of` events.
Proof.
  intros [[-> _]|(td & ws & we & _ & _ & ->)]%filter_events_by_week_cases.
  - apply sublist_nil_l.
  - rewrite (sort_by_stable sort_key pair_ltb pair_ltb_asym key_le_trans _ k)
      by (intros e; apply key_eqb_eq).
    etransitivity; apply list_filter_sublist.
Qed.

Lemma filter_events_by_week_stable_witness :
  exists out : list Event,
    filter_events_by_week
      [dated_event "Mon, Aug 4, 2025" "9:00 AM - 10:00 AM";
       dated_event "Monday, Aug 4, 2025" "8:00 AM";
       dated_event "Monday, Aug 4, 2025" "9:00 AM - 11:30 AM"]
      "2025-08-04" "Monday" = Ok out /\
    List.filter (fun e => key_eqb (sort_key e) (midnight 2025 8 4, 540)) out
    = [dated_event "Mon, Aug 4, 2025" "9:00 AM - 10:00 AM";
       dated_event "Monday, Aug 4, 2025" "9:00 AM - 11:30 AM"] /\
    List.filter (fun e => key_eqb (sort_key e) (midnight 2025 8 4, 540)) out
    `sublist_of`
      [dated_event "Mon, Aug 4, 2025" "9:00 AM - 10:00 AM";
       dated_event "Monday, Aug 4, 2025" "8:00 AM";
       dated_event "Monday, Aug 4, 2025" "9:00 AM - 11:30 AM"].
Proof.
  eexists. split; [vm_compute; reflexivity|]. split; [vm_compute; reflexivity|].
  apply (filter_events_by_week_stable _ "2025-08-04" "Monday").
  vm_compute. reflexivity.
Defined.

(** ** The target date *)

Lemma rmatch_month_number {A} (pad : bool) (m : Z) (rest : string)
    (g : groups) (k : string -> string -> groups -> option A) (a : A) :
  1 <= m <= 12 ->
  k (short_number pad m) (String "-" rest)
    (("m"%string, short_number pad m) :: g) = Some a ->
  rmatch re_m (short_number pad m +:+ String "-" rest) g k = Some a.
Proof.
  intros Hm Hk. destruct pad; enum_Z m 1 12;
    vm_compute in Hk |- *; rewrite Hk; reflexivity.
Qed.

Lemma rmatch_day_end {A} (pad : bool) (d : Z) (g : groups)
    (k : string -> string -> groups -> option A) (a : A) :
  1 <= d <= 31 ->
  k (short_number pad d) EmptyString
    (("d"%string, short_number pad d) :: g) = Some a ->
  rmatch re_d (short_number pad d) g k = Some a.
Proof.
  intros Hd Hk. destruct pad; enum_Z d 1 31;
    vm_compute in Hk |- *; rewrite Hk; reflexivity.
Qed.

Lemma int_month_number (pad : bool) (m : Z) :
  1 <= m <= 12 -> int (short_number pad m) = Ok m.
Proof. intros Hm. destruct pad; enum_Z m 1 12; reflexivity. Qed.

Lemma re_match_iso (pad_month pad_day : bool) (m d : Z)
    (c1 c2 c3 c4 : ascii) :
  1 <= m <= 12 -> 1 <= d <= 31 ->
  is_digit c1 = true -> is_digit c2 = true ->
  is_digit c3 = true -> is_digit c4 = true ->
  let y := String c1 (String c2 (String c3 (String c4 EmptyString))) in
  re_match format_Y_m_d
    (y +:+ "-" +:+ short_number pad_month m +:+ "-"
     +:+ short_number pad_day d)
  = Some (EmptyString,
          [("d"%string, short_number pad_day d);
           ("m"%string, short_number pad_month m); ("Y"%string, y)]).
Proof.
  intros Hm Hd H1 H2 H3 H4 y. unfold re_match, format_Y_m_d.
  cbn [rmatch]. unfold y at 1. rewrite !app_cons, app_empty_l.
  rewrite rmatch_year by assumption.
  change (rmatch (Lit "-"))
    with (@rmatch (string * groups) (Lit "-")).
  cbn [rmatch]. change (ci_eqb "-" "-") with true. cbn iota.
  change ("-" +:+ short_number pad_day d)%string
    with (String "-" (short_number pad_day d)).
  apply rmatch_month_number; [exact Hm|].
  cbn [rmatch]. change (ci_eqb "-" "-") with true. cbn iota.
  apply rmatch_day_end; [exact Hd|]. reflexivity.
Qed.

(** On an ISO text, [strptime] comes down to building the date. *)
Lemma strptime_iso_new (pad_month pad_day : bool) (y m d : Z) :
  0 <= y <= 9999 -> 1 <= m <= 12 -> 1 <= d <= 31 ->
  strptime format_Y_m_d (iso_text pad_month pad_day y m d) = new y m d 0 0.
Proof.
  intros Hy Hm Hd.
  destruct (year_text_digits y Hy)
    as (c1 & c2 & c3 & c4 & Hyt & H1 & H2 & H3 & H4 & Hval).
  unfold strptime, iso_text. rewrite Hyt.
  rewrite (re_match_iso pad_month pad_day m d c1 c2 c3 c4) by assumption.
  cbn [is_empty negb].
  unfold int_group. cbn [group String.eqb Ascii.eqb Bool.eqb].
  rewrite int_four_digits by assumption. rewrite Hval.
  cbn [mbind result_bind].
  rewrite (int_month_number pad_month m) by assumption.
  cbn [mbind result_bind].
  rewrite (int_short_number pad_day d) by assumption.
  reflexivity.
Qed.

(** On a date part, [strptime] comes down to building the date. *)
Lemma strptime_date_part_new (pad : bool) (y m d : Z) :
  0 <= y <= 9999 -> 1 <= m <= 12 -> 1 <= d <= 31 ->
  strptime format_b_d_Y (date_part_text pad y m d) = new y m d 0 0.
Proof.
  intros Hy Hm Hd.
  destruct (year_text_digits y Hy)
    as (c1 & c2 & c3 & c4 & Hyt & H1 & H2 & H3 & H4 & Hval).
  unfold strptime, date_part_text. rewrite Hyt.
  rewrite (re_match_date_part pad m d c1 c2 c3 c4) by assumption.
  cbn [is_empty negb].
  unfold int_group. cbn [group String.eqb Ascii.eqb Bool.eqb].
  rewrite int_four_digits by assumption. rewrite Hval.
  cbn [mbind result_bind]. rewrite month_index by assumption.
  cbn [mbind result_bind]. rewrite int_short_number by assumption.
  reflexivity.
Qed.

(** The constructor refuses the year 0 and the days a month does not
    have. *)
Lemma new_no_such_day (y m d : Z) :
  y = 0 \/ days_in_month y m < d -> exists e, new y m d 0 0 = Raise e.
Proof.
  intros H. unfold new, MINYEAR, MAXYEAR.
  destruct (negb ((1 <=? y) && (y <=? 9999))) eqn:Hy; [eauto|].
  destruct (negb ((1 <=? m) && (m <=? 12))); [eauto|].
  replace ((1 <=? d) && (d <=? days_in_month y m)) with false by lia.
  cbn [negb]. eauto.
Qed.

(** X3. A target week written as an ISO date YYYY-M-D, month and day in
    one or two digits, that names a date of the calendar is read as that
    date, and the week filter goes on with its week; one that names the
    year 0000 or a day its month does not have counts as an invalid date,
    and the week filter returns the empty list. *)
Theorem filter_events_by_week_iso_target (events : list Event)
    (wsd : string) (pad_month pad_day : bool) (y m d : Z) :
  0 <= y <= 9999 -> 1 <= m <= 12 -> 1 <= d <= 31 ->
  (1 <= y /\ d <= days_in_month y m ->
   strptime format_Y_m_d (iso_text pad_month pad_day y m d)
     = Ok (midnight y m d) /\
   filter_events_by_week events (iso_text pad_month pad_day y m d) wsd
     = ('(ws, we) ← week_window (midnight y m d)
                      (default 0 (day_mapping !! wsd));
        Ok (sort_by sort_key pair_ltb
              (List.filter (in_week ws we) events)))) /\
  (y = 0 \/ days_in_month y m < d ->
   filter_events_by_week events (iso_text pad_month pad_day y m d) wsd
     = Ok []).
Proof.
  intros Hy Hm Hd.
  pose proof (strptime_iso_new pad_month pad_day y m d Hy Hm Hd) as Hs.
  split.
  - intros [Hy1 Hdim]. rewrite new_midnight in Hs by lia.
    split; [exact Hs|]. unfold filter_events_by_week. rewrite Hs.
    destruct (week_window (midnight y m d) (default 0 (day_mapping !! wsd)))
      as [[ws we]|e]; cbn [mbind result_bind]; [|reflexivity].
    now rewrite filter_fold.
  - intros [e He]%new_no_such_day. rewrite He in Hs.
    unfold filter_events_by_week. now rewrite Hs.
Qed.

Lemma filter_events_by_week_iso_target_witness :
  strptime format_Y_m_d "2025-8-4" = Ok (midnight 2025 8 4) /\
  filter_events_by_week sample_events "2025-02-30" "Monday" = Ok [] /\
  filter_events_by_week sample_events "0000-01-01" "Monday" = Ok [].
Proof.
  split; [|split].
  - apply (filter_events_by_week_iso_target sample_events "Monday" false false
             2025 8 4); [lia|lia|lia|]. vm_compute. split; congruence.
  - apply (filter_events_by_week_iso_target sample_events "Monday" true true
             2025 2 30); [lia|lia|lia|]. right. vm_compute. reflexivity.
  - apply (filter_events_by_week_iso_target sample_events "Monday" true true
             0 1 1); [lia|lia|lia|]. now left.
Defined.

(** X4. Every target date inside a week selects that week: when the
    week of one target runs from [ws] to [we], a second target that reads
    as a day from [ws] to [we] gives the same outcome of the week filter. *)
Theorem filter_events_by_week_same_week (events : list Event)
    (target1 target2 wsd : string) (td1 td2 ws we : datetime) :
  strptime format_Y_m_d target1 = Ok td1 ->
  strptime format_Y_m_d target2 = Ok td2 ->
  week_window td1 (default 0 (day_mapping !! wsd)) = Ok (ws, we) ->
  ordinal ws <= ordinal td2 <= ordinal we ->
  week_window td2 (default 0 (day_mapping !! wsd)) = Ok (ws, we) /\
  filter_events_by_week events target2 wsd
    = filter_events_by_week events target1 wsd.
Proof.
  intros H1 H2 Hw Hin.
  set (i := default 0 (day_mapping !! wsd)) in *.
  apply (strptime_date_inv format_Y_m_d _ _ eq_refl eq_refl) in H1 as Hm1.
  apply (strptime_date_inv format_Y_m_d _ _ eq_refl eq_refl) in H2 as Hm2.
  destruct Hm1 as (y1 & m1 & d1 & _ & _ & _ & ->).
  destruct Hm2 as (y2 & m2 & d2 & _ & _ & _ & ->).
  pose proof (week_window_inv _ _ _ _ Hw) as [Hlo Hhi].
  rewrite week_window_ok in Hw by assumption.
  injection Hw as <- <-.
  unfold midnight in *.
  cbn [ordinal hour minute second microsecond] in *.
  unfold weekday in *. cbn [ordinal] in *.
  set (o1 := ymd2ord y1 m1 d1) in *. set (o2 := ymd2ord y2 m2 d2) in *.
  assert (Hk : (((o2 + 6) mod 7 - i) mod 7)
               = o2 - (o1 - ((o1 + 6) mod 7 - i) mod 7)) by div_lia.
  assert (Hw2 : week_window (mk_datetime o2 0 0 0 0) i
                = Ok (mk_datetime (o1 - ((o1 + 6) mod 7 - i) mod 7) 0 0 0 0,
                      mk_datetime (o1 - ((o1 + 6) mod 7 - i) mod 7 + 6)
                        0 0 0 0)).
  { rewrite week_window_ok; unfold weekday;
      cbn [ordinal hour minute second microsecond]; rewrite Hk.
    - do 3 f_equal; lia.
    - lia.
    - lia. }
  split; [exact Hw2|].
  rewrite (filter_events_by_week_unfold _ _ _ _ _ _ H2 Hw2).
  symmetry. apply (filter_events_by_week_unfold _ _ _ _ _ _ H1).
  fold i. rewrite week_window_ok; unfold weekday;
    cbn [ordinal hour minute second microsecond]; [reflexivity|lia..].
Qed.

Lemma filter_events_by_week_same_week_witness :
  filter_events_by_week sample_events "2025-08-09" "Sunday"
  = filter_events_by_week sample_events "2025-08-03" "Sunday".
Proof.
  apply (filter_events_by_week_same_week sample_events "2025-08-03"
           "2025-08-09" "Sunday" (midnight 2025 8 3) (midnight 2025 8 9)
           (midnight 2025 8 3) (midnight 2025 8 9));
    [reflexivity|reflexivity|reflexivity|vm_compute; split; congruence].
Defined.

(** ** Event dates off the calendar, and text around the date *)

Lemma app_assoc_str (a b c : string) : (a +:+ b) +:+ c = a +:+ b +:+ c.
Proof.
  induction a as [|x a IH]; [now rewrite !app_empty_l|].
  now rewrite !app_cons, IH.
Qed.

Lemma lacks_month_day (pad : bool) (m d : Z) :
  1 <= m <= 12 -> 1 <= d <= 31 ->
  lacks "," (month_text m +:+ " " +:+ short_number pad d) = true.
Proof. intros Hm Hd. destruct pad; enum_Z m 1 12; enum_Z d 1 31; reflexivity. Qed.

Lemma lacks_year_text (y : Z) : 0 <= y <= 9999 -> lacks "," (year_text y) = true.
Proof.
  intros Hy.
  destruct (year_text_digits y Hy)
    as (c1 & c2 & c3 & c4 & -> & H1 & H2 & H3 & H4 & _).
  assert (Hc : forall c, is_digit c = true -> negb (Ascii.eqb c ",") = true).
  { intros [[] [] [] [] [] [] [] []]; vm_compute; congruence. }
  cbn [lacks]. now rewrite !Hc.
Qed.

(** The segments of a date text that goes on after the year. *)
Lemma split_date_text_more (wd : string) (pad : bool) (y m d : Z)
    (more : string) :
  lacks "," wd = true -> 1 <= m <= 12 -> 1 <= d <= 31 -> 0 <= y <= 9999 ->
  split ", " (date_text wd pad y m d +:+ ", " +:+ more)
  = wd :: (month_text m +:+ " " +:+ short_number pad d) :: year_text y
       :: split ", " more.
Proof.
  intros Hwd Hm Hd Hy. unfold date_text, date_part_text.
  replace ((wd +:+ ", " +:+ month_text m +:+ " " +:+ short_number pad d
            +:+ ", " +:+ year_text y) +:+ ", " +:+ more)
    with (wd +:+ ", " +:+ (month_text m +:+ " " +:+ short_number pad d)
          +:+ ", " +:+ year_text y +:+ ", " +:+ more)
    by now rewrite !app_assoc_str.
  rewrite split_comma_first by exact Hwd.
  rewrite split_comma_first by now apply lacks_month_day.
  now rewrite split_comma_first by now apply lacks_year_text.
Qed.

(** A date part alone has two segments. *)
Lemma split_date_part_text (pad : bool) (y m d : Z) :
  1 <= m <= 12 -> 1 <= d <= 31 -> 0 <= y <= 9999 ->
  split ", " (date_part_text pad y m d)
  = [month_text m +:+ " " +:+ short_number pad d; year_text y].
Proof.
  intros Hm Hd Hy. unfold date_part_text.
  replace (month_text m +:+ " " +:+ short_number pad d +:+ ", "
           +:+ year_text y)
    with ((month_text m +:+ " " +:+ short_number pad d) +:+ ", "
          +:+ year_text y) by now rewrite !app_assoc_str.
  rewrite split_comma_first by now apply lacks_month_day.
  now rewrite split_comma_none by now apply lacks_year_text.
Qed.

Lemma date_part_text_assoc (pad : bool) (y m d : Z) :
  (month_text m +:+ " " +:+ short_number pad d) +:+ ", " +:+ year_text y
  = date_part_text pad y m d.
Proof. unfold date_part_text. now rewrite !app_assoc_str. Qed.

(** What the readers of event dates find in a date text, with or without
    text after the year. *)
Lemma read_date_text (wd : string) (pad : bool) (y m d : Z) :
  lacks "," wd = true -> 0 <= y <= 9999 -> 1 <= m <= 12 -> 1 <= d <= 31 ->
  read_date (date_text wd pad y m d)
  = match new y m d 0 0 with Ok t => Some t | Raise _ => None end.
Proof.
  intros Hwd Hy Hm Hd. unfold read_date.
  rewrite split_date_text by assumption. cbn [lookup list_lookup].
  rewrite date_part_text_assoc, strptime_date_part_new by assumption.
  reflexivity.
Qed.

Lemma read_date_text_more (wd : string) (pad : bool) (y m d : Z)
    (more : string) :
  lacks "," wd = true -> 0 <= y <= 9999 -> 1 <= m <= 12 -> 1 <= d <= 31 ->
  read_date (date_text wd pad y m d +:+ ", " +:+ more)
  = match new y m d 0 0 with Ok t => Some t | Raise _ => None end.
Proof.
  intros Hwd Hy Hm Hd. unfold read_date.
  rewrite split_date_text_more by assumption. cbn [lookup list_lookup].
  rewrite date_part_text_assoc, strptime_date_part_new by assumption.
  reflexivity.
Qed.

(** X5. A well-formed date text that names the year 0000 or a day
    its month does not have (Feb 30, or Feb 29 outside a leap year) is not a
    date for the script: as a group name it sorts with the unparseable ones,
    its event gets the last sort key, and the week filter never returns
    such an event, whatever the week. *)
Theorem event_date_no_such_day (wd : string) (pad : bool) (y m d : Z) :
  lacks "," wd = true -> 0 <= y <= 9999 -> 1 <= m <= 12 -> 1 <= d <= 31 ->
  y = 0 \/ days_in_month y m < d ->
  parse_date_for_sorting (date_text wd pad y m d) = DateTime.max /\
  (forall e : Event,
     event_date e = date_text wd pad y m d ->
     sort_key e = (DateTime.max, 0) /\
     forall (events : list Event) (target wsd : string) (out : list Event),
       filter_events_by_week events target wsd = Ok out -> e ∉ out).
Proof.
  intros Hwd Hy Hm Hd [e He]%new_no_such_day.
  pose proof (read_date_text wd pad y m d Hwd Hy Hm Hd) as Hr.
  rewrite He in Hr. split.
  - now rewrite parse_date_read, Hr.
  - intros ev Hev. split.
    + now rewrite sort_key_read, Hev, Hr.
    + intros events target wsd out
        [[-> _]|(td & ws & we & _ & _ & ->)]%filter_events_by_week_cases.
      * apply not_elem_of_nil.
      * rewrite sort_by_elem_of, list_elem_of_In, filter_In.
        intros [_ Hin]. rewrite (in_week_of_date _ _ _ _ Hev), Hr in Hin.
        discriminate.
Qed.

Lemma event_date_no_such_day_witness :
  parse_date_for_sorting "Sunday, Feb 30, 2025" = DateTime.max /\
  sort_key (dated_event "Saturday, Feb 29, 2025" "9:00 AM")
  = (DateTime.max, 0).
Proof.
  split.
  - apply (event_date_no_such_day "Sunday" false 2025 2 30);
      [reflexivity|lia|lia|lia|right; vm_compute; reflexivity].
  - apply (event_date_no_such_day "Saturday" false 2025 2 29);
      [reflexivity|lia|lia|lia|right; vm_compute; reflexivity|reflexivity].
Defined.

(** X6. The readers of event dates go by position: of a date text
    only the second and third comma-separated segments count.  Text that
    follows the year after a comma is ignored, and so is the wording of the
    first segment; a date written without a first segment, as
    "Aug 4, 2025", is not read at all. *)
Theorem event_date_read_by_position (wd : string) (pad : bool) (y m d : Z)
    (more : string) :
  lacks "," wd = true ->
  1 <= y <= 9999 -> 1 <= m <= 12 -> 1 <= d <= days_in_month y m ->
  parse_date_for_sorting (date_text wd pad y m d +:+ ", " +:+ more)
  = midnight y m d /\
  parse_date_for_sorting (date_part_text pad y m d) = DateTime.max /\
  (forall (e : Event) (ws we : datetime),
     event_date e = date_text wd pad y m d +:+ ", " +:+ more ->
     sort_key e = (midnight y m d, minutes_of e) /\
     in_week ws we e
     = DateTime.leb ws (midnight y m d) && DateTime.leb (midnight y m d) we) /\
  (forall (e : Event) (ws we : datetime),
     event_date e = date_part_text pad y m d ->
     sort_key e = (DateTime.max, 0) /\ in_week ws we e = false).
Proof.
  intros Hwd Hy Hm Hd.
  assert (Hd31 : 1 <= d <= 31) by (pose proof (days_in_month_le y m Hm); lia).
  pose proof (read_date_text_more wd pad y m d more Hwd ltac:(lia) Hm Hd31)
    as Hr.
  rewrite new_midnight in Hr by assumption.
  assert (Hp : read_date (date_part_text pad y m d) = None).
  { unfold read_date. now rewrite split_date_part_text by (assumption || lia). }
  split; [now rewrite parse_date_read, Hr|].
  split; [now rewrite parse_date_read, Hp|].
  split.
  - intros e ws we He.
    now rewrite sort_key_read, (in_week_of_date _ _ _ _ He), He, Hr.
  - intros e ws we He.
    now rewrite sort_key_read, (in_week_of_date _ _ _ _ He), He, Hp.
Qed.

Lemma event_date_read_by_position_witness :
  parse_date_for_sorting "Monday, Aug 4, 2025, 7 PM, Main Library"
  = midnight 2025 8 4 /\
  parse_date_for_sorting "Aug 4, 2025" = DateTime.max.
Proof.
  split.
  - apply (event_date_read_by_position "Monday" false 2025 8 4
             "7 PM, Main Library"); [reflexivity|lia|lia|vm_compute].
    split; congruence.
  - apply (event_date_read_by_position "" false 2025 8 4 "");
      [reflexivity|lia|lia|vm_compute]. split; congruence.
Defined.

(** ** More on the grouping *)

Lemma filter_filter_comm {A} (f g : A -> bool) (l : list A) :
  List.filter f (List.filter g l) = List.filter g (List.filter f l).
Proof.
  induction l as [|x l IH]; [reflexivity|]. cbn [List.filter].
  destruct (f x) eqn:Hf, (g x) eqn:Hg; cbn [List.filter];
    rewrite ?Hf, ?Hg, IH; reflexivity.
Qed.

Lemma filter_ext_elem {A} (f g : A -> bool) (l : list A) :
  (forall x, x ∈ l -> f x = g x) -> List.filter f l = List.filter g l.
Proof.
  induction l as [|x l IH]; intros H; [reflexivity|]. cbn [List.filter].
  rewrite (H x) by now left. rewrite IH; [reflexivity|].
  intros y Hy. apply H. now right.
Qed.

Lemma first_occurrences_elem_of (l : list string) (x : string) :
  x ∈ first_occurrences l <-> x ∈ l.
Proof.
  induction l as [|y l IH]; [reflexivity|]. cbn [first_occurrences].
  rewrite !elem_of_cons, list_elem_of_In, filter_In, <- list_elem_of_In, IH.
  destruct (String.eqb_spec x y) as [->|Hne]; [tauto|].
  cbn [negb]. tauto.
Qed.

Lemma first_occurrences_NoDup (l : list string) : NoDup (first_occurrences l).
Proof.
  induction l as [|y l IH]; [constructor|]. cbn [first_occurrences].
  constructor.
  - rewrite list_elem_of_In, filter_In. intros [_ H].
    now rewrite String.eqb_refl in H.
  - eapply sublist_NoDup; [exact IH|apply list_filter_sublist].
Qed.

Lemma filter_filter {A} (f g : A -> bool) (l : list A) :
  List.filter f (List.filter g l) = List.filter (fun x => g x && f x) l.
Proof.
  induction l as [|x l IH]; [reflexivity|]. cbn [List.filter].
  destruct (g x) eqn:Hg; cbn [List.filter andb]; [|exact IH].
  destruct (f x); now rewrite IH.
Qed.

(** The keys of the grouping loop come in the order of first occurrence. *)
Lemma group_fold_keys (events : list Event) (d : list (string * list Event)) :
  ODict.keys (fold_left group_step events d)
  = ODict.keys d
    ++ List.filter (fun k => negb (str_in k (ODict.keys d)))
         (first_occurrences (map event_date events)).
Proof.
  revert d. induction events as [|e events IH]; intros d;
    cbn [fold_left map first_occurrences]; [now rewrite app_nil_r|].
  rewrite IH. unfold group_step. fold (event_date e).
  set (fo := first_occurrences (map event_date events)).
  cbn [List.filter]. rewrite filter_filter.
  destruct (ODict.get d (event_date e)) as [l|] eqn:Hl.
  - rewrite odict_keys_set_old by (now rewrite Hl).
    assert (Hin : str_in (event_date e) (ODict.keys d) = true).
    { apply str_in_spec. destruct (decide (event_date e ∈ ODict.keys d));
        [assumption|]. apply odict_get_None in n. congruence. }
    rewrite Hin. cbn [negb]. f_equal. apply filter_ext_elem. intros x _.
    destruct (String.eqb_spec x (event_date e)) as [->|]; [|reflexivity].
    now rewrite Hin.
  - rewrite odict_set_new by exact Hl.
    assert (Hin : str_in (event_date e) (ODict.keys d) = false).
    { apply not_true_is_false. intros H%str_in_spec.
      now apply odict_get_None in Hl. }
    rewrite Hin. cbn [negb]. unfold ODict.keys at 1 2. rewrite map_app.
    cbn [map fst]. fold (ODict.keys d). rewrite <- app_assoc. cbn [app].
    do 2 f_equal. apply filter_ext_elem. intros x _.
    unfold str_in. rewrite existsb_app. cbn [existsb].
    rewrite orb_false_r, negb_orb, andb_comm. reflexivity.
Qed.

Lemma group_keys (events : list Event) :
  ODict.keys (fold_left group_step events [])
  = first_occurrences (map event_date events).
Proof.
  rewrite group_fold_keys. cbn [ODict.keys map app].
  apply filter_all_true. reflexivity.
Qed.

(** [organize_events_by_date] in closed form. *)
Lemma organize_events_by_date_closed (events : list Event) :
  organize_events_by_date events
  = Ok (map (fun k => (k, sort_by minutes_of Z.ltb (events_on k events)))
          (sort_by parse_date_for_sorting DateTime.ltb
             (first_occurrences (map event_date events)))).
Proof.
  pose proof (group_fold_grouped events [] []
                (conj NoDup_nil_2 (fun _ => eq_refl))) as [Hnd Hget].
  cbn [app] in Hget. pose proof (group_keys events) as Hkeys.
  set (d := fold_left group_step events []) in *.
  unfold organize_events_by_date. fold d.
  set (f := sort_by (fun x => parse_time_to_minutes (dict_get x "time" ""))
              Z.ltb).
  rewrite (odict_keys_map_sort d f), Hkeys.
  set (ks := sort_by parse_date_for_sorting DateTime.ltb
               (first_occurrences (map event_date events))).
  assert (Hperm : ks ≡ₚ ODict.keys d) by (rewrite Hkeys; apply sort_by_perm).
  rewrite (final_fold _ ks []).
  - cbn [app]. f_equal. apply map_ext_in. intros k Hk%list_elem_of_In.
    f_equal. rewrite odict_get_map_sort, Hget.
    rewrite Hperm in Hk.
    destruct (events_on k events) as [|e l] eqn:E; [|reflexivity].
    exfalso. specialize (Hget k). rewrite E in Hget.
    now apply odict_get_None in Hget.
  - now rewrite Hperm.
  - intros k _. apply not_elem_of_nil.
  - intros k Hk. rewrite Hperm in Hk. rewrite odict_get_map_sort.
    apply fmap_is_Some. destruct (ODict.get d k) eqn:E; [eauto|].
    now apply odict_get_None in E.
Qed.

Lemma filter_disjoint_app {A} (f g : A -> bool) (l : list A) :
  (forall x, x ∈ l -> f x = true -> g x = false) ->
  List.filter f l ++ List.filter g l ≡ₚ List.filter (fun x => f x || g x) l.
Proof.
  induction l as [|x l IH]; intros H; [reflexivity|]. cbn [List.filter].
  assert (IH' := IH (fun y Hy => H y ltac:(now right))).
  destruct (f x) eqn:Hf; cbn [orb].
  - rewrite (H x ltac:(now left) Hf). cbn [app]. now rewrite IH'.
  - destruct (g x); [|exact IH'].
    rewrite <- Permutation_middle. now rewrite IH'.
Qed.

(** The groups of a list of distinct date strings share out the events
    that carry one of them. *)
Lemma concat_events_on (keys : list string) (events : list Event) :
  NoDup keys ->
  concat (map (fun k => events_on k events) keys)
  ≡ₚ List.filter (fun e => str_in (event_date e) keys) events.
Proof.
  induction keys as [|k keys IH]; intros Hnd; cbn [map concat].
  - now rewrite filter_all_false.
  - apply NoDup_cons in Hnd as [Hk Hnd]. rewrite IH by exact Hnd.
    unfold events_on at 1. rewrite filter_disjoint_app.
    + erewrite filter_ext_elem; [reflexivity|]. intros e _.
      cbn [str_in existsb]. now rewrite String.eqb_sym.
    + intros e _ ->%String.eqb_eq. apply not_true_is_false.
      now intros H%str_in_spec.
Qed.

Lemma first_occurrences_sublist (l : list string) :
  first_occurrences l `sublist_of` l.
Proof.
  induction l as [|x l IH]; [constructor|].
  cbn [first_occurrences]. constructor.
  etransitivity; [apply list_filter_sublist|exact IH].
Qed.

(** X7. [organize_events_by_date] shares out the events among the
    groups: it always returns, no group is empty, and the groups taken
    together hold every event of the input exactly as many times as the
    input does. *)
Theorem organize_events_by_date_partition (events : list Event) :
  exists groups : list (string * list Event),
    organize_events_by_date events = Ok groups /\
    concat (map snd groups) ≡ₚ events /\
    (forall k evs, (k, evs) ∈ groups -> evs <> []) /\
    (length groups <= length events)%nat.
Proof.
  eexists. split; [apply organize_events_by_date_closed|].
  set (fo := first_occurrences (map event_date events)).
  set (ks := sort_by parse_date_for_sorting DateTime.ltb fo).
  assert (Hperm : ks ≡ₚ fo) by apply sort_by_perm.
  assert (Hnd : NoDup ks) by (rewrite Hperm; apply first_occurrences_NoDup).
  assert (Hin : forall k, k ∈ ks <-> k ∈ map event_date events).
  { intros k. rewrite Hperm. apply first_occurrences_elem_of. }
  split; [|split].
  - rewrite map_map. cbn [snd].
    transitivity (concat (map (fun k => events_on k events) ks)).
    + clear Hnd Hin Hperm. induction ks as [|k ks IH]; [reflexivity|].
      cbn [map concat]. rewrite IH. apply Permutation_app_tail.
      apply sort_by_perm.
    + rewrite concat_events_on by exact Hnd. rewrite filter_all_true;
        [reflexivity|].
      intros e He. apply str_in_spec, Hin, list_elem_of_fmap. now exists e.
  - intros k evs (k' & [= -> ->] & Hk)%list_elem_of_fmap.
    apply Hin, list_elem_of_fmap in Hk as (e & -> & He).
    intros Hnil.
    assert (Hmem : e ∈ sort_by minutes_of Z.ltb
                        (events_on (event_date e) events)).
    { rewrite sort_by_elem_of. now apply events_on_elem_of. }
    rewrite Hnil in Hmem. now apply elem_of_nil in Hmem.
  - rewrite length_map, Hperm.
    transitivity (length (map event_date events)); [|now rewrite length_map].
    apply sublist_length, first_occurrences_sublist.
Qed.

(** X8. The two sorts of [organize_events_by_date] are stable.
    Inside a group, the events that get the same minutes from the time
    parser (for one, all those whose time is not read) stand in their
    order of arrival; and the groups whose names the date parser reads as
    one and the same date (for one, all those it does not read) stand in the
    order in which their names first occur in the input. *)
Theorem organize_events_by_date_stable (events : list Event) :
  exists groups : list (string * list Event),
    organize_events_by_date events = Ok groups /\
    (forall (k : string) (evs : list Event) (n : Z),
       (k, evs) ∈ groups ->
       List.filter (fun e => minutes_of e =? n) evs
       = List.filter (fun e => minutes_of e =? n) (events_on k events)) /\
    (forall t : datetime,
       List.filter (fun k => DateTime.eqb (parse_date_for_sorting k) t)
         (map fst groups)
       = List.filter (fun k => DateTime.eqb (parse_date_for_sorting k) t)
           (first_occurrences (map event_date events))).
Proof.
  eexists. split; [apply organize_events_by_date_closed|]. split.
  - intros k evs n (k' & [= -> ->] & _)%list_elem_of_fmap.
    apply (sort_by_stable minutes_of Z.ltb Z_ltb_asym Z_le_trans_b _ n).
    intros e. apply Z.eqb_eq.
  - intros t. rewrite map_map. cbn [fst]. rewrite map_id.
    apply (sort_by_stable parse_date_for_sorting DateTime.ltb dt_ltb_asym
             dt_le_trans _ t).
    intros k. apply dt_eqb_eq.
Qed.

(** ** The event links *)

(** A loop that appends what it has not seen yet keeps the first
    occurrences. *)
Lemma dedup_fold {T} (f : T -> string) (l : list T) (acc : list string) :
  fold_left (fun acc x => if negb (str_in (f x) acc) then acc ++ [f x]
                          else acc) l acc
  = acc ++ List.filter (fun k => negb (str_in k acc))
             (first_occurrences (map f l)).
Proof.
  revert acc. induction l as [|x l IH]; intros acc;
    cbn [fold_left map first_occurrences]; [now rewrite app_nil_r|].
  rewrite IH. cbn [List.filter]. rewrite filter_filter.
  destruct (str_in (f x) acc) eqn:Hin; cbn [negb].
  - f_equal. apply filter_ext_elem. intros y _.
    destruct (String.eqb_spec y (f x)) as [->|]; [|reflexivity].
    now rewrite Hin.
  - rewrite <- app_assoc. cbn [app]. do 2 f_equal.
    apply filter_ext_elem. intros y _.
    unfold str_in. rewrite existsb_app. cbn [existsb].
    rewrite orb_false_r, negb_orb, andb_comm. reflexivity.
Qed.

Lemma first_occurrences_id (l : list string) :
  NoDup l -> first_occurrences l = l.
Proof.
  induction l as [|x l IH]; intros Hnd; [reflexivity|].
  apply NoDup_cons in Hnd as [Hx Hnd]. cbn [first_occurrences].
  rewrite IH by exact Hnd. f_equal. apply filter_all_true.
  intros y Hy. destruct (String.eqb_spec y x) as [->|]; [contradiction|].
  reflexivity.
Qed.

(** X9. The list of event links holds the address of every link of the
    listing once, however often the listing repeats it, in the order in
    which the addresses first occur; a listing without repeated addresses
    is taken as it is. *)
Theorem extract_event_links_spec (Tag : Type)
    (select : Tag -> string -> list Tag) (href : Tag -> string)
    (urljoin : string -> string -> string) (soup : Tag) :
  let event_links := extract_event_links Tag select href urljoin soup in
  let urls := listed_urls Tag select href urljoin soup in
  event_links = first_occurrences urls /\
  NoDup event_links /\
  (forall url, url ∈ event_links <-> url ∈ urls) /\
  event_links `sublist_of` urls /\
  (length event_links <= length urls)%nat /\
  (NoDup urls -> event_links = urls).
Proof.
  intros event_links urls.
  assert (Heq : event_links = first_occurrences urls).
  { unfold event_links, extract_event_links, link_step, urls, listed_urls.
    rewrite (dedup_fold
               (fun link => urljoin "https://www.santamonica.gov" (href link))).
    cbn [app]. now apply filter_all_true. }
  rewrite Heq. split; [reflexivity|].
  split; [apply first_occurrences_NoDup|].
  split; [apply first_occurrences_elem_of|].
  split; [apply first_occurrences_sublist|].
  split; [apply sublist_length, first_occurrences_sublist|].
  apply first_occurrences_id.
Qed.

(** ** From the scraping loop to the week filter *)

Lemma failed_event_date (event_url : string) :
  event_date (failed_event event_url) = "Failed to scrape date"%string.
Proof. reflexivity. Qed.

Lemma week_filter_elem_of (events : list Event) (target wsd : string)
    (out : list Event) (e : Event) :
  filter_events_by_week events target wsd = Ok out ->
  e ∈ out ->
  e ∈ events /\ exists d, read_date (event_date e) = Some d.
Proof.
  intros [[-> _]|(td & ws & we & _ & _ & ->)]%filter_events_by_week_cases.
  - now intros ?%elem_of_nil.
  - rewrite sort_by_elem_of, list_elem_of_In, filter_In, <- list_elem_of_In.
    intros [He Hin]. split; [exact He|]. unfold in_week in Hin.
    destruct (read_date (event_date e)) as [d|]; [eauto|discriminate].
Qed.

(** X10. Only pages that were scraped come through the week filter:
    when the records of the scraping loop are filtered, every record of the
    result is what the scraping of one of the links returned, and the
    record that stands for a failed page is never part of it. *)
Theorem week_filter_of_scraped (scrape_event : string -> result Event)
    (event_links : list string) (target wsd : string) (out : list Event) :
  filter_events_by_week (scrape_events scrape_event event_links) target wsd
    = Ok out ->
  (forall e, e ∈ out ->
     exists event_url, event_url ∈ event_links /\
       scrape_event event_url = Ok e) /\
  (forall event_url, failed_event event_url ∉ out) /\
  (length out <= length event_links)%nat.
Proof.
  intros Hout.
  assert (Hfailed : forall event_url, failed_event event_url ∉ out).
  { intros url [_ [d Hd]]%(week_filter_elem_of _ _ _ _ _ Hout).
    rewrite failed_event_date in Hd. vm_compute in Hd. discriminate. }
  split; [|split; [exact Hfailed|]].
  - intros e He.
    destruct (week_filter_elem_of _ _ _ _ _ Hout He) as [Hin _].
    rewrite scrape_events_map in Hin.
    apply list_elem_of_fmap in Hin as (url & -> & Hurl).
    exists url. split; [exact Hurl|]. unfold scraped_record in *.
    destruct (scrape_event url) as [ev|]; [reflexivity|].
    now apply Hfailed in He.
  - apply filter_events_by_week_cases in Hout
      as [[-> _]|(td & ws & we & _ & _ & ->)]; cbn [length]; [lia|].
    rewrite sort_by_perm.
    etransitivity; [apply sublist_length, list_filter_sublist|].
    now rewrite scrape_events_map, length_map.
Qed.

Lemma week_filter_of_scraped_witness :
  exists out,
    filter_events_by_week
      (scrape_events (fun url => if String.eqb url "a"
                                 then Ok (dated_event "Monday, Aug 4, 2025"
                                            "2:00 PM")
                                 else Raise ValueError) ["a"; "b"]%string)
      "2025-08-04" "Monday" = Ok out /\
    failed_event "b" ∉ out.
Proof.
  eexists. split; [vm_compute; reflexivity|].
  apply (week_filter_of_scraped
           (fun url => if String.eqb url "a"
                       then Ok (dated_event "Monday, Aug 4, 2025" "2:00 PM")
                       else Raise ValueError) ["a"; "b"]%string
           "2025-08-04" "Monday").
  vm_compute. reflexivity.
Defined.

(** ** What a description and a location are never *)

Lemma lower_app (a b : string) : lower (a +:+ b) = lower a +:+ lower b.
Proof.
  induction a as [|c a IH]; [reflexivity|].
  rewrite !app_cons. cbn [lower]. now rewrite app_cons, IH.
Qed.

Lemma is_empty_app (a b : string) :
  is_empty a = false -> is_empty (a +:+ b) = false.
Proof. destruct a; [discriminate|]. now rewrite app_cons. Qed.

Lemma starts_with_before_space (w a b : string) :
  lacks " " w = true ->
  starts_with w (a +:+ String " " b) = starts_with w a.
Proof.
  revert a. induction w as [|x w IH]; intros a Hw; [reflexivity|].
  cbn [lacks] in Hw. apply andb_true_iff in Hw as [Hx Hw].
  destruct a as [|c a].
  - rewrite app_empty_l. cbn [starts_with].
    now apply negb_true_iff in Hx as ->.
  - rewrite app_cons. cbn [starts_with]. now rewrite IH.
Qed.

(** A word without a space that occurs in [a b] occurs in [a] or in [b]. *)
Lemma contains_across_space (w a b : string) :
  lacks " " w = true ->
  contains w (a +:+ String " " b) = contains w a || contains w b.
Proof.
  intros Hw. induction a as [|c a IH].
  - rewrite app_empty_l.
    change (contains w (String " " b))
      with (starts_with w (String " " b) || contains w b).
    pose proof (starts_with_before_space w EmptyString b Hw) as H.
    rewrite app_empty_l in H. rewrite H.
    destruct w; reflexivity.
  - rewrite app_cons.
    change (contains w (String c (a +:+ String " " b)))
      with (starts_with w (String c (a +:+ String " " b))
            || contains w (a +:+ String " " b)).
    change (contains w (String c a))
      with (starts_with w (String c a) || contains w a).
    rewrite <- app_cons, starts_with_before_space by exact Hw.
    now rewrite IH, orb_assoc.
Qed.

Lemma contains_lower_join (w : string) (parts : list string) :
  lacks " " w = true -> is_empty w = false ->
  (forall part, part ∈ parts -> contains w (lower part) = false) ->
  contains w (lower (join " " parts)) = false.
Proof.
  intros Hw Hne. induction parts as [|p parts IH]; intros Hparts.
  - now destruct w.
  - destruct parts as [|q parts]; [apply Hparts; now left|].
    change (join " " (p :: q :: parts))
      with (p +:+ " " +:+ join " " (q :: parts)).
    rewrite lower_app.
    change (lower (" " +:+ join " " (q :: parts)))
      with (String " " (lower (join " " (q :: parts)))).
    rewrite contains_across_space by exact Hw.
    rewrite (Hparts p) by now left.
    apply IH. intros part Hpart. apply Hparts. now right.
Qed.

Lemma starts_with_refl (u : string) : starts_with u u = true.
Proof.
  induction u as [|c u IH]; [reflexivity|].
  cbn [starts_with]. now rewrite Ascii.eqb_refl.
Qed.

Lemma join_not_empty (sep p : string) (parts : list string) :
  is_empty p = false -> is_empty (join sep (p :: parts)) = false.
Proof.
  intros Hp. destruct parts as [|q parts]; [exact Hp|].
  change (join sep (p :: q :: parts))
    with (p +:+ sep +:+ join sep (q :: parts)).
  now apply is_empty_app.
Qed.

Section SoupMore.
Context {Tag : Type}.
Variable select : Tag -> string -> list Tag.
Variable select_one : Tag -> string -> option Tag.
Variable get_text : Tag -> string.
Variable children_strings : Tag -> list (option string).

Lemma collect_long (min_len : nat) (tags : list Tag) (parts : list string) :
  (5 <= min_len)%nat ->
  Forall (fun part => (5 < String.length part)%nat) parts ->
  Forall (fun part => (5 < String.length part)%nat)
    (collect Tag get_text min_len tags parts).
Proof.
  intros Hmin. unfold collect. revert parts.
  induction tags as [|tag tags IH]; intros parts Hall; cbn [fold_left];
    [exact Hall|].
  apply IH.
  destruct (negb (is_empty (get_text tag)) && negb (str_in (get_text tag) parts));
    cbn [andb]; [|exact Hall].
  destruct (Nat.ltb_spec min_len (String.length (get_text tag)));
    [|exact Hall].
  apply Forall_app. split; [exact Hall|]. apply Forall_singleton. lia.
Qed.

Lemma collect_container_long (parts : list string) (container : Tag) :
  Forall (fun part => (5 < String.length part)%nat) parts ->
  Forall (fun part => (5 < String.length part)%nat)
    (collect_container Tag select get_text parts container).
Proof.
  intros Hall. unfold collect_container.
  destruct (is_empty (get_text container)); [exact Hall|].
  repeat (apply collect_long; [lia|]). exact Hall.
Qed.

Lemma collect_direct_text_long (parts : list string)
    (child_string : option string) :
  Forall (fun part => (5 < String.length part)%nat) parts ->
  Forall (fun part => (5 < String.length part)%nat)
    (collect_direct_text parts child_string).
Proof.
  intros Hall. unfold collect_direct_text.
  destruct child_string as [str|]; [|exact Hall].
  destruct (negb (is_empty str) && negb (is_empty (strip str)));
    [|exact Hall].
  destruct (negb (is_empty (strip str))); cbn [andb]; [|exact Hall].
  destruct (Nat.ltb_spec 10 (String.length (strip str))); cbn [andb];
    [|exact Hall].
  destruct (str_in (strip str) parts); cbn [negb]; [exact Hall|].
  apply Forall_app. split; [exact Hall|]. apply Forall_singleton. lia.
Qed.

Lemma collected_parts_long (soup : Tag) :
  Forall (fun part => (5 < String.length part)%nat)
    (collected_parts Tag select select_one get_text children_strings soup).
Proof.
  unfold collected_parts.
  assert (H1 : forall cs parts,
            Forall (fun part => (5 < String.length part)%nat) parts ->
            Forall (fun part => (5 < String.length part)%nat)
              (fold_left (collect_container Tag select get_text) cs parts)).
  { induction cs as [|c cs IH]; intros parts Hall; cbn [fold_left];
      [exact Hall|]. apply IH. now apply collect_container_long. }
  assert (H2 : forall ch parts,
            Forall (fun part => (5 < String.length part)%nat) parts ->
            Forall (fun part => (5 < String.length part)%nat)
              (fold_left collect_direct_text ch parts)).
  { induction ch as [|c ch IH]; intros parts Hall; cbn [fold_left];
      [exact Hall|]. apply IH. now apply collect_direct_text_long. }
  destruct (select_one soup "main > div"); [apply H2|]; apply H1;
    constructor.
Qed.
End SoupMore.

Lemma single_words_checked :
  Forall (fun phrase =>
            lacks " " phrase = true ->
            is_empty phrase = false /\
            contains phrase (lower "No description found") = false)
    skip_phrases.
Proof. repeat (constructor; [vm_compute; intuition congruence|]). constructor. Qed.

(** X11. A description is never the empty string, and every
    string it is joined from has more than 5 characters.  No phrase of
    the denylist that is a single word (as "menu" or "events") occurs in it,
    in whatever letter case; a phrase of several words can: the parts
    "Please kindly contact" and "us for more details" are both kept, and
    their join contains "contact us". *)
Theorem extract_description_words :
  (forall (Tag : Type) (select : Tag -> string -> list Tag)
          (select_one : Tag -> string -> option Tag)
          (get_text : Tag -> string)
          (children_strings : Tag -> list (option string)) (soup : Tag),
     let description :=
       extract_description Tag select select_one get_text children_strings
         soup in
     is_empty description = false /\
     (forall part,
        part ∈ collected_parts Tag select select_one get_text
                 children_strings soup ->
        (5 < String.length part)%nat) /\
     (forall phrase,
        phrase ∈ skip_phrases -> lacks " " phrase = true ->
        contains phrase (lower description) = false)) /\
  "contact us"%string ∈ skip_phrases /\
  toy_extract_description toy_page_joined_phrase
    = "Please kindly contact us for more details"%string /\
  contains "contact us"
    (lower (toy_extract_description toy_page_joined_phrase)) = true.
Proof.
  split; [|split; [set_solver|split; reflexivity]].
  intros Tag select select_one get_text children_strings soup description.
  pose proof (collected_parts_long select select_one get_text
                children_strings soup) as Hlong.
  rewrite Forall_forall in Hlong.
  unfold description, extract_description.
  set (parts := collected_parts Tag select select_one get_text
                  children_strings soup) in *.
  cbv zeta.
  assert (Hkept : forall part, part ∈ List.filter keep_part parts ->
            part ∈ parts /\ keep_part part = true).
  { intros part. now rewrite list_elem_of_In, filter_In, <- list_elem_of_In. }
  split; [|split; [exact Hlong|]].
  - destruct (List.filter keep_part parts) as [|p kept] eqn:E; [reflexivity|].
    apply join_not_empty.
    destruct (Hkept p ltac:(now left)) as [Hp _].
    apply Hlong in Hp. destruct p; [cbn in Hp; lia|reflexivity].
  - intros phrase Hphrase Hword.
    destruct (proj1 (Forall_forall _ _) single_words_checked phrase Hphrase
                Hword) as [Hne Hsentinel].
    destruct (List.filter keep_part parts) as [|p kept] eqn:E;
      [exact Hsentinel|].
    apply contains_lower_join; [exact Hword|exact Hne|].
    intros part [_ Hpart]%Hkept.
    now apply keep_part_no_phrase.
Qed.

(** X12. The location of a record is never the empty string.  It is
    "No location found" when none of the queried tags is there; and when
    the location link has a text, the location starts with that text. *)
Theorem location_spec (Tag : Type) (select_one : Tag -> string -> option Tag)
    (get_text : Tag -> string) (soup : Tag) :
  is_empty (location Tag select_one get_text soup) = false /\
  ((forall css, select_one soup css = None) ->
   location Tag select_one get_text soup = "No location found"%string) /\
  (forall element,
     select_one soup
       "div.row > div:nth-child(2) > div > div > div:nth-child(1) > a"
     = Some element ->
     is_empty (get_text element) = false ->
     starts_with (get_text element) (location Tag select_one get_text soup)
     = true).
Proof.
  unfold location.
  set (name0 := match select_one soup _ with
                | Some element => get_text element
                | None => EmptyString
                end).
  set (name := if is_empty name0 then _ else name0).
  set (d1 := match select_one soup _ with
             | Some d => get_text d | None => EmptyString end).
  set (d2 := match select_one soup _ with
             | Some d => get_text d | None => EmptyString end).
  split; [|split].
  - cbn [List.filter].
    destruct (is_empty name) eqn:H0, (is_empty d1) eqn:H1,
      (is_empty d2) eqn:H2; cbn [negb];
      first [reflexivity | now apply join_not_empty].
  - intros Hnone. subst name name0 d1 d2. rewrite !Hnone. reflexivity.
  - intros element Hel Hne. subst name name0. rewrite Hel, Hne.
    cbn [List.filter]. rewrite Hne. cbn [negb].
    destruct (negb (is_empty d1)), (negb (is_empty d2));
      first [apply starts_with_refl | apply prefix_self_app].
Qed.

(** ** The prompts *)

Lemma day_choice_cases (choice : string) :
  str_in choice ["1"; "2"; "3"; "4"; "5"; "6"; "7"]%string = true ->
  exists (i : nat) (d : string),
    choice = choice_text (S i) /\ weekday_names !! i = Some d /\
    day_choices !! choice = Some d.
Proof.
  intros H%str_in_spec.
  repeat (apply elem_of_cons in H as [->|H]);
    [exists 0%nat|exists 1%nat|exists 2%nat|exists 3%nat|exists 4%nat
    |exists 5%nat|exists 6%nat|now apply elem_of_nil in H];
    eexists; repeat split; reflexivity.
Qed.

Lemma day_choice_text (i : nat) (d : string) :
  weekday_names !! i = Some d ->
  str_in (choice_text (S i)) ["1"; "2"; "3"; "4"; "5"; "6"; "7"]%string = true
  /\ day_choices !! choice_text (S i) = Some d.
Proof.
  intros H. do 7 (destruct i as [|i]; [injection H as <-; now split|]).
  discriminate.
Qed.

(** X13. The prompt for the first day of the week takes the first
    entry that is, once stripped, one of "1" to "7", and gives the weekday
    of that number, Monday being 1; entries before it that are something
    else, or reads that fail otherwise than by an interrupt, are passed
    over.  An interrupt before such an entry ends the run.  On reads that
    all fail (as on a closed input) the prompt asks again without end. *)
Theorem prompt_week_start_day_spec (inputs : list console) :
  (forall (day : string) (rest : list console),
     prompt_week_start_day inputs = Chosen day rest <->
     exists (skipped : list console) (s : string) (i : nat),
       inputs = skipped ++ Line s :: rest /\
       forallb (passed_over is_day_choice) skipped = true /\
       strip s = choice_text (S i) /\
       weekday_names !! i = Some day) /\
  (prompt_week_start_day inputs = Cancelled <->
   exists (skipped rest : list console),
     inputs = skipped ++ Interrupt :: rest /\
     forallb (passed_over is_day_choice) skipped = true) /\
  (prompt_week_start_day inputs = Asking <->
   forallb (passed_over is_day_choice) inputs = true) /\
  (forall n : nat,
     prompt_week_start_day (inputs ++ repeat InputError n)
     = match prompt_week_start_day inputs with
       | Chosen day rest => Chosen day (rest ++ repeat InputError n)
       | Cancelled => Cancelled
       | Asking => Asking
       end).
Proof.
  induction inputs as [|c inputs (IHc & IHi & IHa & IHn)].
  - split; [|split; [|split]].
    + intros day rest. split; [discriminate|].
      intros ([|? ?] & s & i & H & _); discriminate.
    + split; [discriminate|]. intros ([|? ?] & rest & H & _); discriminate.
    + now split.
    + intros n. cbn [app]. induction n as [|n IH]; [reflexivity|exact IH].
  - destruct c as [s| |]; cbn [prompt_week_start_day].
    + destruct (str_in (strip s) ["1"; "2"; "3"; "4"; "5"; "6"; "7"]%string)
        eqn:Hin.
      * destruct (day_choice_cases _ Hin) as (i & d & Hs & Hd & Hc).
        rewrite Hc.
        assert (Hnot : passed_over is_day_choice (Line s) = false).
        { unfold passed_over. cbn [is_day_choice]. now rewrite Hin. }
        split; [|split; [|split]].
        -- intros day rest. split.
           ++ intros [= <- <-]. now exists [], s, i.
           ++ intros ([|c skipped] & s' & i' & H & Hsk & Hs' & Hd').
              ** injection H as <- <-. rewrite Hs' in Hc.
                 destruct (day_choice_text i' day Hd') as [_ Hc'].
                 congruence.
              ** injection H as <- _. cbn [forallb] in Hsk.
                 rewrite Hnot in Hsk. discriminate.
        -- split; [discriminate|].
           intros ([|c skipped] & rest & H & Hsk); [discriminate|].
           injection H as <- _. cbn [forallb] in Hsk.
           rewrite Hnot in Hsk. discriminate.
        -- split; [discriminate|]. cbn [forallb]. rewrite Hnot. discriminate.
        -- intros n. cbn [app prompt_week_start_day]. now rewrite Hin, Hc.
      * assert (Hpass : passed_over is_day_choice (Line s) = true).
        { unfold passed_over. cbn [is_day_choice]. now rewrite Hin. }
        split; [|split; [|split]].
        -- intros day rest. rewrite IHc. split.
           ++ intros (skipped & s' & i & -> & Hsk & H).
              exists (Line s :: skipped), s', i. cbn [forallb app].
              now rewrite Hpass.
           ++ intros ([|c skipped] & s' & i & H & Hsk & Hs' & Hd').
              ** injection H as <- <-.
                 destruct (day_choice_text i day Hd') as [Hin' _].
                 rewrite <- Hs' in Hin'. congruence.
              ** injection H as <- ->. cbn [forallb] in Hsk.
                 apply andb_true_iff in Hsk as [_ Hsk].
                 now exists skipped, s', i.
        -- rewrite IHi. split.
           ++ intros (skipped & rest & -> & Hsk).
              exists (Line s :: skipped), rest. cbn [forallb app].
              now rewrite Hpass.
           ++ intros ([|c skipped] & rest & H & Hsk); [discriminate|].
              injection H as <- ->. cbn [forallb] in Hsk.
              apply andb_true_iff in Hsk as [_ Hsk]. now exists skipped, rest.
        -- rewrite IHa. cbn [forallb]. now rewrite Hpass.
        -- intros n. cbn [app prompt_week_start_day]. rewrite Hin. apply IHn.
    + split; [|split; [|split]].
      * intros day rest. split; [discriminate|].
        intros ([|c skipped] & s' & i & H & Hsk & _); [discriminate|].
        injection H as <- _. discriminate.
      * split; [|reflexivity]. intros _. now exists [], inputs.
      * split; [discriminate|]. cbn [forallb]. discriminate.
      * reflexivity.
    + split; [|split; [|split]].
      * intros day rest. rewrite IHc. split.
        -- intros (skipped & s' & i & -> & Hsk & H).
           now exists (InputError :: skipped), s', i.
        -- intros ([|c skipped] & s' & i & H & Hsk & H'); [discriminate|].
           injection H as <- ->. cbn [forallb] in Hsk.
           apply andb_true_iff in Hsk as [_ Hsk]. now exists skipped, s', i.
      * rewrite IHi. split.
        -- intros (skipped & rest & -> & Hsk).
           now exists (InputError :: skipped), rest.
        -- intros ([|c skipped] & rest & H & Hsk); [discriminate|].
           injection H as <- ->. cbn [forallb] in Hsk.
           apply andb_true_iff in Hsk as [_ Hsk]. now exists skipped, rest.
      * rewrite IHa. reflexivity.
      * intros n. cbn [app prompt_week_start_day]. apply IHn.
Qed.

Lemma prompt_week_start_day_chosen (inputs rest : list console)
    (day : string) :
  prompt_week_start_day inputs = Chosen day rest ->
  exists i : nat, weekday_names !! i = Some day.
Proof.
  induction inputs as [|[s| |] inputs IH]; cbn [prompt_week_start_day];
    [discriminate| |discriminate|exact IH].
  destruct (str_in (strip s) ["1"; "2"; "3"; "4"; "5"; "6"; "7"]%string)
    eqn:Hin; [|exact IH].
  destruct (day_choice_cases _ Hin) as (i & d & _ & Hd & ->).
  intros [= <- _]. now exists i.
Qed.

Lemma prompt_target_week_chosen (inputs rest : list console)
    (target : string) :
  prompt_target_week inputs = Chosen target rest ->
  exists td : datetime, strptime format_Y_m_d target = Ok td.
Proof.
  induction inputs as [|[s| |] inputs IH]; cbn [prompt_target_week];
    [discriminate| |discriminate|exact IH].
  destruct (strptime format_Y_m_d (strip s)) as [td|] eqn:Htd; [|exact IH].
  intros [= <- _]. now exists td.
Qed.

(** X14. What the prompts hand on fits the week filter.  A day that was
    asked for is one of the seven names that the filter knows, so the
    filter never falls back on its default; a target week that was asked
    for is a text that the filter reads as a date, so the filter never
    takes it for an invalid date and goes on with the week of that date. *)
Theorem asked_parameters_fit_week_filter
    (week_start_day target_week : option string) (inputs rest : list console)
    (day target : string) :
  ask_parameters week_start_day target_week inputs
    = Chosen (day, target) rest ->
  (week_start_day = None ->
   exists i : nat,
     weekday_names !! i = Some day /\
     day_mapping !! day = Some (Z.of_nat i)) /\
  (target_week = None ->
   exists td : datetime,
     strptime format_Y_m_d target = Ok td /\
     forall events : list Event,
       filter_events_by_week events target day
       = ('(ws, we) ← week_window td (default 0 (day_mapping !! day));
          Ok (sort_by sort_key pair_ltb
                (List.filter (in_week ws we) events)))) /\
  (forall d, week_start_day = Some d -> day = d) /\
  (forall t, target_week = Some t -> target = t).
Proof.
  unfold ask_parameters. intros H.
  destruct (match week_start_day with
            | Some d => Chosen d inputs
            | None => prompt_week_start_day inputs
            end) as [day' rest'| |] eqn:Hday; [|discriminate..].
  destruct (match target_week with
            | Some t => Chosen t rest'
            | None => prompt_target_week rest'
            end) as [target' rest''| |] eqn:Htarget; [|discriminate..].
  injection H as -> -> ->.
  split; [|split; [|split]].
  - intros ->. apply prompt_week_start_day_chosen in Hday as [i Hi].
    exists i. split; [exact Hi|now apply day_mapping_names].
  - intros ->. apply prompt_target_week_chosen in Htarget as [td Htd].
    exists td. split; [exact Htd|]. intros events.
    unfold filter_events_by_week. rewrite Htd.
    destruct (week_window td (default 0 (day_mapping !! day)))
      as [[ws we]|e]; cbn [mbind result_bind]; [|reflexivity].
    now rewrite filter_fold.
  - intros d ->. now injection Hday as <- _.
  - intros t ->. now injection Htarget as <- _.
Qed.

Lemma asked_parameters_fit_week_filter_witness :
  ask_parameters None None
    [Line "x"; Line " 3 "; InputError; Line "2025-13-01"; Line " 2025-08-04"]
  = Chosen ("Wednesday", "2025-08-04")%string [] /\
  day_mapping !! "Wednesday"%string = Some 2 /\
  exists td : datetime, strptime format_Y_m_d "2025-08-04" = Ok td.
Proof.
  split; [reflexivity|].
  pose proof (asked_parameters_fit_week_filter None None
                [Line "x"; Line " 3 "; InputError; Line "2025-13-01";
                 Line " 2025-08-04"] [] "Wednesday" "2025-08-04" eq_refl)
    as (Hday & Htarget & _).
  split.
  - destruct (Hday eq_refl) as (i & Hi & Hm).
    do 7 (destruct i as [|i]; [try discriminate Hi; exact Hm|]).
    discriminate Hi.
  - destruct (Htarget eq_refl) as (td & Htd & _). now exists td.
Defined.

(** X20. The prompt for the target week takes the first entry that, once
    stripped, the week filter's date format reads as a date, and hands on
    the stripped text; entries before it that are not read, and reads that
    fail otherwise than by an interrupt, are passed over.  An interrupt
    before such an entry ends the run.  On reads that all fail (as on a
    closed input) the prompt asks again without end. *)
Theorem prompt_target_week_spec (inputs : list console) :
  (forall (target : string) (rest : list console),
     prompt_target_week inputs = Chosen target rest <->
     exists (skipped : list console) (s : string),
       inputs = skipped ++ Line s :: rest /\
       forallb (passed_over is_target_week) skipped = true /\
       target = strip s /\
       exists td : datetime, strptime format_Y_m_d target = Ok td) /\
  (prompt_target_week inputs = Cancelled <->
   exists (skipped rest : list console),
     inputs = skipped ++ Interrupt :: rest /\
     forallb (passed_over is_target_week) skipped = true) /\
  (prompt_target_week inputs = Asking <->
   forallb (passed_over is_target_week) inputs = true) /\
  (forall n : nat,
     prompt_target_week (inputs ++ repeat InputError n)
     = match prompt_target_week inputs with
       | Chosen target rest => Chosen target (rest ++ repeat InputError n)
       | Cancelled => Cancelled
       | Asking => Asking
       end).
Proof.
  induction inputs as [|c inputs (IHc & IHi & IHa & IHn)].
  - split; [|split; [|split]].
    + intros target rest. split; [discriminate|].
      intros ([|? ?] & s & H & _); discriminate.
    + split; [discriminate|]. intros ([|? ?] & rest & H & _); discriminate.
    + now split.
    + intros n. cbn [app]. induction n as [|n IH]; [reflexivity|exact IH].
  - destruct c as [s| |]; cbn [prompt_target_week].
    + destruct (strptime format_Y_m_d (strip s)) as [td|e] eqn:Htd.
      * assert (Hnot : passed_over is_target_week (Line s) = false).
        { unfold passed_over. cbn [is_target_week]. now rewrite Htd. }
        split; [|split; [|split]].
        -- intros target rest. split.
           ++ intros [= <- <-]. exists [], s. eauto.
           ++ intros ([|c skipped] & s' & H & Hsk & -> & _).
              ** now injection H as <- <-.
              ** injection H as <- _. cbn [forallb] in Hsk.
                 rewrite Hnot in Hsk. discriminate.
        -- split; [discriminate|].
           intros ([|c skipped] & rest & H & Hsk); [discriminate|].
           injection H as <- _. cbn [forallb] in Hsk.
           rewrite Hnot in Hsk. discriminate.
        -- split; [discriminate|]. cbn [forallb]. rewrite Hnot. discriminate.
        -- intros n. cbn [app prompt_target_week]. now rewrite Htd.
      * assert (Hpass : passed_over is_target_week (Line s) = true).
        { unfold passed_over. cbn [is_target_week]. now rewrite Htd. }
        split; [|split; [|split]].
        -- intros target rest. rewrite IHc. split.
           ++ intros (skipped & s' & -> & Hsk & H).
              exists (Line s :: skipped), s'. cbn [forallb app].
              now rewrite Hpass.
           ++ intros ([|c skipped] & s' & H & Hsk & -> & td & Htd').
              ** injection H as <- <-. congruence.
              ** injection H as <- ->. cbn [forallb] in Hsk.
                 apply andb_true_iff in Hsk as [_ Hsk].
                 exists skipped, s'. eauto.
        -- rewrite IHi. split.
           ++ intros (skipped & rest & -> & Hsk).
              exists (Line s :: skipped), rest. cbn [forallb app].
              now rewrite Hpass.
           ++ intros ([|c skipped] & rest & H & Hsk); [discriminate|].
              injection H as <- ->. cbn [forallb] in Hsk.
              apply andb_true_iff in Hsk as [_ Hsk]. now exists skipped, rest.
        -- rewrite IHa. cbn [forallb]. now rewrite Hpass.
        -- intros n. cbn [app prompt_target_week]. rewrite Htd. apply IHn.
    + split; [|split; [|split]].
      * intros target rest. split; [discriminate|].
        intros ([|c skipped] & s' & H & Hsk & _); [discriminate|].
        injection H as <- _. discriminate.
      * split; [|reflexivity]. intros _. now exists [], inputs.
      * split; [discriminate|]. cbn [forallb]. discriminate.
      * reflexivity.
    + split; [|split; [|split]].
      * intros target rest. rewrite IHc. split.
        -- intros (skipped & s' & -> & Hsk & H).
           now exists (InputError :: skipped), s'.
        -- intros ([|c skipped] & s' & H & Hsk & H'); [discriminate|].
           injection H as <- ->. cbn [forallb] in Hsk.
           apply andb_true_iff in Hsk as [_ Hsk]. now exists skipped, s'.
      * rewrite IHi. split.
        -- intros (skipped & rest & -> & Hsk).
           now exists (InputError :: skipped), rest.
        -- intros ([|c skipped] & rest & H & Hsk); [discriminate|].
           injection H as <- ->. cbn [forallb] in Hsk.
           apply andb_true_iff in Hsk as [_ Hsk]. now exists skipped, rest.
      * rewrite IHa. reflexivity.
      * intros n. cbn [app prompt_target_week]. apply IHn.
Qed.

(** ** The files of a run *)

(** X15. The files of a run.  A run that comes to an end has written
    nothing, or [events.json] alone, or [events.json] and then the file of
    the week, whose name is made of the target week and the day in lower
    case.  [events.json] holds one record for each address of the listing,
    in the order of first occurrence.  The file of the week holds what the
    filter returns on these records, which are records of [events.json],
    none of them the record of a failed page.  [events.json] is written
    before the week is filtered: when the filter raises, it is the one file
    of the run. *)
Theorem scrape_and_save_events_files (Tag : Type)
    (select : Tag -> string -> list Tag) (href : Tag -> string)
    (urljoin : string -> string -> string) (fetch_listing : result Tag)
    (scrape_event : string -> result Event)
    (open_to_write : string -> result unit)
    (week_start_day target_week : option string) (inputs : list console) :
  (forall files : list (string * list Event),
     scrape_and_save_events Tag select href urljoin fetch_listing scrape_event
       open_to_write week_start_day target_week inputs = Some files ->
     files = [] \/
     exists (soup : Tag) (events_data : list Event),
       fetch_listing = Ok soup /\
       events_data
       = map (scraped_record scrape_event)
           (first_occurrences (listed_urls Tag select href urljoin soup)) /\
       (files = [("events.json"%string, events_data)] \/
        exists (day target : string) (filtered_events : list Event),
          files = [("events.json"%string, events_data);
                   ("events_week_" +:+ target +:+ "_" +:+ lower day
                    +:+ ".json", filtered_events)] /\
          filter_events_by_week events_data target day = Ok filtered_events /\
          filtered_events ⊆+ events_data /\
          (forall event_url, failed_event event_url ∉ filtered_events) /\
          (week_start_day = None -> day ∈ weekday_names) /\
          (forall d, week_start_day = Some d -> day = d) /\
          (forall t, target_week = Some t -> target = t))) /\
  (forall (day target : string) (rest : list console) (soup : Tag) (e : exn),
     ask_parameters week_start_day target_week inputs
       = Chosen (day, target) rest ->
     fetch_listing = Ok soup ->
     open_to_write "events.json" = Ok tt ->
     filter_events_by_week
       (map (scraped_record scrape_event)
          (first_occurrences (listed_urls Tag select href urljoin soup)))
       target day = Raise e ->
     scrape_and_save_events Tag select href urljoin fetch_listing scrape_event
       open_to_write week_start_day target_week inputs
     = Some [("events.json"%string,
              map (scraped_record scrape_event)
                (first_occurrences
                   (listed_urls Tag select href urljoin soup)))]).
Proof.
  assert (Hdata : forall soup,
            scrape_events scrape_event
              (extract_event_links Tag select href urljoin soup)
            = map (scraped_record scrape_event)
                (first_occurrences
                   (listed_urls Tag select href urljoin soup))).
  { intros soup. rewrite scrape_events_map. f_equal.
    unfold extract_event_links, link_step, listed_urls.
    rewrite (dedup_fold
               (fun link => urljoin "https://www.santamonica.gov" (href link))).
    cbn [app]. now apply filter_all_true. }
  split.
  2: { intros day target rest soup e Hask Hfetch Hopen Hraise.
       unfold scrape_and_save_events, save_events.
       now rewrite Hask, Hfetch, Hopen, Hdata, Hraise. }
  intros files. unfold scrape_and_save_events.
  destruct (ask_parameters week_start_day target_week inputs)
    as [[day target] rest| |] eqn:Hask; [|intros [= <-]; now left|discriminate].
  intros [= <-]. unfold save_events.
  destruct fetch_listing as [soup|]; [|now left].
  destruct (open_to_write "events.json"); [|now left].
  right. exists soup. eexists. split; [reflexivity|].
  rewrite Hdata. split; [reflexivity|].
  destruct (filter_events_by_week _ target day) as [filtered|] eqn:Hf;
    [|now left].
  destruct (open_to_write (week_file_name target day)); [|now left].
  right. exists day, target, filtered.
  split; [reflexivity|]. split; [exact Hf|].
  split; [|split; [|split; [|split]]].
  - apply filter_events_by_week_cases in Hf
      as [[-> _]|(td & ws & we & _ & _ & ->)];
      [apply submseteq_nil_l|].
    rewrite sort_by_perm. apply sublist_submseteq, list_filter_sublist.
  - intros url [_ [d Hd]]%(week_filter_elem_of _ _ _ _ _ Hf).
    rewrite failed_event_date in Hd. vm_compute in Hd. discriminate.
  - intros ->. unfold ask_parameters in Hask.
    destruct (prompt_week_start_day inputs) as [day' rest'| |] eqn:Hday;
      [|discriminate..].
    apply prompt_week_start_day_chosen in Hday as [i Hi].
    destruct (match target_week with
              | Some t => Chosen t rest'
              | None => prompt_target_week rest'
              end); [|discriminate..].
    injection Hask as -> _ _. now apply list_elem_of_lookup_2 in Hi.
  - intros d ->. unfold ask_parameters in Hask.
    destruct (match target_week with
              | Some t => Chosen t inputs
              | None => prompt_target_week inputs
              end); [|discriminate..].
    now injection Hask as -> _ _.
  - intros t ->. unfold ask_parameters in Hask.
    destruct (match week_start_day with
              | Some d => Chosen d inputs
              | None => prompt_week_start_day inputs
              end); [|discriminate..].
    now injection Hask as _ -> _.
Qed.

Lemma scrape_and_save_events_files_witness :
  toy_run [Line "1"; Line "2025-08-04"]
  = Some [("events.json"%string,
           [failed_event "/b";
            dated_event "Monday, Aug 4, 2025" "2:00 PM"]);
          ("events_week_2025-08-04_monday.json"%string,
           [dated_event "Monday, Aug 4, 2025" "2:00 PM"])] /\
  [dated_event "Monday, Aug 4, 2025" "2:00 PM"]
  ⊆+ [failed_event "/b"; dated_event "Monday, Aug 4, 2025" "2:00 PM"] /\
  toy_run [Line "2"; Line "0001-01-01"]
  = Some [("events.json"%string,
           [failed_event "/b";
            dated_event "Monday, Aug 4, 2025" "2:00 PM"])].
Proof.
  assert (Hrun : toy_run [Line "1"; Line "2025-08-04"]
                 = Some [("events.json"%string,
                          [failed_event "/b";
                           dated_event "Monday, Aug 4, 2025" "2:00 PM"]);
                         ("events_week_2025-08-04_monday.json"%string,
                          [dated_event "Monday, Aug 4, 2025" "2:00 PM"])])
    by (vm_compute; reflexivity).
  split; [exact Hrun|]. split.
  - destruct (proj1 (scrape_and_save_events_files string
                       (fun _ _ => ["/b"; "/a"; "/b"]%string)
                       (fun link => link) (fun _ url => url) (Ok EmptyString)
                       toy_scrape_event (fun _ => Ok tt) None None
                       [Line "1"; Line "2025-08-04"]) _ Hrun)
      as [H|(soup & data & _ & _
             & [H|(day & target & week & H & _ & Hsub & _)])].
    + discriminate H.
    + discriminate H.
    + injection H as Hdata _ Hweek. subst data week. exact Hsub.
  - unfold toy_run.
    rewrite (proj2 (scrape_and_save_events_files string
                        (fun _ _ => ["/b"; "/a"; "/b"]%string)
                        (fun link => link) (fun _ url => url)
                        (Ok EmptyString) toy_scrape_event (fun _ => Ok tt)
                        None None [Line "2"; Line "0001-01-01"])
                 "Tuesday" "0001-01-01" [] EmptyString OverflowError);
      vm_compute; reflexivity.
Defined.

(** ** The texts that the parsers take *)

Lemma app_empty_r (a : string) : a +:+ EmptyString = a.
Proof. induction a as [|c a IH]; [reflexivity|]. now rewrite app_cons, IH. Qed.

Lemma star_sound {A} (p : ascii -> bool) (m s : string)
    (k : string -> string -> option A) (a : A) :
  star p m s k = Some a ->
  exists m' t, s = m' +:+ t /\ all_chars p m' = true /\
    k (m +:+ m') t = Some a.
Proof.
  revert m. induction s as [|c s IH]; intros m; cbn [star].
  - intros H. exists EmptyString, EmptyString.
    split; [reflexivity|]. split; [reflexivity|]. now rewrite app_empty_r.
  - assert (Hstop : k m (String c s) = Some a ->
              exists m' t, String c s = m' +:+ t /\ all_chars p m' = true /\
                k (m +:+ m') t = Some a).
    { intros H. exists EmptyString, (String c s).
      split; [reflexivity|]. split; [reflexivity|]. now rewrite app_empty_r. }
    destruct (p c) eqn:Hp; [|exact Hstop].
    destruct (star p (m +:+ String c EmptyString) s k) eqn:Hs; [|exact Hstop].
    intros [= <-]. apply IH in Hs as (m' & t & -> & Hall & Hk).
    exists (String c m'), t. rewrite app_cons. split; [reflexivity|].
    cbn [all_chars]. rewrite Hp, Hall. split; [reflexivity|].
    now rewrite app_assoc_str in Hk.
Qed.

(** What a match has consumed is a text of the expression. *)
Lemma rmatch_sound {A} (r : re) (s : string) (g : groups)
    (k : string -> string -> groups -> option A) (a : A) :
  rmatch r s g k = Some a ->
  exists m t g', s = m +:+ t /\ lang r m /\ k m t g' = Some a.
Proof.
  revert s g k. induction r as [p|p|p|r1 IH1 r2 IH2|r1 IH1 r2 IH2|name r IH];
    intros s g k; cbn [rmatch].
  - destruct s as [|c s]; [discriminate|].
    destruct (ci_eqb p c) eqn:Hc; [|discriminate]. intros H.
    exists (String c EmptyString), s, g. split; [reflexivity|].
    split; [now constructor|exact H].
  - destruct s as [|c s]; [discriminate|].
    destruct (p c) eqn:Hc; [|discriminate]. intros H.
    exists (String c EmptyString), s, g. split; [reflexivity|].
    split; [now constructor|exact H].
  - destruct s as [|c s]; [discriminate|].
    destruct (p c) eqn:Hc; [|discriminate].
    intros (m' & t & -> & Hall & H)%star_sound.
    exists (String c m'), t, g. split; [now rewrite app_cons|].
    split; [now constructor|exact H].
  - intros (m1 & t & g1 & -> & H1 & H)%IH1.
    apply IH2 in H as (m2 & u & g2 & -> & H2 & H).
    exists (m1 +:+ m2), u, g2. split; [now rewrite app_assoc_str|].
    split; [now constructor|exact H].
  - destruct (rmatch r1 s g k) eqn:H1.
    + intros [= <-]. apply IH1 in H1 as (m & t & g' & -> & H1 & H).
      exists m, t, g'. split; [reflexivity|]. split; [now constructor|exact H].
    + intros (m & t & g' & -> & H2 & H)%IH2.
      exists m, t, g'. split; [reflexivity|].
      split; [now apply lang_Alt_r|exact H].
  - intros (m & t & g' & -> & H1 & H)%IH.
    exists m, t, ((name, m) :: g'). split; [reflexivity|].
    split; [now constructor|exact H].
Qed.

(** [strptime] takes only the texts of its format. *)
Lemma strptime_lang (r : re) (s : string) (t : datetime) :
  strptime r s = Ok t -> lang r s.
Proof.
  unfold strptime, re_match.
  destruct (rmatch r s [] (fun _ t g => Some (t, g))) as [[rest found]|] eqn:H;
    [|discriminate].
  apply rmatch_sound in H as (m & u & g' & -> & Hm & [= <- _]).
  destruct u; [|discriminate]. now rewrite app_empty_r.
Qed.

Lemma lang_Seq_inv (r1 r2 : re) (s : string) :
  lang (Seq r1 r2) s -> exists a b, s = a +:+ b /\ lang r1 a /\ lang r2 b.
Proof. inversion 1; subst. eauto. Qed.

Lemma lang_Alt_inv (r1 r2 : re) (s : string) :
  lang (Alt r1 r2) s -> lang r1 s \/ lang r2 s.
Proof. inversion 1; subst; eauto. Qed.

Lemma lang_Group_inv (name : string) (r : re) (s : string) :
  lang (Group name r) s -> lang r s.
Proof. now inversion 1. Qed.

Lemma lang_Lit_inv (p : ascii) (s : string) :
  lang (Lit p) s -> exists c, s = String c EmptyString /\ ci_eqb p c = true.
Proof. inversion 1; subst. eauto. Qed.

Lemma lang_Cls_inv (p : ascii -> bool) (s : string) :
  lang (Cls p) s -> exists c, s = String c EmptyString /\ p c = true.
Proof. inversion 1; subst. eauto. Qed.

Lemma lang_Plus_inv (p : ascii -> bool) (s : string) :
  lang (Plus p) s ->
  exists c s', s = String c s' /\ p c = true /\ all_chars p s' = true.
Proof. inversion 1; subst. eauto. Qed.

Lemma ci_eqb_lower (p c : ascii) :
  ci_eqb p c = true -> lower_char c = lower_char p.
Proof. unfold ci_eqb. now intros ->%Ascii.eqb_eq. Qed.

(** A character that is no letter matches itself only. *)
Lemma lower_char_digit (c : ascii) :
  is_digit (lower_char c) = true -> is_digit c = true.
Proof. destruct c as [[] [] [] [] [] [] [] []]; vm_compute; congruence. Qed.

Lemma lower_char_colon (c : ascii) : lower_char c = ":"%char -> c = ":"%char.
Proof. destruct c as [[] [] [] [] [] [] [] []]; vm_compute; congruence. Qed.

Lemma lower_char_dash (c : ascii) : lower_char c = "-"%char -> c = "-"%char.
Proof. destruct c as [[] [] [] [] [] [] [] []]; vm_compute; congruence. Qed.

Lemma lower_char_space (c : ascii) : lower_char c = " "%char -> c = " "%char.
Proof. destruct c as [[] [] [] [] [] [] [] []]; vm_compute; congruence. Qed.

Lemma lang_Lit_digit (p : ascii) (s : string) :
  lang (Lit p) s -> is_digit p = true ->
  exists c, s = String c EmptyString /\ is_digit c = true.
Proof.
  intros (c & -> & Hc%ci_eqb_lower)%lang_Lit_inv Hp. exists c.
  split; [reflexivity|]. apply lower_char_digit. rewrite Hc.
  revert Hp. destruct p as [[] [] [] [] [] [] [] []]; vm_compute; congruence.
Qed.

Lemma lang_rng_digit (lo hi : ascii) (s : string) :
  lang (rng lo hi) s -> is_digit lo = true -> is_digit hi = true ->
  exists c, s = String c EmptyString /\ is_digit c = true.
Proof.
  intros (c & -> & Hc)%lang_Cls_inv Hlo Hhi. exists c.
  split; [reflexivity|]. unfold in_range, is_digit in *. cbv zeta in *.
  rewrite !andb_true_iff, !N.leb_le in *. lia.
Qed.

Lemma one_digit_short (s : string) :
  (exists c, s = String c EmptyString /\ is_digit c = true) ->
  short_digits s.
Proof.
  intros (c & -> & Hc). split; [cbn [all_chars]; now rewrite Hc|cbn; lia].
Qed.

Lemma two_digits_short (a b : string) :
  (exists c, a = String c EmptyString /\ is_digit c = true) ->
  (exists c, b = String c EmptyString /\ is_digit c = true) ->
  short_digits (a +:+ b).
Proof.
  intros (c1 & -> & H1) (c2 & -> & H2). rewrite app_cons, app_empty_l.
  split; [cbn [all_chars]; now rewrite H1, H2|cbn; lia].
Qed.

Ltac lang_digit :=
  first [ eapply lang_Lit_digit; [eassumption|reflexivity]
        | eapply lang_rng_digit; [eassumption|reflexivity|reflexivity] ].

Lemma lang_re_I (s : string) : lang re_I s -> short_digits s.
Proof.
  unfold re_I. cbn [alts]. intros H%lang_Group_inv.
  apply lang_Alt_inv in H as [H|H];
    [|apply lang_Alt_inv in H as [H|H]];
    try (apply lang_Seq_inv in H as (a & b & -> & Ha & Hb);
         apply two_digits_short; lang_digit).
  apply one_digit_short. lang_digit.
Qed.

Lemma lang_re_m (s : string) : lang re_m s -> short_digits s.
Proof.
  unfold re_m. cbn [alts]. intros H%lang_Group_inv.
  apply lang_Alt_inv in H as [H|H];
    [|apply lang_Alt_inv in H as [H|H]];
    try (apply lang_Seq_inv in H as (a & b & -> & Ha & Hb);
         apply two_digits_short; lang_digit).
  apply one_digit_short. lang_digit.
Qed.

Lemma lang_re_M (s : string) : lang re_M s -> short_digits s.
Proof.
  unfold re_M, d09. cbn [alts]. intros H%lang_Group_inv.
  apply lang_Alt_inv in H as [H|H].
  - apply lang_Seq_inv in H as (a & b & -> & Ha & Hb).
    apply two_digits_short; [lang_digit|].
    apply lang_Cls_inv in Hb as (c & -> & Hc). eauto.
  - apply one_digit_short. apply lang_Cls_inv in H as (c & -> & Hc). eauto.
Qed.

Lemma lang_re_p (s : string) :
  lang re_p s -> lower s = "am"%string \/ lower s = "pm"%string.
Proof.
  unfold re_p, am_pm. cbn [alts map lit]. intros H%lang_Group_inv.
  apply lang_Alt_inv in H as [H|H];
    apply lang_Seq_inv in H as (a & b & -> & Ha & Hb);
    apply lang_Lit_inv in Ha as (c1 & -> & H1%ci_eqb_lower);
    apply lang_Lit_inv in Hb as (c2 & -> & H2%ci_eqb_lower);
    rewrite app_cons, app_empty_l; cbn [lower]; rewrite H1, H2;
    [now left|now right].
Qed.

Lemma lang_ws (s : string) :
  lang ws s -> all_chars is_space s = true /\ (1 <= String.length s)%nat.
Proof.
  intros (c & s' & -> & Hc & Hs)%lang_Plus_inv.
  split; [cbn [all_chars]; now rewrite Hc, Hs|cbn; lia].
Qed.

Lemma lang_colon (s : string) : lang (Lit ":") s -> s = ":"%string.
Proof.
  intros (c & -> & Hc%ci_eqb_lower)%lang_Lit_inv.
  now rewrite (lower_char_colon c Hc).
Qed.

(** The texts of "%I:%M %p" are clock times. *)
Lemma lang_clock_shape (s : string) : lang format_I_M_p s -> clock_shape s.
Proof.
  unfold format_I_M_p. intros H.
  apply lang_Seq_inv in H as (hh & s1 & -> & Hhh%lang_re_I & H).
  apply lang_Seq_inv in H as (colon & s2 & -> & ->%lang_colon & H).
  apply lang_Seq_inv in H as (mm & s3 & -> & Hmm%lang_re_M & H).
  apply lang_Seq_inv in H as (sp & ap & -> & [Hsp Hlen]%lang_ws & Hap%lang_re_p).
  now exists hh, mm, sp, ap.
Qed.

Lemma parse_time_nonzero (time_str : string) :
  parse_time_to_minutes time_str <> 0 ->
  exists t, strptime format_I_M_p (start_of_range time_str) = Ok t.
Proof.
  unfold parse_time_to_minutes, start_of_range.
  destruct (is_empty time_str || String.eqb time_str "No time found");
    [congruence|].
  destruct (split " - " time_str) as [|part0 parts]; [congruence|].
  cbn [hd].
  destruct (strptime format_I_M_p (strip part0)) as [t|]; [eauto|congruence].
Qed.

(** X16. The time parser gives minutes other than 0 only to a time
    string whose start (the text before the first " - ", stripped) is a
    clock time with AM or PM: an hour and a minute of one or two digits each
    around a colon, white space, and "AM" or "PM" in any letter case.  A time
    of the 24-hour clock as "14:30", a time without minutes as "2 PM" and a
    time without the space as "2:00PM" all count as 0 minutes. *)
Theorem parse_time_to_minutes_shape :
  (forall time_str : string,
     parse_time_to_minutes time_str <> 0 ->
     clock_shape (start_of_range time_str)) /\
  parse_time_to_minutes "14:30" = 0 /\
  parse_time_to_minutes "2 PM" = 0 /\
  parse_time_to_minutes "2:00PM" = 0.
Proof.
  split; [|repeat split; reflexivity].
  intros time_str [t Ht]%parse_time_nonzero.
  now apply lang_clock_shape, (strptime_lang _ _ t).
Qed.

Lemma parse_time_to_minutes_shape_witness :
  parse_time_to_minutes "2:05 pm - 3:30 PM" = 845 /\
  clock_shape "2:05 pm".
Proof.
  split; [reflexivity|].
  apply (proj1 parse_time_to_minutes_shape "2:05 pm - 3:30 PM").
  vm_compute. discriminate.
Defined.

Lemma lang_d09 (s : string) :
  lang d09 s -> exists c, s = String c EmptyString /\ is_digit c = true.
Proof. now intros (c & -> & Hc)%lang_Cls_inv; eauto. Qed.

Lemma lang_re_Y (s : string) :
  lang re_Y s -> all_chars is_digit s = true /\ String.length s = 4%nat.
Proof.
  unfold re_Y. intros H%lang_Group_inv.
  apply lang_Seq_inv in H as (a & s1 & -> & (c1 & -> & H1)%lang_d09 & H).
  apply lang_Seq_inv in H as (b & s2 & -> & (c2 & -> & H2)%lang_d09 & H).
  apply lang_Seq_inv in H
    as (c & d & -> & (c3 & -> & H3)%lang_d09 & (c4 & -> & H4)%lang_d09).
  rewrite !app_cons, !app_empty_l. cbn [all_chars String.length].
  now rewrite H1, H2, H3, H4.
Qed.

Lemma lang_re_d (s : string) :
  lang re_d s ->
  short_digits s \/
  exists c, s = String " " (String c EmptyString) /\ is_digit c = true.
Proof.
  unfold re_d. cbn [alts]. intros H%lang_Group_inv.
  apply lang_Alt_inv in H as [H|H];
    [|apply lang_Alt_inv in H as [H|H];
      [|apply lang_Alt_inv in H as [H|H];
        [|apply lang_Alt_inv in H as [H|H]]]].
  - left. apply lang_Seq_inv in H as (a & b & -> & Ha & Hb).
    apply two_digits_short; lang_digit.
  - left. apply lang_Seq_inv in H as (a & b & -> & Ha & Hb).
    apply two_digits_short; [lang_digit|now apply lang_d09].
  - left. apply lang_Seq_inv in H as (a & b & -> & Ha & Hb).
    apply two_digits_short; lang_digit.
  - left. apply one_digit_short. lang_digit.
  - right. apply lang_Seq_inv in H as (a & b & -> & Ha & Hb).
    apply lang_Lit_inv in Ha as (c0 & -> & H0%ci_eqb_lower).
    apply lower_char_space in H0 as ->.
    destruct (lang_rng_digit _ _ _ Hb eq_refl eq_refl) as (c & -> & Hc).
    exists c. now rewrite app_cons, app_empty_l.
Qed.

Lemma lang_dash (s : string) : lang (Lit "-") s -> s = "-"%string.
Proof.
  intros (c & -> & Hc%ci_eqb_lower)%lang_Lit_inv.
  now rewrite (lower_char_dash c Hc).
Qed.

(** The texts of "%Y-%m-%d" are ISO dates. *)
Lemma lang_iso_shape (s : string) : lang format_Y_m_d s -> iso_shape s.
Proof.
  unfold format_Y_m_d. intros H.
  apply lang_Seq_inv in H as (yyyy & s1 & -> & [Hy Hlen]%lang_re_Y & H).
  apply lang_Seq_inv in H as (dash & s2 & -> & ->%lang_dash & H).
  apply lang_Seq_inv in H as (mm & s3 & -> & Hmm%lang_re_m & H).
  apply lang_Seq_inv in H as (dash & dd & -> & ->%lang_dash & Hdd%lang_re_d).
  now exists yyyy, mm, dd.
Qed.

(** X17. The week filter goes by the form of its target.  For a
    target that is not written as a date of the ISO form (a year of four
    digits, a month and a day of one or two digits each, with "-" between;
    a day of one digit may have a space before it, as in "2025-08- 4"), be
    it only for a space before or after the date, the result is the empty
    list.  A result that is not empty comes from a target of that form
    that names a day of the calendar. *)
Theorem filter_events_by_week_target_shape (events : list Event)
    (target wsd : string) :
  (~ iso_shape target -> filter_events_by_week events target wsd = Ok []) /\
  (forall out : list Event,
     filter_events_by_week events target wsd = Ok out -> out <> [] ->
     iso_shape target /\
     exists y m d : Z,
       1 <= y <= 9999 /\ 1 <= m <= 12 /\ 1 <= d <= days_in_month y m /\
       strptime format_Y_m_d target = Ok (midnight y m d)).
Proof.
  split.
  - intros Hshape. unfold filter_events_by_week.
    destruct (strptime format_Y_m_d target) as [td|] eqn:Htd; [|reflexivity].
    exfalso. now apply Hshape, lang_iso_shape, (strptime_lang _ _ td).
  - intros out
      [[-> _]|(td & ws & we & Htd & _ & _)]%filter_events_by_week_cases
      Hne; [congruence|].
    split; [now apply lang_iso_shape, (strptime_lang _ _ td)|].
    destruct (strptime_date_inv format_Y_m_d _ _ eq_refl eq_refl Htd)
      as (y & m & d & Hy & Hm & Hd & ->).
    now exists y, m, d.
Qed.

Lemma filter_events_by_week_target_shape_witness :
  iso_shape "2025-08- 4" /\
  filter_events_by_week sample_events " 2025-08-04" "Monday" = Ok [].
Proof.
  split.
  - apply (proj2 (filter_events_by_week_target_shape sample_events
                      "2025-08- 4" "Monday")
             (sort_by sort_key pair_ltb
                (List.filter (in_week (midnight 2025 8 4) (midnight 2025 8 10))
                   sample_events))).
    + reflexivity.
    + vm_compute. discriminate.
  - apply (filter_events_by_week_target_shape sample_events " 2025-08-04"
             "Monday").
    intros (yyyy & mm & dd & Heq & Hy & Hlen & _).
    destruct yyyy as [|c yyyy]; [discriminate Hlen|].
    rewrite app_cons in Heq. injection Heq as <- _. discriminate Hy.
Defined.

(** ** Weeks and their days *)

(** A midnight inside the week of another midnight has the same week. *)
Lemma week_window_member (o1 o2 i : Z) (ws we : datetime) :
  week_window (mk_datetime o1 0 0 0 0) i = Ok (ws, we) ->
  ordinal ws <= o2 <= ordinal we ->
  week_window (mk_datetime o2 0 0 0 0) i = Ok (ws, we).
Proof.
  intros Hw Hin.
  pose proof (week_window_inv _ _ _ _ Hw) as [Hlo Hhi].
  rewrite week_window_ok in Hw by assumption.
  injection Hw as <- <-.
  unfold weekday in *. cbn [ordinal hour minute second microsecond] in *.
  assert (Hk : (((o2 + 6) mod 7 - i) mod 7)
               = o2 - (o1 - ((o1 + 6) mod 7 - i) mod 7)) by div_lia.
  rewrite week_window_ok; unfold weekday;
    cbn [ordinal hour minute second microsecond]; rewrite Hk.
  - do 3 f_equal; lia.
  - lia.
  - lia.
Qed.

(** The week of a midnight holds it. *)
Lemma week_window_holds (o i : Z) (ws we : datetime) :
  week_window (mk_datetime o 0 0 0 0) i = Ok (ws, we) ->
  ordinal ws <= o <= ordinal we /\
  ws = mk_datetime (ordinal ws) 0 0 0 0 /\
  we = mk_datetime (ordinal we) 0 0 0 0.
Proof.
  intros Hw.
  pose proof (week_window_inv _ _ _ _ Hw) as [Hlo Hhi].
  rewrite week_window_ok in Hw by assumption.
  injection Hw as <- <-.
  cbn [ordinal hour minute second microsecond] in *.
  split; [|now split].
  assert (0 <= (weekday (mk_datetime o 0 0 0 0) - i) mod 7 <= 6) by div_lia.
  lia.
Qed.

Lemma in_week_midnight (ws we : datetime) (e : Event) :
  ws = mk_datetime (ordinal ws) 0 0 0 0 ->
  we = mk_datetime (ordinal we) 0 0 0 0 ->
  in_week ws we e = true ->
  exists y m d,
    1 <= m <= 12 /\ 1 <= d <= days_in_month y m /\ 1 <= y <= 9999 /\
    read_date (event_date e) = Some (midnight y m d) /\
    ordinal ws <= ymd2ord y m d <= ordinal we.
Proof.
  intros Hws Hwe. unfold in_week.
  destruct (read_date (event_date e)) as [t|] eqn:Ht; [|discriminate].
  destruct (read_date_midnight _ _ Ht) as (y & m & d & Hy & Hm & Hd & ->).
  intros [H1%dt_leb_le H2%dt_leb_le]%andb_true_iff.
  exists y, m, d.
  rewrite Hws in H1. rewrite Hwe in H2. unfold midnight in *.
  rewrite dt_le_midnight in H1, H2 by reflexivity.
  cbn [ordinal] in *.
  split; [exact Hm|]. split; [exact Hd|]. split; [exact Hy|].
  split; [reflexivity|lia].
Qed.

(** X18. For one first day of the week, the weeks share out the
    events: an event that the week filter returns for two targets lies in
    one and the same week.  The two targets then lie in the same week, that
    is, they read as two days with one and the same [week_start] and
    [week_end], both between these two; and the two results are the same
    list. *)
Theorem filter_events_by_week_weeks_disjoint (events : list Event)
    (target1 target2 wsd : string) (out1 out2 : list Event) (e : Event) :
  filter_events_by_week events target1 wsd = Ok out1 ->
  filter_events_by_week events target2 wsd = Ok out2 ->
  e ∈ out1 -> e ∈ out2 ->
  (exists td1 td2 ws we : datetime,
     strptime format_Y_m_d target1 = Ok td1 /\
     strptime format_Y_m_d target2 = Ok td2 /\
     week_window td1 (default 0 (day_mapping !! wsd)) = Ok (ws, we) /\
     week_window td2 (default 0 (day_mapping !! wsd)) = Ok (ws, we) /\
     dt_le ws td1 /\ dt_le td1 we /\ dt_le ws td2 /\ dt_le td2 we) /\
  out1 = out2.
Proof.
  intros [[-> _]|(td1 & ws1 & we1 & Htd1 & Hw1 & ->)]%filter_events_by_week_cases
         [[-> _]|(td2 & ws2 & we2 & Htd2 & Hw2 & ->)]%filter_events_by_week_cases;
    try (now intros ?%elem_of_nil); try (now intros _ ?%elem_of_nil).
  rewrite !sort_by_elem_of, !list_elem_of_In, !filter_In.
  intros [_ He1] [_ He2].
  set (i := default 0 (day_mapping !! wsd)) in *.
  destruct (strptime_date_inv format_Y_m_d _ _ eq_refl eq_refl Htd1)
    as (y1 & m1 & d1 & _ & _ & _ & ->).
  destruct (strptime_date_inv format_Y_m_d _ _ eq_refl eq_refl Htd2)
    as (y2 & m2 & d2 & _ & _ & _ & ->).
  unfold midnight in Hw1, Hw2.
  destruct (week_window_holds _ _ _ _ Hw1) as (Hin_1 & Hws1 & Hwe1).
  destruct (week_window_holds _ _ _ _ Hw2) as (Hin_2 & Hws2 & Hwe2).
  destruct (in_week_midnight _ _ _ Hws1 Hwe1 He1)
    as (y & m & d & _ & _ & _ & Hr & Hin1).
  destruct (in_week_midnight _ _ _ Hws2 Hwe2 He2)
    as (y' & m' & d' & _ & _ & _ & Hr' & Hin2).
  rewrite Hr in Hr'. injection Hr' as Ho.
  rewrite <- Ho in Hin2.
  pose proof (week_window_member _ _ _ _ _ Hw1 Hin1) as H1.
  pose proof (week_window_member _ _ _ _ _ Hw2 Hin2) as H2.
  rewrite H1 in H2. injection H2 as -> ->.
  split; [|reflexivity].
  exists (midnight y1 m1 d1), (midnight y2 m2 d2), ws2, we2.
  split; [exact Htd1|]. split; [exact Htd2|].
  split; [exact Hw1|]. split; [exact Hw2|].
  rewrite Hws2, Hwe2. unfold midnight.
  rewrite !dt_le_midnight by reflexivity. cbn [ordinal]. lia.
Qed.

Lemma filter_events_by_week_weeks_disjoint_witness :
  exists out1 out2 : list Event,
    filter_events_by_week sample_events "2025-08-04" "Monday" = Ok out1 /\
    filter_events_by_week sample_events "2025-08-07" "Monday" = Ok out2 /\
    dated_event "Sunday, Aug 10, 2025" "No time found" ∈ out1 /\
    dated_event "Sunday, Aug 10, 2025" "No time found" ∈ out2 /\
    out1 = out2.
Proof.
  exists [dated_event "Mon, Aug 4, 2025" "10:30 AM - 12:00 PM";
          dated_event "Monday, Aug 4, 2025" "2:00 PM - 3:30 PM";
          dated_event "Sunday, Aug 10, 2025" "No time found"],
         [dated_event "Mon, Aug 4, 2025" "10:30 AM - 12:00 PM";
          dated_event "Monday, Aug 4, 2025" "2:00 PM - 3:30 PM";
          dated_event "Sunday, Aug 10, 2025" "No time found"].
  assert (H1 : filter_events_by_week sample_events "2025-08-04" "Monday"
               = Ok [dated_event "Mon, Aug 4, 2025" "10:30 AM - 12:00 PM";
                     dated_event "Monday, Aug 4, 2025" "2:00 PM - 3:30 PM";
                     dated_event "Sunday, Aug 10, 2025" "No time found"])
    by (vm_compute; reflexivity).
  assert (H2 : filter_events_by_week sample_events "2025-08-07" "Monday"
               = Ok [dated_event "Mon, Aug 4, 2025" "10:30 AM - 12:00 PM";
                     dated_event "Monday, Aug 4, 2025" "2:00 PM - 3:30 PM";
                     dated_event "Sunday, Aug 10, 2025" "No time found"])
    by (vm_compute; reflexivity).
  assert (He : dated_event "Sunday, Aug 10, 2025" "No time found"
               ∈ [dated_event "Mon, Aug 4, 2025" "10:30 AM - 12:00 PM";
                  dated_event "Monday, Aug 4, 2025" "2:00 PM - 3:30 PM";
                  dated_event "Sunday, Aug 10, 2025" "No time found"])
    by (do 2 apply list_elem_of_further; apply list_elem_of_here).
  split; [exact H1|]. split; [exact H2|]. split; [exact He|].
  split; [exact He|].
  exact (proj2 (filter_events_by_week_weeks_disjoint sample_events
                  "2025-08-04" "2025-08-07" "Monday" _ _ _ H1 H2 He He)).
Defined.

(** X19. Asking for the week of an event's own date returns the
    event: when the date of an event of the input reads "<weekday>, <Mon>
    <day>, <year>" and the target is the same day in the ISO form, the week
    filter, whatever the first day of the week, returns a list that holds
    the event. *)
Theorem filter_events_by_week_own_week (events : list Event) (e : Event)
    (wd wsd : string) (pad pad_month pad_day : bool) (y m d : Z)
    (out : list Event) :
  e ∈ events ->
  event_date e = date_text wd pad y m d ->
  lacks "," wd = true ->
  1 <= y <= 9999 -> 1 <= m <= 12 -> 1 <= d <= days_in_month y m ->
  filter_events_by_week events (iso_text pad_month pad_day y m d) wsd
    = Ok out ->
  e ∈ out.
Proof.
  intros He Hdate Hwd Hy Hm Hd Hout.
  assert (Hd31 : 1 <= d <= 31) by (pose proof (days_in_month_le y m Hm); lia).
  pose proof (strptime_iso_new pad_month pad_day y m d ltac:(lia) Hm Hd31)
    as Hs.
  rewrite new_midnight in Hs by assumption.
  apply filter_events_by_week_cases in Hout
    as [[_ [ex Hex]]|(td & ws & we & Htd & Hw & ->)]; [congruence|].
  rewrite Hs in Htd. injection Htd as <-.
  rewrite sort_by_elem_of, list_elem_of_In, filter_In, <- list_elem_of_In.
  split; [exact He|].
  rewrite (in_week_of_date _ _ _ _ Hdate).
  rewrite read_date_text by (assumption || lia).
  rewrite new_midnight by assumption.
  unfold midnight in Hw.
  destruct (week_window_holds _ _ _ _ Hw) as (Hin & Hws & Hwe).
  apply andb_true_iff. rewrite !dt_leb_le. rewrite Hws, Hwe. unfold midnight.
  rewrite !dt_le_midnight by reflexivity. cbn [ordinal]. lia.
Qed.

Lemma filter_events_by_week_own_week_witness :
  exists out : list Event,
    filter_events_by_week sample_events "2025-8-10" "Wednesday" = Ok out /\
    dated_event "Sunday, Aug 10, 2025" "No time found" ∈ out.
Proof.
  eexists. split; [vm_compute; reflexivity|].
  apply (filter_events_by_week_own_week sample_events
           (dated_event "Sunday, Aug 10, 2025" "No time found")
           "Sunday" "Wednesday" false false false 2025 8 10).
  - unfold sample_events. do 4 apply list_elem_of_further.
    apply list_elem_of_here.
  - vm_compute. reflexivity.
  - reflexivity.
  - lia.
  - lia.
  - vm_compute. split; congruence.
  - vm_compute. reflexivity.
Defined.

(** ** Written dates and times under the parsers *)

Lemma names_day_read (s : string) (y m d : Z) :
  names_day s y m d -> read_date s = Some (midnight y m d).
Proof.
  intros (wd & pad & Hwd & Hy & Hm & Hd & Hs).
  assert (Hd31 : 1 <= d <= 31) by (pose proof (days_in_month_le y m Hm); lia).
  destruct Hs as [->|[more ->]].
  - rewrite read_date_text by (assumption || lia).
    now rewrite new_midnight.
  - rewrite read_date_text_more by (assumption || lia).
    now rewrite new_midnight.
Qed.

Lemma read_date_short (s : string) :
  (length (split ", " s) < 3)%nat -> read_date s = None.
Proof.
  intros Hlen. unfold read_date.
  destruct (split ", " s !! 1%nat) as [seg1|]; [|reflexivity].
  destruct (split ", " s !! 2%nat) as [seg2|] eqn:H2; [|reflexivity].
  apply lookup_lt_Some in H2. lia.
Qed.

Lemma names_time_minutes (s : string) (h mi : Z) (pm : bool) :
  names_time s h mi pm -> parse_time_to_minutes s = hour24 h pm * 60 + mi.
Proof.
  intros (pad & Hh & Hmi & Hs).
  pose proof (clock_text_checked pad h mi pm Hh Hmi) as Hok.
  unfold clock_text_ok in Hok. cbv zeta in Hok.
  apply andb_true_iff in Hok as [Hok Hparse].
  apply andb_true_iff in Hok as [Hdash Hfirst].
  destruct (time_text pad h mi pm) as [|c t'] eqn:Ht; [discriminate|].
  apply negb_true_iff in Hfirst.
  destruct (strptime format_I_M_p (strip (String c t'))) as [t|] eqn:Hd;
    [|discriminate].
  apply andb_true_iff in Hparse as [Hhour Hmin].
  apply Z.eqb_eq in Hhour, Hmin.
  destruct Hs as [->|[end_time ->]].
  - rewrite (parse_time_of_start _ (String c t') [] c t' eq_refl Hfirst).
    + rewrite Hd. now rewrite Hhour, Hmin.
    + now apply split_dash_none.
  - rewrite app_cons.
    rewrite (parse_time_of_start _ (String c t') (split " - " end_time) c
               (t' +:+ " - " +:+ end_time) eq_refl Hfirst).
    + rewrite Hd. now rewrite Hhour, Hmin.
    + rewrite <- app_cons. now apply split_dash_first.
Qed.

(** Midnights follow the calendar strictly. *)
Lemma midnight_lt (y m d y' m' d' : Z) :
  1 <= m <= 12 -> 1 <= m' <= 12 ->
  1 <= d <= days_in_month y m -> 1 <= d' <= days_in_month y' m' ->
  day_lt y m d y' m' d' ->
  DateTime.ltb (midnight y m d) (midnight y' m' d') = true.
Proof.
  intros Hm Hm' Hd Hd' Hlt.
  destruct (DateTime.ltb (midnight y m d) (midnight y' m' d')) eqn:E;
    [reflexivity|].
  exfalso.
  assert (Hle : dt_le (midnight y' m' d') (midnight y m d)) by exact E.
  apply midnight_le in Hle; [|assumption..].
  unfold day_lt in Hlt. lia.
Qed.

Lemma sort_key_names (e : Event) (y m d : Z) :
  names_day (event_date e) y m d ->
  sort_key e = (midnight y m d, minutes_of e).
Proof. intros H%names_day_read. now rewrite sort_key_read, H. Qed.

(** In a list sorted by key, an element of strictly smaller key comes
    first. *)
Lemma sorted_by_index_lt {A K : Type} (key : A -> K) (lt : K -> K -> bool)
    (l : list A) (i j : nat) (x y : A) :
  sorted_by key lt l ->
  l !! i = Some x -> l !! j = Some y ->
  lt (key x) (key y) = true -> lt (key x) (key x) = false ->
  (i < j)%nat.
Proof.
  intros Hs Hi Hj Hlt Hirr.
  destruct (Nat.lt_trichotomy i j) as [H|[->|H]]; [exact H| |].
  - rewrite Hi in Hj. injection Hj as <-. congruence.
  - pose proof (sorted_by_lookup key lt l j i y x Hs H Hj Hi). congruence.
Qed.

Lemma pair_ltb_irrefl (a : datetime * Z) : pair_ltb a a = false.
Proof.
  destruct (pair_ltb a a) eqn:E; [|reflexivity].
  pose proof (pair_ltb_asym a a E). congruence.
Qed.

Lemma pair_ltb_date (a b : datetime) (x y : Z) :
  DateTime.ltb a b = true -> pair_ltb (a, x) (b, y) = true.
Proof.
  intros H. unfold pair_ltb. cbn [fst snd].
  destruct (DateTime.eqb a b) eqn:E; [|exact H].
  apply dt_eqb_eq in E as ->. now rewrite dt_ltb_irrefl in H.
Qed.

Lemma pair_ltb_minutes (a : datetime) (x y : Z) :
  x < y -> pair_ltb (a, x) (a, y) = true.
Proof.
  intros H. unfold pair_ltb. cbn [fst snd].
  replace (DateTime.eqb a a) with true by (symmetry; now apply dt_eqb_eq).
  cbn [negb]. lia.
Qed.

(** ** The date parser, the week filter and the grouping on written dates *)

(** C3, as amended.  The date parser used for sorting returns, for a date
    string "weekday, Mon D, YYYY" (the day in one or two digits) that names
    a date of the calendar, that date, and the same date when further
    ", "-separated segments follow the year: only the second and third
    segments are read.  On a string with fewer than three segments, or
    whose second and third segments [strptime] rejects, it returns the
    sentinel [datetime.max].  Every string either reads as a date, which
    is then the result and lies strictly before the sentinel, or gets the
    sentinel: failures sort last. *)
Theorem parse_date_for_sorting_spec :
  (forall (wd : string) (pad : bool) (y m d : Z),
     lacks "," wd = true ->
     1 <= y <= 9999 -> 1 <= m <= 12 -> 1 <= d <= days_in_month y m ->
     split ", " (date_text wd pad y m d)
       = [wd; month_text m +:+ " " +:+ short_number pad d; year_text y] /\
     parse_date_for_sorting (date_text wd pad y m d) = midnight y m d /\
     forall more : string,
       parse_date_for_sorting (date_text wd pad y m d +:+ ", " +:+ more)
       = midnight y m d) /\
  (forall s : string,
     (length (split ", " s) < 3)%nat ->
     parse_date_for_sorting s = DateTime.max) /\
  (forall (s seg1 seg2 : string) (e : exn),
     split ", " s !! 1%nat = Some seg1 ->
     split ", " s !! 2%nat = Some seg2 ->
     strptime format_b_d_Y (seg1 +:+ ", " +:+ seg2) = Raise e ->
     parse_date_for_sorting s = DateTime.max) /\
  (forall s : string,
     parse_date_for_sorting s = DateTime.max \/
     (date_reads s (parse_date_for_sorting s) /\
      DateTime.ltb (parse_date_for_sorting s) DateTime.max = true)).
Proof.
  split; [|split; [|split]].
  - intros wd pad y m d Hwd Hy Hm Hd.
    assert (Hd31 : 1 <= d <= 31)
      by (pose proof (days_in_month_le y m Hm); lia).
    split; [now apply split_date_text; try lia|].
    split.
    + rewrite parse_date_read, read_date_text by (assumption || lia).
      now rewrite new_midnight.
    + intros more.
      rewrite parse_date_read, read_date_text_more by (assumption || lia).
      now rewrite new_midnight.
  - intros s Hlen. now rewrite parse_date_read, read_date_short.
  - intros s seg1 seg2 e H1 H2 He. rewrite parse_date_read. unfold read_date.
    now rewrite H1, H2, He.
  - intros s. rewrite parse_date_read.
    destruct (read_date s) as [t|] eqn:Ht; [right|now left]. cbn [default].
    split; [now apply read_date_spec|now apply read_date_before_max in Ht].
Qed.

Lemma parse_date_for_sorting_spec_witness :
  parse_date_for_sorting "Monday, Aug 1, 2025" = midnight 2025 8 1 /\
  parse_date_for_sorting "Monday, Aug 1, 2025, 7 PM, Main Library"
  = midnight 2025 8 1 /\
  parse_date_for_sorting "garbage" = DateTime.max /\
  parse_date_for_sorting "Monday, Aug 32, 2025" = DateTime.max.
Proof.
  destruct parse_date_for_sorting_spec as (Hgood & Hshort & Hbad & _).
  destruct (Hgood "Monday"%string false 2025 8 1 eq_refl ltac:(lia)
              ltac:(lia) ltac:(vm_compute; split; congruence))
    as (_ & H3 & Hmore).
  split; [exact H3|]. split; [exact (Hmore "7 PM, Main Library"%string)|].
  split.
  - apply (Hshort "garbage"%string). vm_compute. lia.
  - apply (Hbad "Monday, Aug 32, 2025"%string "Aug 32"%string "2025"%string
             ValueError); vm_compute; reflexivity.
Defined.

(** C3 as stated fails on a string of more than three segments: the
    segment count of "Monday, Aug 4, 2025, 7 PM" is 4, not 3, and yet the
    date parser reads it as 2025-08-04 and does not return the sentinel. *)
Lemma parse_date_for_sorting_four_segments :
  length (split ", " "Monday, Aug 4, 2025, 7 PM") = 4%nat /\
  parse_date_for_sorting "Monday, Aug 4, 2025, 7 PM" = midnight 2025 8 4 /\
  parse_date_for_sorting "Monday, Aug 4, 2025, 7 PM" <> DateTime.max /\
  ~ (forall s : string,
       length (split ", " s) <> 3%nat ->
       parse_date_for_sorting s = DateTime.max).
Proof.
  assert (H : parse_date_for_sorting "Monday, Aug 4, 2025, 7 PM"
              = midnight 2025 8 4) by (vm_compute; reflexivity).
  split; [reflexivity|]. split; [exact H|].
  split; [rewrite H; vm_compute; discriminate|].
  intros Hall.
  specialize (Hall "Monday, Aug 4, 2025, 7 PM"%string
                ltac:(vm_compute; discriminate)).
  rewrite H in Hall. vm_compute in Hall. discriminate Hall.
Qed.

(** C1, as amended.  When the target week is valid (the target date reads
    as a date and its week lies in the range of [datetime]), the week
    filter returns a list with exactly the input events whose date string
    reads, by its second and third ", "-separated segments in the format
    "%b %d, %Y", as a date from [week_start] to [week_end] inclusive;
    events with the sentinel date or a date string that does not read are
    left out without an error; the list is in ascending order of the pair
    (date read, minutes of the time parser).  On written dates: an event
    dated "<weekday>, <Mon> <day>, <year>", with or without further
    segments after the year, is returned exactly when that day lies in the
    week; an event whose date has fewer than three segments never is; of
    two events returned, the one of the earlier day comes first, and on one
    day the one of the earlier clock time. *)
Theorem filter_events_by_week_spec (events : list Event)
    (target wsd : string) (td ws we : datetime) :
  strptime format_Y_m_d target = Ok td ->
  week_window td (default 0 (day_mapping !! wsd)) = Ok (ws, we) ->
  exists out : list Event,
    filter_events_by_week events target wsd = Ok out /\
    out ≡ₚ List.filter (in_week ws we) events /\
    (forall e, e ∈ out <->
       e ∈ events /\
       exists d, date_reads (event_date e) d /\ dt_le ws d /\ dt_le d we) /\
    (forall e,
       event_date e = "No date found"%string \/
       (forall d, ~ date_reads (event_date e) d) ->
       e ∉ out) /\
    (forall e, e ∈ out ->
       exists d, date_reads (event_date e) d /\
         sort_key e = (d, minutes_of e)) /\
    sorted_by sort_key pair_ltb out /\
    (forall (e : Event) (y m d : Z),
       names_day (event_date e) y m d ->
       date_reads (event_date e) (midnight y m d) /\
       (e ∈ out <->
        e ∈ events /\
        dt_le ws (midnight y m d) /\ dt_le (midnight y m d) we) /\
       (e ∈ out <->
        e ∈ events /\ ordinal ws <= ymd2ord y m d <= ordinal we)) /\
    (forall e : Event,
       (length (split ", " (event_date e)) < 3)%nat -> e ∉ out) /\
    (forall (i j : nat) (e1 e2 : Event) (y1 m1 d1 y2 m2 d2 : Z),
       out !! i = Some e1 -> out !! j = Some e2 ->
       names_day (event_date e1) y1 m1 d1 ->
       names_day (event_date e2) y2 m2 d2 ->
       day_lt y1 m1 d1 y2 m2 d2 ->
       (i < j)%nat) /\
    (forall (i j : nat) (e1 e2 : Event) (y m d h1 mi1 h2 mi2 : Z)
            (pm1 pm2 : bool),
       out !! i = Some e1 -> out !! j = Some e2 ->
       names_day (event_date e1) y m d ->
       names_day (event_date e2) y m d ->
       names_time (event_time e1) h1 mi1 pm1 ->
       names_time (event_time e2) h2 mi2 pm2 ->
       hour24 h1 pm1 * 60 + mi1 < hour24 h2 pm2 * 60 + mi2 ->
       (i < j)%nat).
Proof.
  intros Htd Hw.
  exists (sort_by sort_key pair_ltb (List.filter (in_week ws we) events)).
  split; [now apply (filter_events_by_week_unfold _ _ _ td)|].
  split; [apply sort_by_perm|].
  assert (Hmem : forall e,
            e ∈ sort_by sort_key pair_ltb (List.filter (in_week ws we) events)
            <-> e ∈ events /\ in_week ws we e = true).
  { intros e. now rewrite sort_by_elem_of, list_elem_of_In, filter_In,
      <- list_elem_of_In. }
  assert (Hin : forall e,
            e ∈ sort_by sort_key pair_ltb (List.filter (in_week ws we) events)
            -> exists d, read_date (event_date e) = Some d).
  { intros e [_ He]%Hmem. unfold in_week in He.
    destruct (read_date (event_date e)) as [d|]; [eauto|discriminate]. }
  pose proof (sort_by_key_sorted (List.filter (in_week ws we) events))
    as Hsorted.
  split; [|split; [|split; [|split; [|split; [|split; [|split]]]]]].
  - intros e. now rewrite Hmem, in_week_spec.
  - intros e [E | Hno] [d Hd]%Hin.
    + rewrite E in Hd. discriminate.
    + apply (Hno d). now apply read_date_spec.
  - intros e [d Hd]%Hin. exists d. split; [now apply read_date_spec|].
    now rewrite sort_key_read, Hd.
  - exact Hsorted.
  - intros e y m d Hname. pose proof (names_day_read _ _ _ _ Hname) as Hr.
    split; [now apply read_date_spec|].
    rewrite Hmem. unfold in_week. rewrite Hr.
    rewrite andb_true_iff, !dt_leb_le. split; [tauto|].
    apply (strptime_date_inv format_Y_m_d _ _ eq_refl eq_refl) in Htd
      as (ty & tm & tdd & _ & _ & _ & ->).
    unfold midnight in Hw.
    destruct (week_window_holds _ _ _ _ Hw) as (_ & Hws & Hwe).
    rewrite Hws, Hwe. unfold midnight.
    rewrite !dt_le_midnight by reflexivity. cbn [ordinal]. tauto.
  - intros e Hlen [d Hd]%Hin. rewrite read_date_short in Hd by exact Hlen.
    discriminate.
  - intros i j e1 e2 y1 m1 d1 y2 m2 d2 Hi Hj Hn1 Hn2 Hlt.
    apply (sorted_by_index_lt sort_key pair_ltb _ i j e1 e2 Hsorted Hi Hj);
      [|apply pair_ltb_irrefl].
    rewrite (sort_key_names _ _ _ _ Hn1), (sort_key_names _ _ _ _ Hn2).
    apply pair_ltb_date.
    destruct Hn1 as (_ & _ & _ & _ & Hm1 & Hd1 & _).
    destruct Hn2 as (_ & _ & _ & _ & Hm2 & Hd2 & _).
    now apply midnight_lt.
  - intros i j e1 e2 y m d h1 mi1 h2 mi2 pm1 pm2 Hi Hj Hn1 Hn2 Ht1 Ht2 Hlt.
    apply (sorted_by_index_lt sort_key pair_ltb _ i j e1 e2 Hsorted Hi Hj);
      [|apply pair_ltb_irrefl].
    rewrite (sort_key_names _ _ _ _ Hn1), (sort_key_names _ _ _ _ Hn2).
    unfold minutes_of.
    rewrite (names_time_minutes _ _ _ _ Ht1), (names_time_minutes _ _ _ _ Ht2).
    now apply pair_ltb_minutes.
Qed.

Lemma filter_events_by_week_spec_witness :
  filter_events_by_week week_events "2025-08-04" "Monday"
  = Ok [dated_event "Mon, Aug 4, 2025" "10:30 AM - 12:00 PM";
        dated_event "Monday, Aug 4, 2025, 7 PM" "2:00 PM - 3:30 PM";
        dated_event "Sunday, Aug 10, 2025" "9:00 AM"] /\
  sorted_by sort_key pair_ltb
    [dated_event "Mon, Aug 4, 2025" "10:30 AM - 12:00 PM";
     dated_event "Monday, Aug 4, 2025, 7 PM" "2:00 PM - 3:30 PM";
     dated_event "Sunday, Aug 10, 2025" "9:00 AM"].
Proof.
  assert (Htd : strptime format_Y_m_d "2025-08-04" = Ok (midnight 2025 8 4))
    by (vm_compute; reflexivity).
  assert (Hw : week_window (midnight 2025 8 4)
                 (default 0 (day_mapping !! "Monday"%string))
               = Ok (midnight 2025 8 4, midnight 2025 8 10))
    by (vm_compute; reflexivity).
  assert (Hc : filter_events_by_week week_events "2025-08-04" "Monday"
               = Ok [dated_event "Mon, Aug 4, 2025" "10:30 AM - 12:00 PM";
                     dated_event "Monday, Aug 4, 2025, 7 PM"
                       "2:00 PM - 3:30 PM";
                     dated_event "Sunday, Aug 10, 2025" "9:00 AM"])
    by (vm_compute; reflexivity).
  destruct (filter_events_by_week_spec week_events "2025-08-04" "Monday"
              (midnight 2025 8 4) (midnight 2025 8 4) (midnight 2025 8 10)
              Htd Hw) as (out & Hout & _ & _ & _ & _ & Hsorted & _).
  rewrite Hc in Hout. injection Hout as <-.
  split; [exact Hc|exact Hsorted].
Defined.

(** C1 as stated fails in two places.  A date of more than three segments
    is read all the same: the event dated "Monday, Aug 4, 2025, 7 PM" is
    returned for its week.  And not every target date has a week: for
    0001-01-01, a Monday, and a week starting on Tuesday the call raises
    [OverflowError] and returns no list. *)
Lemma filter_events_by_week_four_segments :
  length (split ", " "Monday, Aug 4, 2025, 7 PM") = 4%nat /\
  filter_events_by_week
    [dated_event "Monday, Aug 4, 2025, 7 PM" "2:00 PM"] "2025-08-04" "Monday"
  = Ok [dated_event "Monday, Aug 4, 2025, 7 PM" "2:00 PM"] /\
  strptime format_Y_m_d "0001-01-01" = Ok (midnight 1 1 1) /\
  filter_events_by_week
    [dated_event "Monday, Aug 4, 2025" "2:00 PM"] "0001-01-01" "Tuesday"
  = Raise OverflowError /\
  ~ (forall (events : list Event) (target wsd : string) (td : datetime),
       strptime format_Y_m_d target = Ok td ->
       exists out : list Event,
         filter_events_by_week events target wsd = Ok out).
Proof.
  assert (Htd : strptime format_Y_m_d "0001-01-01" = Ok (midnight 1 1 1))
    by (vm_compute; reflexivity).
  assert (Hraise : filter_events_by_week
                     [dated_event "Monday, Aug 4, 2025" "2:00 PM"]
                     "0001-01-01" "Tuesday" = Raise OverflowError)
    by (vm_compute; reflexivity).
  split; [reflexivity|]. split; [vm_compute; reflexivity|].
  split; [exact Htd|]. split; [exact Hraise|].
  intros Hall.
  destruct (Hall [dated_event "Monday, Aug 4, 2025" "2:00 PM"]
              "0001-01-01"%string "Tuesday"%string (midnight 1 1 1) Htd)
    as [out Hout].
  rewrite Hraise in Hout. discriminate Hout.
Qed.

Lemma ltb_before_max (s : string) (y m d : Z) :
  names_day s y m d ->
  DateTime.ltb (parse_date_for_sorting s) DateTime.max = true.
Proof.
  intros H%names_day_read. rewrite parse_date_read, H. cbn [default].
  now apply (read_date_before_max s).
Qed.

(** C7. [organize_events_by_date] returns one group for each raw date
    string that occurs (the key an event goes under is its date string, so
    strings that differ are separate groups, whatever day they denote);
    the group of a date string holds exactly the events with that string,
    in ascending order of the minutes of the time parser; the groups follow
    each other in ascending order of the date read by the date parser, and a
    key that gets the sentinel is followed by such keys only.  On written
    dates and times: of two groups named "<weekday>, <Mon> <day>, <year>"
    the one of the earlier day of the calendar comes first, whatever the
    order of arrival; a group whose name has fewer than three segments
    comes after every group named by a day; inside a group an event with
    the earlier clock time comes first. *)
Theorem organize_events_by_date_spec :
  (forall events : list Event,
     exists groups : list (string * list Event),
       organize_events_by_date events = Ok groups /\
       NoDup (map fst groups) /\
       (forall e, e ∈ events ->
          exists evs, (event_date e, evs) ∈ groups /\ e ∈ evs) /\
       (forall k evs, (k, evs) ∈ groups ->
          evs = sort_by minutes_of Z.ltb (events_on k events) /\
          evs ≡ₚ events_on k events /\
          (forall e, e ∈ evs <-> e ∈ events /\ event_date e = k) /\
          sorted_by minutes_of Z.ltb evs) /\
       sorted_by parse_date_for_sorting DateTime.ltb (map fst groups) /\
       (forall (i j : nat) (k1 k2 : string),
          (i < j)%nat ->
          map fst groups !! i = Some k1 -> map fst groups !! j = Some k2 ->
          dt_le (parse_date_for_sorting k1) (parse_date_for_sorting k2) /\
          (parse_date_for_sorting k1 = DateTime.max ->
           parse_date_for_sorting k2 = DateTime.max)) /\
       (forall (i j : nat) (k1 k2 : string) (y1 m1 d1 y2 m2 d2 : Z),
          map fst groups !! i = Some k1 -> map fst groups !! j = Some k2 ->
          names_day k1 y1 m1 d1 -> names_day k2 y2 m2 d2 ->
          day_lt y1 m1 d1 y2 m2 d2 ->
          (i < j)%nat) /\
       (forall (i j : nat) (k1 k2 : string) (y m d : Z),
          map fst groups !! i = Some k1 -> map fst groups !! j = Some k2 ->
          names_day k1 y m d ->
          (length (split ", " k2) < 3)%nat ->
          (i < j)%nat) /\
       (forall (k : string) (evs : list Event) (i j : nat) (e1 e2 : Event)
               (h1 mi1 h2 mi2 : Z) (pm1 pm2 : bool),
          (k, evs) ∈ groups ->
          evs !! i = Some e1 -> evs !! j = Some e2 ->
          names_time (event_time e1) h1 mi1 pm1 ->
          names_time (event_time e2) h2 mi2 pm2 ->
          hour24 h1 pm1 * 60 + mi1 < hour24 h2 pm2 * 60 + mi2 ->
          (i < j)%nat)) /\
  (let e1 := dated_event "Monday, Aug 4, 2025" "2:00 PM" in
   let e2 := dated_event "Mon, Aug 4, 2025" "10:30 AM" in
   organize_events_by_date [e1; e2]
     = Ok [("Monday, Aug 4, 2025"%string, [e1]);
           ("Mon, Aug 4, 2025"%string, [e2])] /\
   parse_date_for_sorting "Monday, Aug 4, 2025"
     = parse_date_for_sorting "Mon, Aug 4, 2025") /\
  (let g := dated_event "garbage" "9:00 AM" in
   let a := dated_event "Sunday, Aug 10, 2025" "1:00 PM" in
   let b := dated_event "Monday, Aug 4, 2025" "2:00 PM - 3:30 PM" in
   let c := dated_event "Monday, Aug 4, 2025" "10:30 AM" in
   let d := dated_event "Tuesday, Jul 29, 2025" "No time found" in
   organize_events_by_date [g; a; b; c; d]
     = Ok [("Tuesday, Jul 29, 2025"%string, [d]);
           ("Monday, Aug 4, 2025"%string, [c; b]);
           ("Sunday, Aug 10, 2025"%string, [a]);
           ("garbage"%string, [g])]).
Proof.
  split; [|split; [split; reflexivity|vm_compute; reflexivity]].
  intros events.
  destruct (organize_events_by_date_unfold events)
    as (keys & Hnd & Hkeys & Heq).
  set (ks := sort_by parse_date_for_sorting DateTime.ltb keys) in *.
  assert (Hperm : ks ≡ₚ keys) by apply sort_by_perm.
  set (G := fun k => sort_by minutes_of Z.ltb (events_on k events)) in *.
  assert (Hfst : map fst (map (fun k => (k, G k)) ks) = ks).
  { rewrite map_map. cbn [fst]. apply map_id. }
  assert (Hgrp : forall k evs,
            (k, evs) ∈ map (fun k => (k, G k)) ks -> k ∈ keys /\ evs = G k).
  { intros k evs (k' & [= -> ->] & Hk')%list_elem_of_fmap.
    split; [now rewrite <- Hperm|reflexivity]. }
  pose proof (sort_by_date_sorted keys) as Hsorted. fold ks in Hsorted.
  exists (map (fun k => (k, G k)) ks).
  split; [exact Heq|]. rewrite Hfst.
  split; [now rewrite Hperm|].
  split; [|split; [|split; [|split; [|split; [|split]]]]].
  - intros e He. exists (G (event_date e)). split.
    + apply list_elem_of_fmap. exists (event_date e). split; [reflexivity|].
      rewrite Hperm. apply Hkeys. apply events_on_nonempty. now exists e.
    + unfold G. rewrite sort_by_elem_of. now apply events_on_elem_of.
  - intros k evs [Hk ->]%Hgrp. unfold G. split; [reflexivity|].
    split; [apply sort_by_perm|]. split; [|apply sort_by_minutes_sorted].
    intros e. rewrite sort_by_elem_of. apply events_on_elem_of.
  - exact Hsorted.
  - intros i j k1 k2 Hij H1 H2.
    assert (Hle : dt_le (parse_date_for_sorting k1)
                    (parse_date_for_sorting k2)).
    { unfold dt_le.
      apply (sorted_by_lookup parse_date_for_sorting DateTime.ltb ks i j);
        assumption. }
    split; [exact Hle|]. intros Hmax. rewrite Hmax in Hle.
    apply dt_le_antisym; [apply parse_date_le_max|exact Hle].
  - intros i j k1 k2 y1 m1 d1 y2 m2 d2 H1 H2 Hn1 Hn2 Hlt.
    apply (sorted_by_index_lt parse_date_for_sorting DateTime.ltb ks i j
             k1 k2 Hsorted H1 H2); [|apply dt_ltb_irrefl].
    rewrite !parse_date_read.
    rewrite (names_day_read _ _ _ _ Hn1), (names_day_read _ _ _ _ Hn2).
    cbn [default].
    destruct Hn1 as (_ & _ & _ & _ & Hm1 & Hd1 & _).
    destruct Hn2 as (_ & _ & _ & _ & Hm2 & Hd2 & _).
    now apply midnight_lt.
  - intros i j k1 k2 y m d H1 H2 Hn1 Hshort.
    apply (sorted_by_index_lt parse_date_for_sorting DateTime.ltb ks i j
             k1 k2 Hsorted H1 H2); [|apply dt_ltb_irrefl].
    rewrite (parse_date_read k2), (read_date_short k2 Hshort).
    cbn [default]. now apply (ltb_before_max k1 y m d).
  - intros k evs i j e1 e2 h1 mi1 h2 mi2 pm1 pm2 [_ ->]%Hgrp Hi Hj Ht1 Ht2 Hlt.
    apply (sorted_by_index_lt minutes_of Z.ltb _ i j e1 e2
             (sort_by_minutes_sorted _) Hi Hj); [|apply Z.ltb_irrefl].
    unfold minutes_of.
    rewrite (names_time_minutes _ _ _ _ Ht1), (names_time_minutes _ _ _ _ Ht2).
    now apply Z.ltb_lt.
Qed.

Lemma organize_events_by_date_spec_witness :
  organize_events_by_date week_events
  = Ok [("Sunday, Aug 3, 2025"%string,
         [dated_event "Sunday, Aug 3, 2025" "1:00 PM"]);
        ("Monday, Aug 4, 2025, 7 PM"%string,
         [dated_event "Monday, Aug 4, 2025, 7 PM" "2:00 PM - 3:30 PM"]);
        ("Mon, Aug 4, 2025"%string,
         [dated_event "Mon, Aug 4, 2025" "10:30 AM - 12:00 PM"]);
        ("Sunday, Aug 10, 2025"%string,
         [dated_event "Sunday, Aug 10, 2025" "9:00 AM"]);
        ("Aug 5, 2025"%string, [dated_event "Aug 5, 2025" "8:00 AM"]);
        ("No date found"%string, [dated_event "No date found" "9:00 AM"])] /\
  sorted_by parse_date_for_sorting DateTime.ltb
    ["Sunday, Aug 3, 2025"; "Monday, Aug 4, 2025, 7 PM"; "Mon, Aug 4, 2025";
     "Sunday, Aug 10, 2025"; "Aug 5, 2025"; "No date found"]%string.
Proof.
  assert (Hc : organize_events_by_date week_events
               = Ok [("Sunday, Aug 3, 2025"%string,
                      [dated_event "Sunday, Aug 3, 2025" "1:00 PM"]);
                     ("Monday, Aug 4, 2025, 7 PM"%string,
                      [dated_event "Monday, Aug 4, 2025, 7 PM"
                         "2:00 PM - 3:30 PM"]);
                     ("Mon, Aug 4, 2025"%string,
                      [dated_event "Mon, Aug 4, 2025" "10:30 AM - 12:00 PM"]);
                     ("Sunday, Aug 10, 2025"%string,
                      [dated_event "Sunday, Aug 10, 2025" "9:00 AM"]);
                     ("Aug 5, 2025"%string,
                      [dated_event "Aug 5, 2025" "8:00 AM"]);
                     ("No date found"%string,
                      [dated_event "No date found" "9:00 AM"])])
    by (vm_compute; reflexivity).
  destruct (proj1 organize_events_by_date_spec week_events)
    as (groups & Heq & _ & _ & _ & Hsorted & _).
  rewrite Hc in Heq. injection Heq as <-.
  split; [exact Hc|exact Hsorted].
Defined.
